(** * Jam-spot calendar and friend directory of the host agent

    A shallow embedding of [host/jam_session_tools.py] (the in-memory
    calendar, the availability query and the booking operation) and of the
    friend-directory bootstrap of [host/host_agent.py], with the properties
    the specification states about them.

    Conventions.
    - A Python [str] is a Rocq [string]; one character stands for one code
      point below 256.
    - A Python [dict] is an association list in insertion order with unique
      keys ([PyDict]); assigning to a key that is present replaces the value
      in place, assigning to a new key appends.
    - The module-level [JAM_SPOT_SCHEDULE] is threaded explicitly: every
      operation takes the calendar and returns its result with the calendar
      it leaves behind.
    - A [datetime] produced by [strptime] is its position on the minute
      timeline (proleptic Gregorian ordinal day * 1440 + minute of day);
      comparing instants and adding [timedelta(hours=1)] are then [<] and
      [+ 60] on [Z].  Python raises [OverflowError] past year 9999; the
      model does not bound the timeline. *)

From Stdlib Require Import ZArith List String Ascii Bool Lia Permutation Sorted.
Import ListNotations.

Local Open Scope string_scope.
Local Open Scope list_scope.
Local Open Scope Z_scope.

Set Implicit Arguments.

(* ================================================================== *)
(** ** Python dictionaries *)

Module PyDict.
Section Dict.
Variable V : Type.

Definition dict := list (string * V).

Definition empty : dict := [].

(** [d.get(k)] *)
Fixpoint get (k : string) (d : dict) : option V :=
  match d with
  | [] => None
  | (k', v) :: d' => if String.eqb k k' then Some v else get k d'
  end.

(** [d.get(k, default)] *)
Definition get_default (k : string) (default : V) (d : dict) : V :=
  match get k d with
  | Some v => v
  | None => default
  end.

(** [k in d] *)
Definition mem (k : string) (d : dict) : bool :=
  match get k d with
  | Some _ => true
  | None => false
  end.

(** [d[k] = v] *)
Fixpoint set (k : string) (v : V) (d : dict) : dict :=
  match d with
  | [] => [(k, v)]
  | (k', v') :: d' =>
      if String.eqb k k' then (k', v) :: d' else (k', v') :: set k v d'
  end.

Definition keys (d : dict) : list string := map fst d.
Definition values (d : dict) : list V := map snd d.
Definition items (d : dict) : list (string * V) := d.

(** [{k: v for k, v in kvs}] *)
Definition of_items (kvs : list (string * V)) : dict :=
  fold_left (fun d kv => set (fst kv) (snd kv) d) kvs empty.

(** [not d] *)
Definition is_empty (d : dict) : bool :=
  match d with
  | [] => true
  | _ :: _ => false
  end.
End Dict.
Arguments empty {V}.
End PyDict.

(* ================================================================== *)
(** ** Characters, numbers and formatting *)

Definition dquote : string := String (ascii_of_nat 34) EmptyString.

Definition code (c : ascii) : Z := Z.of_nat (nat_of_ascii c).

Definition in_range (lo hi : Z) (c : ascii) : bool :=
  (lo <=? code c) && (code c <=? hi).

(** [\d] on code points below 256: the ASCII digits. *)
Definition is_digit (c : ascii) : bool := in_range 48 57 c.

(** [\s] on code points below 256 (the characters [str.isspace] accepts). *)
Definition is_space (c : ascii) : bool :=
  in_range 9 13 c || in_range 28 32 c || (code c =? 133) || (code c =? 160).

Definition digit_char (n : Z) : ascii := ascii_of_nat (Z.to_nat (48 + n mod 10)).

(** [f"{n:02}"], also [%m], [%d], [%H], [%M] of [strftime]. *)
Definition pad2 (n : Z) : string :=
  if n <? 100
  then String (digit_char (n / 10)) (String (digit_char n) EmptyString)
  else String (digit_char (n / 100)) (String (digit_char (n / 10))
         (String (digit_char n) EmptyString)).

(** [%Y] of [strftime] for a year of four digits. *)
Definition pad4 (n : Z) : string :=
  String (digit_char (n / 1000)) (String (digit_char (n / 100))
    (String (digit_char (n / 10)) (String (digit_char n) EmptyString))).

(* ================================================================== *)
(** ** The proleptic Gregorian calendar of [datetime] *)

Record date := Date { year : Z; month : Z; day : Z }.

Definition is_leap (y : Z) : bool :=
  (y mod 4 =? 0) && (negb (y mod 100 =? 0) || (y mod 400 =? 0)).

Definition days_in_month (y m : Z) : Z :=
  if m =? 2 then (if is_leap y then 29 else 28)
  else if (m =? 4) || (m =? 6) || (m =? 9) || (m =? 11) then 30
  else 31.

Definition valid_date (d : date) : bool :=
  (1 <=? year d) && (year d <=? 9999) &&
  (1 <=? month d) && (month d <=? 12) &&
  (1 <=? day d) && (day d <=? days_in_month (year d) (month d)).

Definition days_before_year (y : Z) : Z :=
  let p := y - 1 in p * 365 + p / 4 - p / 100 + p / 400.

Fixpoint days_before_month_aux (y : Z) (n : nat) : Z :=
  match n with
  | O => 0
  | S n' => days_before_month_aux y n' + days_in_month y (Z.of_nat n)
  end.

Definition days_before_month (y m : Z) : Z :=
  days_before_month_aux y (Z.to_nat (m - 1)).

(** [date.toordinal()] *)
Definition toordinal (d : date) : Z :=
  days_before_year (year d) + days_before_month (year d) (month d) + day d.

(** [d + timedelta(days=1)] *)
Definition next_day (d : date) : date :=
  if day d <? days_in_month (year d) (month d)
  then Date (year d) (month d) (day d + 1)
  else if month d <? 12 then Date (year d) (month d + 1) 1
  else Date (year d + 1) 1 1.

(** [d + timedelta(days=i)] *)
Fixpoint add_days (d : date) (i : nat) : date :=
  match i with
  | O => d
  | S i' => next_day (add_days d i')
  end.

(** [d.strftime("%Y-%m-%d")] *)
Definition strftime_date (d : date) : string :=
  pad4 (year d) ++ "-" ++ pad2 (month d) ++ "-" ++ pad2 (day d).

(** A [datetime] as minutes since the start of ordinal day 0. *)
Definition datetime := Z.

Definition mk_datetime (d : date) (H M : Z) : datetime :=
  toordinal d * 1440 + H * 60 + M.

Definition dt_hour (t : datetime) : Z := (t mod 1440) / 60.
Definition dt_minute (t : datetime) : Z := t mod 60.

(** [t.strftime("%H:%M")] *)
Definition strftime_HM (t : datetime) : string :=
  pad2 (dt_hour t) ++ ":" ++ pad2 (dt_minute t).

(* ================================================================== *)
(** ** [datetime.strptime] for the two formats the tools use

    The library compiles a format into a regular expression, takes the
    first match in priority order (ordered alternation, greedy [\s+], with
    backtracking), rejects the input when text is left over, and builds the
    date, which rejects a day the month does not have.  Every failure is a
    [ValueError].  The matcher below returns all matches in priority order;
    the head of that list is the match the library takes. *)

Inductive char_class :=
  | Chr (c : ascii)            (* a literal character *)
  | Rng (lo hi : Z)            (* [lo-hi] *)
  | Dig.                       (* \d *)

Definition class_matches (k : char_class) (c : ascii) : bool :=
  match k with
  | Chr c' => Ascii.eqb c c'
  | Rng lo hi => in_range lo hi c
  | Dig => is_digit c
  end.

(** One alternative of a directive: a fixed sequence of character classes.
    Returns the text it matched and the rest. *)
Fixpoint match_classes (ks : list char_class) (s : string)
  : option (string * string) :=
  match ks with
  | [] => Some (EmptyString, s)
  | k :: ks' =>
      match s with
      | EmptyString => None
      | String c s' =>
          if class_matches k c then
            match match_classes ks' s' with
            | Some (m, r) => Some (String c m, r)
            | None => None
            end
          else None
      end
  end.

(** [int(text)] on what a directive matched: decimal digits, a leading
    blank skipped. *)
Fixpoint int_of_digits (acc : Z) (s : string) : Z :=
  match s with
  | EmptyString => acc
  | String c s' =>
      if is_digit c then int_of_digits (acc * 10 + (code c - 48)) s'
      else int_of_digits acc s'
  end.

Definition directive := list (list char_class).

Definition dir_Y : directive := [[Dig; Dig; Dig; Dig]].
Definition dir_m : directive :=
  [[Chr "1"; Rng 48 50]; [Chr "0"; Rng 49 57]; [Rng 49 57]].
Definition dir_d : directive :=
  [[Chr "3"; Rng 48 49]; [Rng 49 50; Dig]; [Chr "0"; Rng 49 57]; [Rng 49 57];
   [Chr " "; Rng 49 57]].
Definition dir_H : directive :=
  [[Chr "2"; Rng 48 51]; [Rng 48 49; Dig]; [Dig]].
Definition dir_M : directive := [[Rng 48 53; Dig]; [Dig]].

Inductive fmt_item :=
  | Lit (c : ascii)            (* a literal character of the format *)
  | Spaces                     (* white space in the format: \s+ *)
  | Dir (d : directive).       (* a % directive *)

(** The non-empty white-space prefixes of [s], longest first. *)
Fixpoint space_prefixes (s : string) : list string :=
  match s with
  | EmptyString => []
  | String c s' => if is_space c then space_prefixes s' ++ [s'] else []
  end.

(** All matches of a format against [s], in the priority order of the
    backtracking matcher: the values of the directives and the rest. *)
Fixpoint match_format (f : list fmt_item) (s : string)
  : list (list Z * string) :=
  match f with
  | [] => [([], s)]
  | Lit c :: f' =>
      match s with
      | String c' s' => if Ascii.eqb c' c then match_format f' s' else []
      | EmptyString => []
      end
  | Spaces :: f' => flat_map (match_format f') (space_prefixes s)
  | Dir d :: f' =>
      flat_map
        (fun alt =>
           match match_classes alt s with
           | Some (m, r) =>
               map (fun vr => (int_of_digits 0 m :: fst vr, snd vr))
                   (match_format f' r)
           | None => []
           end) d
  end.

(** [re.match] and the check that no text is left over. *)
Definition strptime_fields (f : list fmt_item) (s : string) : option (list Z) :=
  match match_format f s with
  | (vs, EmptyString) :: _ => Some vs
  | _ => None
  end.

Definition fmt_date : list fmt_item :=
  [Dir dir_Y; Lit "-"; Dir dir_m; Lit "-"; Dir dir_d].

Definition fmt_datetime : list fmt_item :=
  fmt_date ++ [Spaces; Dir dir_H; Lit ":"; Dir dir_M].

(** [datetime.strptime(s, "%Y-%m-%d")]; [None] is [ValueError]. *)
Definition strptime_date (s : string) : option date :=
  match strptime_fields fmt_date s with
  | Some [y; m; d] =>
      if valid_date (Date y m d) then Some (Date y m d) else None
  | _ => None
  end.

(** [datetime.strptime(s, "%Y-%m-%d %H:%M")]; [None] is [ValueError]. *)
Definition strptime_datetime (s : string) : option datetime :=
  match strptime_fields fmt_datetime s with
  | Some [y; m; d; H; M] =>
      if valid_date (Date y m d) then Some (mk_datetime (Date y m d) H M)
      else None
  | _ => None
  end.

(* ================================================================== *)
(** ** Python values returned by the tools *)

Inductive value :=
  | VStr (s : string)
  | VList (l : list string)
  | VDict (d : PyDict.dict string).

(** The [dict] a tool returns. *)
Definition response := PyDict.dict value.

(** [f"{x}"] for [x] a [str] or [None]. *)
Definition format_opt (x : option string) : string :=
  match x with
  | Some s => s
  | None => "None"
  end.

(* ================================================================== *)
(** ** [jam_session_tools.py] *)

(** [Dict[str, Dict[str, str]]]: date to time slot to party name. *)
Definition schedule := PyDict.dict (PyDict.dict string).

(** [[f"{h:02}:00" for h in range(8, 21)]] *)
Definition possible_times : list string :=
  map (fun h => (pad2 (Z.of_nat h) ++ ":00")%string) (seq 8 13).

(** [{time: "unknown" for time in possible_times}] *)
Definition fresh_day : PyDict.dict string :=
  PyDict.of_items (map (fun time => (time, "unknown")) possible_times).

(** The body of [for i in range(7)], run for each [i] of [range]. *)
Fixpoint generate_loop (today : date) (range : list nat) (JAM : schedule)
  : schedule :=
  match range with
  | [] => JAM
  | i :: range' =>
      let current_date := add_days today i in
      let date_str := strftime_date current_date in
      generate_loop today range' (PyDict.set date_str fresh_day JAM)
  end.

(** [generate_friends_schedule()], with [date.today()] as [today]. *)
Definition generate_friends_schedule (today : date) (JAM : schedule)
  : schedule :=
  generate_loop today (seq 0 7) JAM.

Definition invalid_date_response : response :=
  [("status", VStr "error");
   ("message", VStr "Invalid date format. Please use YYYY-MM-DD.")].

Definition not_open_response (date : string) : response :=
  [("status", VStr "success");
   ("message", VStr ("The jam spot is not open on " ++ date ++ "."));
   ("schedule", VDict PyDict.empty)].

Definition schedule_response (date : string) (available_slots : list string)
  (booked_slots : PyDict.dict string) : response :=
  [("status", VStr "success");
   ("message", VStr ("Schedule for " ++ date ++ "."));
   ("available_slots", VList available_slots);
   ("booked_slots", VDict booked_slots)].

Definition is_unknown (party : string) : bool := String.eqb party "unknown".

(** [list_jam_spot_availabilities(date)]; it only reads the calendar. *)
Definition list_jam_spot_availabilities (date : string) (JAM : schedule)
  : response :=
  match strptime_date date with
  | None => invalid_date_response
  | Some _ =>
      match PyDict.get date JAM with
      | None => not_open_response date
      | Some daily_schedule =>
          if PyDict.is_empty daily_schedule then not_open_response date
          else
            let available_slots :=
              map fst (filter (fun tp => is_unknown (snd tp))
                              (PyDict.items daily_schedule)) in
            let booked_slots :=
              PyDict.of_items
                (filter (fun tp => negb (is_unknown (snd tp)))
                        (PyDict.items daily_schedule)) in
            schedule_response date available_slots booked_slots
      end
  end.

Definition error_response (message : string) : response :=
  [("status", VStr "error"); ("message", VStr message)].

(** The five failures of a booking, named as the specification names
    them, and the success, each with the message the code builds. *)
Definition InvalidInput : response :=
  error_response
    "Invalid date or time format. Please use YYYY-MM-DD and HH:MM.".

Definition InvalidRange : response :=
  error_response "Start time must be before end time.".

Definition NotOpen (date : string) : response :=
  error_response ("The jam spot is not open on " ++ date ++ ".").

Definition MissingOccupant : response :=
  error_response "Cannot book a jam spot without a reservation name.".

Definition SlotConflict (slot date : string) (party : option string)
  : response :=
  error_response
    ("The time slot " ++ slot ++ " on " ++ date ++ " is already booked by "
       ++ format_opt party ++ ".").

Definition Booked (reservation_name start_time end_time date : string)
  : response :=
  [("status", VStr "success");
   ("message",
    VStr ("Success! The jam session has been booked for " ++ reservation_name
            ++ " from " ++ start_time ++ " to " ++ end_time ++ " on " ++ date
            ++ "."))].

(** [while current_time < end_dt: append; current_time += 1 hour], the
    loop unrolled at most [fuel] times. *)
Fixpoint slots_loop (fuel : nat) (current_time end_dt : datetime)
  : list string :=
  match fuel with
  | O => []
  | S fuel' =>
      if current_time <? end_dt
      then strftime_HM current_time
             :: slots_loop fuel' (current_time + 60) end_dt
      else []
  end.

(** The loop leaves after at most [end_dt - start_dt] rounds, the cursor
    growing by 60 each round ([required_slots_spec] below). *)
Definition required_slots (start_dt end_dt : datetime) : list string :=
  slots_loop (Z.to_nat (end_dt - start_dt)) start_dt end_dt.

(** The first [slot] of the scan with
    [daily_schedule.get(slot, "booked") != "unknown"]. *)
Fixpoint first_conflict (required : list string)
  (daily_schedule : PyDict.dict string) : option string :=
  match required with
  | [] => None
  | slot :: required' =>
      if negb (is_unknown (PyDict.get_default slot "booked" daily_schedule))
      then Some slot
      else first_conflict required' daily_schedule
  end.

(** [for slot in required_slots: JAM_SPOT_SCHEDULE[date][slot] = name].
    The loop runs after the test [date not in JAM_SPOT_SCHEDULE], so the
    date is a key; the other branch stands for the [KeyError] that cannot
    happen there. *)
Fixpoint commit (date : string) (required : list string)
  (reservation_name : string) (JAM : schedule) : schedule :=
  match required with
  | [] => JAM
  | slot :: required' =>
      let JAM' :=
        match PyDict.get date JAM with
        | Some daily => PyDict.set date (PyDict.set slot reservation_name daily) JAM
        | None => JAM
        end in
      commit date required' reservation_name JAM'
  end.

(** [book_jam_session(date, start_time, end_time, reservation_name)] *)
Definition book_jam_session (date start_time end_time reservation_name : string)
  (JAM : schedule) : response * schedule :=
  match strptime_datetime (date ++ " " ++ start_time),
        strptime_datetime (date ++ " " ++ end_time) with
  | Some start_dt, Some end_dt =>
      if end_dt <=? start_dt then (InvalidRange, JAM)
      else if negb (PyDict.mem date JAM) then (NotOpen date, JAM)
      else if String.eqb reservation_name "" then (MissingOccupant, JAM)
      else
        let required := required_slots start_dt end_dt in
        let daily_schedule :=
          PyDict.get_default date PyDict.empty JAM in
        match first_conflict required daily_schedule with
        | Some slot =>
            let party := PyDict.get slot daily_schedule in
            (SlotConflict slot date party, JAM)
        | None =>
            (Booked reservation_name start_time end_time date,
             commit date required reservation_name JAM)
        end
  | _, _ => (InvalidInput, JAM)
  end.

(* ================================================================== *)
(** ** [host_agent.py]: the friend directory

    [A2ACardResolver.get_agent_card] is the collaborator transport: a
    parameter of the model that, for an address, returns a card or
    raises. *)

Module Host.

(** The two fields of [a2a.types.AgentCard] the directory reads. *)
Record AgentCard := { name : string; description : string }.

(** Modelled from the spec: the class [RemoteAgentConnections] of
    [host/remote_agent_connection.py], which is not among the sources.
    The directory maps a friend's name to a callable endpoint; the
    endpoint is made from the friend's descriptor and the address it was
    fetched from, the two arguments the constructor is given here. *)
Record RemoteAgentConnections :=
  { agent_card : AgentCard; agent_url : string }.

(** What [await card_resolver.get_agent_card()] can raise, by the
    [except] clause that meets it. *)
Inductive exception :=
  | ConnectError (error : string)    (* httpx.ConnectError *)
  | OtherException (error : string)  (* any other subclass of Exception:
                                        timeout, HTTP or JSON error *)
  | NotAnException (error : string). (* a BaseException outside Exception:
                                        cancellation, interrupt *)

(** What the code prints. *)
Inductive printed :=
  | FailedCard (address error : string)
      (* ERROR: Failed to get agent card from {address}: {error} *)
  | FailedInit (address error : string)
      (* ERROR: Failed to initialize connection for {address}: {error} *)
  | AgentInfo (agent_info : list string).
      (* agent_info: [...] *)

Record HostAgent := {
  remote_agent_connections : PyDict.dict RemoteAgentConnections;
  cards : PyDict.dict AgentCard;
  agents : string
}.

(** The attributes [__init__] sets that the directory uses. *)
Definition init : HostAgent :=
  {| remote_agent_connections := PyDict.empty;
     cards := PyDict.empty;
     agents := "" |}.

(** The instance and the output written so far. *)
Record world := { self : HostAgent; stdout : list printed }.

Definition backslash : string := String (ascii_of_nat 92) EmptyString.

Definition hex_digit (n : Z) : string :=
  String (ascii_of_nat (Z.to_nat (if n <? 10 then 48 + n else 87 + n)))
         EmptyString.

(** One character inside a JSON string, as [json.dumps] writes it with
    [ensure_ascii]. *)
Definition json_char (c : ascii) : string :=
  let n := code c in
  if n =? 34 then backslash ++ dquote
  else if n =? 92 then backslash ++ backslash
  else if n =? 10 then backslash ++ "n"
  else if n =? 13 then backslash ++ "r"
  else if n =? 9 then backslash ++ "t"
  else if n =? 8 then backslash ++ "b"
  else if n =? 12 then backslash ++ "f"
  else if (n <? 32) || (126 <? n)
       then backslash ++ "u00" ++ hex_digit (n / 16) ++ hex_digit (n mod 16)
  else String c EmptyString.

Fixpoint json_chars (s : string) : string :=
  match s with
  | EmptyString => EmptyString
  | String c s' => json_char c ++ json_chars s'
  end.

Definition json_string (s : string) : string :=
  dquote ++ json_chars s ++ dquote.

(** [json.dumps({"name": card.name, "description": card.description})] *)
Definition json_dumps_card (card : AgentCard) : string :=
  "{" ++ json_string "name" ++ ": " ++ json_string (name card) ++ ", "
      ++ json_string "description" ++ ": " ++ json_string (description card)
      ++ "}".

(** [sep.join(lines)] *)
Fixpoint join (sep : string) (lines : list string) : string :=
  match lines with
  | [] => EmptyString
  | [l] => l
  | l :: lines' => l ++ sep ++ join sep lines'
  end.

Definition newline : string := String (ascii_of_nat 10) EmptyString.

Section Transport.
Variable get_agent_card : string -> exception + AgentCard.

(** [_register_remote_agent(client, address)]: [inl] is an exception
    that leaves the method. *)
Definition _register_remote_agent (address : string) (w : world)
  : exception + world :=
  match get_agent_card address with
  | inl (ConnectError error) =>
      inr {| self := self w;
             stdout := (stdout w ++ [FailedCard address error])%list |}
  | inl (OtherException error) =>
      inr {| self := self w;
             stdout := (stdout w ++ [FailedInit address error])%list |}
  | inl (NotAnException error) => inl (NotAnException error)
  | inr card =>
      let remote_connection :=
        {| agent_card := card; agent_url := address |} in
      inr {| self :=
               {| remote_agent_connections :=
                    PyDict.set (name card) remote_connection
                               (remote_agent_connections (self w));
                  cards := PyDict.set (name card) card (cards (self w));
                  agents := agents (self w) |};
             stdout := stdout w |}
  end.

(** [_refresh_agent_directory()] *)
Definition _refresh_agent_directory (w : world) : world :=
  let agent_info := map json_dumps_card (PyDict.values (cards (self w))) in
  {| self :=
       {| remote_agent_connections := remote_agent_connections (self w);
          cards := cards (self w);
          agents := match agent_info with
                    | [] => "No friends found"
                    | _ :: _ => join newline agent_info
                    end |};
     stdout := (stdout w ++ [AgentInfo agent_info])%list |}.

(** [for address in remote_agent_addresses: await self._register_remote_agent(...)] *)
Fixpoint register_each (addresses : list string) (w : world)
  : exception + world :=
  match addresses with
  | [] => inr w
  | address :: addresses' =>
      match _register_remote_agent address w with
      | inl e => inl e
      | inr w' => register_each addresses' w'
      end
  end.

(** [_async_init_components(remote_agent_addresses)] *)
Definition _async_init_components (addresses : list string) (w : world)
  : exception + world :=
  match register_each addresses w with
  | inl e => inl e
  | inr w' => inr (_refresh_agent_directory w')
  end.

End Transport.
End Host.

(* ================================================================== *)
(** ** Notions the statements use *)

(** Number of rounds of the expansion loop: the hours from [start_dt] up
    to [end_dt], a started hour counting as one. *)
Definition rounds (start_dt end_dt : datetime) : nat :=
  Z.to_nat ((end_dt - start_dt + 59) / 60).

(** A slot is free on a day when the day maps it to the sentinel. *)
Definition free (slot : string) (daily : PyDict.dict string) : Prop :=
  PyDict.get slot daily = Some "unknown".

(** [d[slot] = name] for each required slot, on one day. *)
Definition set_all (required : list string) (name : string)
  (daily : PyDict.dict string) : PyDict.dict string :=
  fold_left (fun d slot => PyDict.set slot name d) required daily.

(** The calendar invariant: every date holds exactly the grid of
    [possible_times], in its order. *)
Definition calendar_ok (JAM : schedule) : Prop :=
  Forall (fun entry => PyDict.keys (snd entry) = possible_times) JAM.

(** The operations on the calendar. *)
Inductive operation :=
  | Generate (today : date)
  | ListAvailabilities (date : string)
  | Book (date start_time end_time reservation_name : string).

Definition run (op : operation) (JAM : schedule)
  : option response * schedule :=
  match op with
  | Generate today => (None, generate_friends_schedule today JAM)
  | ListAvailabilities date =>
      (Some (list_jam_spot_availabilities date JAM), JAM)
  | Book date start_time end_time reservation_name =>
      let r := book_jam_session date start_time end_time reservation_name JAM in
      (Some (fst r), snd r)
  end.

(** The calendars the running process can hold: the empty dictionary the
    module starts from, then any sequence of operations. *)
Inductive reachable : schedule -> Prop :=
  | reach_empty : reachable PyDict.empty
  | reach_step op JAM : reachable JAM -> reachable (snd (run op JAM)).

(** [slot] is the key of a whole hour that starts [k] hours after
    [start_dt] and ends at or before [end_dt]. *)
Definition covered (start_dt end_dt : datetime) (slot : string) : Prop :=
  exists k, 0 <= k /\ start_dt + 60 * (k + 1) <= end_dt /\
            slot = strftime_HM (start_dt + 60 * k).

(** The dates of the window generated on [today]. *)
Definition window (today : date) : list string :=
  map (fun i => strftime_date (add_days today i)) (seq 0 7).

(** The free and the booked part of a day, as the availability query
    computes them. *)
Definition available_of (daily : PyDict.dict string) : list string :=
  map fst (filter (fun tp => is_unknown (snd tp)) (PyDict.items daily)).

Definition booked_of (daily : PyDict.dict string) : PyDict.dict string :=
  PyDict.of_items
    (filter (fun tp => negb (is_unknown (snd tp))) (PyDict.items daily)).

(** No key [HH:MM] with minutes 01 to 59 is a key of the grid, checked
    over the 24 * 59 keys. *)
Definition misaligned_keys_off_grid : bool :=
  forallb
    (fun h =>
       forallb
         (fun m =>
            negb (existsb
                    (String.eqb (pad2 (Z.of_nat h) ++ ":" ++ pad2 (Z.of_nat m)))
                    possible_times))
         (seq 1 59))
    (seq 0 24).

(** A fetch that returned a card. *)
Definition answered (r : Host.exception + Host.AgentCard) : bool :=
  match r with
  | inr _ => true
  | inl _ => false
  end.

(** A fetch that returned a card or failed with an exception one of the
    two [except] clauses meets: the transport failures. *)
Definition caught (r : Host.exception + Host.AgentCard) : bool :=
  match r with
  | inl (Host.NotAnException _) => false
  | _ => true
  end.

(** The lines of the directory summary: one JSON object per card. *)
Definition agent_info (host : Host.HostAgent) : list string :=
  map Host.json_dumps_card (PyDict.values (Host.cards host)).

(** The line a failure is logged with. *)
Definition failure_line (address : string) (e : Host.exception)
  : option Host.printed :=
  match e with
  | Host.ConnectError error => Some (Host.FailedCard address error)
  | Host.OtherException error => Some (Host.FailedInit address error)
  | Host.NotAnException _ => None
  end.

(** The name [n] is in the directory, under a card of that name. *)
Definition listed (n : string) (w : Host.world) : Prop :=
  exists card, PyDict.get n (Host.cards (Host.self w)) = Some card /\
               Host.name card = n.

(** What [__init__] leaves, nothing printed yet. *)
Definition new_world : Host.world :=
  {| Host.self := Host.init; Host.stdout := [] |}.

(* ================================================================== *)
(** ** Sample data: the scenarios of the specification *)

Definition august_1 : date := Date 2024 8 1.

(** The calendar at process start on 2024-08-01. *)
Definition opening_calendar : schedule :=
  generate_friends_schedule august_1 PyDict.empty.

(** After Bob has booked 10:00 to 12:00 on 2024-08-01. *)
Definition bob_calendar : schedule :=
  snd (book_jam_session "2024-08-01" "10:00" "12:00" "Bob" opening_calendar).

(** A calendar left from a process started the day before, Bob holding
    10:00 on 2024-07-31. *)
Definition yesterday_calendar : schedule :=
  snd (book_jam_session "2024-07-31" "10:00" "11:00" "Bob"
         (generate_friends_schedule (Date 2024 7 31) PyDict.empty)).

(** A transport with one friend up, one refusing connections and one
    answering with a malformed descriptor. *)
Definition sample_transport (address : string)
  : Host.exception + Host.AgentCard :=
  if String.eqb address "http://localhost:10002"
  then inr {| Host.name := "Cartola"; Host.description := "plays samba" |}
  else if String.eqb address "http://localhost:10003"
  then inl (Host.ConnectError "connection refused")
  else inl (Host.OtherException "malformed agent card").

Definition sample_addresses : list string :=
  ["http://localhost:10002"; "http://localhost:10003";
   "http://localhost:10004"].

(* ================================================================== *)
(** ** [host_agent.py]: messages to friends

    [uuid.uuid4] and the remote client are collaborators: the model takes
    the sequence of identifiers the process draws and the answer of the
    remote client as parameters, and records in the world how many
    identifiers were drawn, what was sent and what was printed. *)

Module Messages.

(** The dictionary [_build_message_payload] returns, under ["message"]. *)
Record text_part := { type : string; text : string }.

Record message := {
  role : string;
  parts : list text_part;
  messageId : string;
  taskId : string;
  contextId : string
}.

(** [SendMessageRequest(id=..., params=MessageSendParams.model_validate(payload))] *)
Record SendMessageRequest := { id : string; params : message }.

(** [_build_message_payload(task, message_id, task_id, context_id)] *)
Definition _build_message_payload (task message_id task_id context_id : string)
  : message :=
  {| role := "user";
     parts := [{| type := "text"; text := task |}];
     messageId := message_id;
     taskId := task_id;
     contextId := context_id |}.

(** What [print] writes in [send_message]. *)
Inductive printed (Response : Type) :=
  | PrintedResponse (send_response : Response)   (* send_response ... *)
  | PrintedNonSuccess.
      (* Received a non-success or non-task response. Cannot proceed. *)
Arguments PrintedNonSuccess {Response}.

(** What leaves [send_message] as an exception. *)
Inductive raised :=
  | ValueError (message : string)
  | Propagated (e : Host.exception).   (* raised by the remote client *)

Section Remote.
(** A part of an artifact, as [json.loads] returns it. *)
Variable Part : Type.

(** [send_response.root]: an error response, a success whose result is
    a message, or a success whose result is a task, with the parts of
    each of its artifacts ([None] when the task has no artifacts field,
    which [exclude_none] then leaves out of the JSON). *)
Inductive SendMessageResponse :=
  | ErrorResponse (error : string)
  | MessageResult
  | TaskResult (artifacts : option (list (list Part))).

(** The [n]-th value of [str(uuid.uuid4())] in the process. *)
Variable uuid4 : nat -> string.

(** Modelled from the spec: [RemoteAgentConnections.send_message] of
    [host/remote_agent_connection.py], which is not among the sources:
    the operation that sends a task message to a friend and receives a
    successful task result or a failure indicator, or raises. *)
Variable remote_send :
  Host.RemoteAgentConnections -> SendMessageRequest ->
  Host.exception + SendMessageResponse.

Record world := {
  drawn : nat;                                    (* identifiers drawn *)
  sent : list (Host.RemoteAgentConnections * SendMessageRequest);
  stdout : list (printed SendMessageResponse)
}.

(** [x or str(uuid.uuid4())]: the identifier is drawn only when [x] is
    [None] or empty. *)
Definition or_uuid4 (x : option string) (n : nat) : string * nat :=
  match x with
  | Some s => if String.eqb s "" then (uuid4 n, S n) else (s, n)
  | None => (uuid4 n, S n)
  end.

(** [_resolve_message_identifiers(tool_context)], on the [state] of the
    tool context ([None] when it has none) and the number of identifiers
    drawn so far: the triple (message, task, context) and the new count. *)
Definition _resolve_message_identifiers
  (state : option (PyDict.dict string)) (n : nat)
  : (string * string * string) * nat :=
  let state := match state with
               | Some d => d
               | None => PyDict.empty
               end in
  let (task_id, n1) := or_uuid4 (PyDict.get "task_id" state) n in
  let (context_id, n2) := or_uuid4 (PyDict.get "context_id" state) n1 in
  let message_id := uuid4 n2 in
  ((message_id, task_id, context_id), S n2).

(** [for artifact in artifacts: responses.extend(artifact.get("parts", []))] *)
Definition collect_parts (artifacts : list (list Part)) : list Part :=
  fold_left (fun responses artifact => responses ++ artifact) artifacts [].

(** [send_message(agent_name, task, tool_context)] *)
Definition send_message (self : Host.HostAgent) (agent_name task : string)
  (state : option (PyDict.dict string)) (w : world)
  : (raised + option (list Part)) * world :=
  match PyDict.get agent_name (Host.remote_agent_connections self) with
  | None => (inl (ValueError ("Agent " ++ agent_name ++ " not found")), w)
  | Some client =>
      let '((message_id, task_id, context_id), n) :=
        _resolve_message_identifiers state (drawn w) in
      let payload :=
        _build_message_payload task message_id task_id context_id in
      let message_request := {| id := message_id; params := payload |} in
      let w1 := {| drawn := n;
                   sent := sent w ++ [(client, message_request)];
                   stdout := stdout w |} in
      match remote_send client message_request with
      | inl e => (inl (Propagated e), w1)
      | inr send_response =>
          let w2 := {| drawn := drawn w1;
                       sent := sent w1;
                       stdout := stdout w1 ++ [PrintedResponse send_response] |} in
          match send_response with
          | TaskResult artifacts =>
              let artifacts := match artifacts with
                               | Some l => l
                               | None => []
                               end in
              (inr (Some (collect_parts artifacts)), w2)
          | _ =>
              (inr None,
               {| drawn := drawn w2;
                  sent := sent w2;
                  stdout := stdout w2 ++ [PrintedNonSuccess] |})
          end
      end
  end.

End Remote.

(** A part of a model response: [types.Part], of which the code reads
    the attribute [text], absent or [None] for a part that is not text. *)
Record ContentPart := { part_text : option string }.

(** [getattr(part, "text", None)] as a truth value, then the text. *)
Definition text_of (part : ContentPart) : option string :=
  match part_text part with
  | Some s => if String.eqb s "" then None else Some s
  | None => None
  end.

Fixpoint texts (parts : list ContentPart) : list string :=
  match parts with
  | [] => []
  | part :: parts' =>
      match text_of part with
      | Some s => s :: texts parts'
      | None => texts parts'
      end
  end.

(** [_extract_response_text(content)]: [content] is [None], or has an
    attribute [parts] that is [None] or a list. *)
Definition _extract_response_text
  (content : option (option (list ContentPart))) : string :=
  match content with
  | None => ""
  | Some None => ""
  | Some (Some []) => ""
  | Some (Some parts) => Host.join Host.newline (texts parts)
  end.

End Messages.

(* ================================================================== *)
(** ** Notions the statements on the directory and the messages use *)

(** The two dictionaries of the instance agree: same names in the same
    order, and under each name the connection holds the card the
    directory holds, a card of that name. *)
Definition directory_ok (host : Host.HostAgent) : Prop :=
  PyDict.keys (Host.remote_agent_connections host)
  = PyDict.keys (Host.cards host) /\
  forall n connection,
    PyDict.get n (Host.remote_agent_connections host) = Some connection ->
    PyDict.get n (Host.cards host) = Some (Host.agent_card connection) /\
    Host.name (Host.agent_card connection) = n.

(** The identifiers drawn are pairwise distinct and never empty. *)
Definition fresh_supply (uuid4 : nat -> string) : Prop :=
  (forall i j, uuid4 i = uuid4 j -> i = j) /\ (forall i, uuid4 i <> "").

(** The world after the build over [sample_addresses]. *)
Definition sample_directory : Host.world :=
  match Host._async_init_components sample_transport sample_addresses
          new_world with
  | inr w => w
  | inl _ => new_world
  end.

(** Two addresses whose cards announce the same name. *)
Definition twin_transport (address : string)
  : Host.exception + Host.AgentCard :=
  if String.eqb address "http://localhost:10002"
  then inr {| Host.name := "Cartola"; Host.description := "plays samba" |}
  else inr {| Host.name := "Cartola"; Host.description := "plays choro" |}.

Definition twin_directory : Host.world :=
  match Host._async_init_components twin_transport
          ["http://localhost:10002"; "http://localhost:10005"] new_world with
  | inr w => w
  | inl _ => new_world
  end.

(** The identifier stored in a tool-context state under a key, if any
    that counts: [None] for no state, no such key or an empty string. *)
Definition stored (state : option (PyDict.dict string)) (key : string)
  : option string :=
  match state with
  | Some d =>
      match PyDict.get key d with
      | Some s => if String.eqb s "" then None else Some s
      | None => None
      end
  | None => None
  end.

(** The non-empty texts of a content, in order. *)
Definition content_texts
  (content : option (option (list Messages.ContentPart))) : list string :=
  match content with
  | Some (Some parts) => Messages.texts parts
  | _ => []
  end.

(** A supply of identifiers: the [n]-th is [n + 1] letters long. *)
Fixpoint sample_uuid4 (n : nat) : string :=
  match n with
  | O => "u"
  | S n' => String "u" (sample_uuid4 n')
  end.

(** A remote client that answers every request with a task of two
    artifacts. *)
Definition sample_remote (connection : Host.RemoteAgentConnections)
  (request : Messages.SendMessageRequest)
  : Host.exception + Messages.SendMessageResponse string :=
  inr (Messages.TaskResult (Some [["free at 10:00"; "free at 11:00"]; ["bye"]])).

Definition sample_messages_world
  : Messages.world string :=
  {| Messages.drawn := 0; Messages.sent := []; Messages.stdout := [] |}.

(* ================================================================== *)
(** ** [cartola_agent_adk/agent.py]: a friend's calendar *)

(** [a > b] on [date] values: the comparison of (year, month, day). *)
Definition date_gtb (a b : date) : bool :=
  (year b <? year a)
  || ((year a =? year b)
      && ((month b <? month a)
          || ((month a =? month b) && (day b <? day a)))).

Module Cartola.

(** [sorted(l)] on strings, which Python compares by code points.  The
    sorted list of a list of strings is unique, so insertion sort gives
    what Python's sort gives. *)
Fixpoint insert (x : string) (l : list string) : list string :=
  match l with
  | [] => [x]
  | y :: l' => if String.leb x y then x :: l else y :: insert x l'
  end.

Fixpoint sorted (l : list string) : list string :=
  match l with
  | [] => []
  | x :: l' => insert x (sorted l')
  end.

Section Sample.
(** [random.sample(possible_times, 8)] at round [i] of the loop. *)
Variable sample : nat -> list string.

(** The body of [for i in range(7)], run for each [i] of [range]. *)
Fixpoint generate_loop (today : date) (range : list nat)
  (calendar : PyDict.dict (list string)) : PyDict.dict (list string) :=
  match range with
  | [] => calendar
  | i :: range' =>
      let current_date := add_days today i in
      let date_str := strftime_date current_date in
      let available_slots := sorted (sample i) in
      generate_loop today range' (PyDict.set date_str available_slots calendar)
  end.

(** [generate_cartola_calendar()], with [date.today()] as [today]: the
    calendar it returns and what it prints, the same calendar. *)
Definition generate_cartola_calendar (today : date)
  : PyDict.dict (list string) * list (PyDict.dict (list string)) :=
  let calendar := generate_loop today (seq 0 7) PyDict.empty in
  (calendar, [calendar]).
End Sample.

(** One round of the loop of [get_cartola_availability]: the sentence
    about the day [i] days after [start]. *)
Definition day_report (CARTOLA_CALENDAR : PyDict.dict (list string))
  (start : date) (i : nat) : string :=
  let day := add_days start i in
  let date_str := strftime_date day in
  let available_slots := PyDict.get_default date_str [] CARTOLA_CALENDAR in
  match available_slots with
  | _ :: _ =>
      "On " ++ date_str ++ ", Cartola is available at: "
        ++ Host.join ", " available_slots ++ "."
  | [] => "Cartola is not available on " ++ date_str ++ "."
  end.

(** [get_cartola_availability(start_date, end_date)], reading the
    module-level [CARTOLA_CALENDAR]. *)
Definition get_cartola_availability
  (CARTOLA_CALENDAR : PyDict.dict (list string))
  (start_date end_date : string) : string :=
  match strptime_date start_date, strptime_date end_date with
  | Some start, Some end_ =>
      if date_gtb start end_
      then "Invalid date range. The start date cannot be after the end date."
      else
        let delta_days := toordinal end_ - toordinal start in
        let results :=
          map (day_report CARTOLA_CALENDAR start)
              (seq 0 (Z.to_nat (delta_days + 1))) in
        Host.join Host.newline results
  | _, _ =>
      "Invalid date format. Please use YYYY-MM-DD for both start and end dates."
  end.

End Cartola.

(** What [random.sample(possible_times, 8)] promises: eight distinct
    elements of [possible_times]. *)
Definition samples_ok (sample : nat -> list string) : Prop :=
  forall i, List.length (sample i) = 8%nat /\ NoDup (sample i) /\
            incl (sample i) possible_times.

(** A sample that takes the first eight hours on even rounds and the last
    eight, latest first, on odd rounds. *)
Definition sample_hours (i : nat) : list string :=
  if Nat.even i then firstn 8 possible_times
  else firstn 8 (rev possible_times).

(** The order of [sorted] on strings. *)
Definition string_le (a b : string) : Prop := String.leb a b = true.

(** The calendar [generate_cartola_calendar] returns. *)
Definition cartola_calendar (sample : nat -> list string) (today : date)
  : PyDict.dict (list string) :=
  fst (Cartola.generate_cartola_calendar sample today).

(* ================================================================== *)
(** ** The range of [datetime] *)

(** [datetime.max], to the minute: 9999-12-31 23:59. *)
Definition datetime_max : datetime := mk_datetime (Date 9999 12 31) 23 59.

(** The expansion loop with the failure of
    [current_time += timedelta(hours=1)]: the sum raises [OverflowError]
    when it passes [datetime.max]; [None] stands for the exception. *)
Fixpoint slots_loop_checked (fuel : nat) (current_time end_dt : datetime)
  : option (list string) :=
  match fuel with
  | O => Some []
  | S fuel' =>
      if current_time <? end_dt
      then if current_time + 60 <=? datetime_max
           then option_map (cons (strftime_HM current_time))
                           (slots_loop_checked fuel' (current_time + 60) end_dt)
           else None
      else Some []
  end.

(** The loop of lines 100 to 104 with the fuel of [required_slots]. *)
Definition required_slots_checked (start_dt end_dt : datetime)
  : option (list string) :=
  slots_loop_checked (Z.to_nat (end_dt - start_dt)) start_dt end_dt.

(** The expansion of [start_dt, end_dt) stays within the range of
    [datetime]: the cursor, which the loop leaves at
    [start_dt + 60 * rounds], does not pass [datetime.max], so the loop
    raises nothing and [required_slots] is the list it builds.  Every
    request on a date before 9999-12-31 is so. *)
Definition expansion_in_range (start_dt end_dt : datetime) : Prop :=
  start_dt + 60 * Z.of_nat (rounds start_dt end_dt) <= datetime_max.
(* ================================================================== *)
(** ** The calendar arithmetic

    [next_day] agrees with the ordinal arithmetic [date + timedelta]
    performs: the day after a valid date is a valid date (up to the end of
    year 9999) whose ordinal is one more. *)

Lemma days_before_year_succ y :
  1 <= y ->
  days_before_year (y + 1)
  = days_before_year y + (if is_leap y then 366 else 365).
Proof.
  intros Hy. unfold days_before_year, is_leap. cbv zeta.
  replace (y + 1 - 1) with y by lia.
  destruct (Z.eqb_spec (y mod 4) 0) as [H4|H4];
    destruct (Z.eqb_spec (y mod 100) 0) as [H100|H100];
    destruct (Z.eqb_spec (y mod 400) 0) as [H400|H400];
    simpl; Z.div_mod_to_equations; lia.
Qed.

Lemma month_cases m :
  1 <= m <= 12 ->
  m = 1 \/ m = 2 \/ m = 3 \/ m = 4 \/ m = 5 \/ m = 6 \/
  m = 7 \/ m = 8 \/ m = 9 \/ m = 10 \/ m = 11 \/ m = 12.
Proof. lia. Qed.

Lemma valid_date_bounds d :
  valid_date d = true ->
  1 <= year d <= 9999 /\ 1 <= month d <= 12 /\
  1 <= day d <= days_in_month (year d) (month d).
Proof.
  unfold valid_date. rewrite !andb_true_iff, !Z.leb_le. tauto.
Qed.

Lemma days_before_month_succ y m :
  1 <= m ->
  days_before_month y (m + 1) = days_before_month y m + days_in_month y m.
Proof.
  intros Hm. unfold days_before_month.
  replace (Z.to_nat (m + 1 - 1)) with (S (Z.to_nat (m - 1))) by lia.
  cbn [days_before_month_aux]. do 2 f_equal. lia.
Qed.

Lemma days_in_year y :
  days_before_month y 12 + days_in_month y 12
  = if is_leap y then 366 else 365.
Proof.
  unfold days_before_month. change (Z.to_nat (12 - 1)) with 11%nat.
  cbv -[is_leap Z.add]. destruct (is_leap y); reflexivity.
Qed.

Lemma toordinal_next_day d :
  valid_date d = true -> toordinal (next_day d) = toordinal d + 1.
Proof.
  intros Hv. apply valid_date_bounds in Hv.
  destruct d as [y m dd]. simpl in Hv. destruct Hv as (Hy & Hm & Hd).
  unfold next_day, toordinal. cbn [year month day].
  destruct (Z.ltb_spec dd (days_in_month y m)) as [Hlt|Hge];
    cbn [year month day]; [lia|].
  assert (dd = days_in_month y m) by lia. subst dd.
  destruct (Z.ltb_spec m 12) as [Hm12|Hm12]; cbn [year month day].
  - rewrite days_before_month_succ by lia. lia.
  - assert (m = 12) by lia. subst m.
    rewrite days_before_year_succ by lia.
    pose proof (days_in_year y) as Hyear.
    change (days_before_month (y + 1) 1) with 0. lia.
Qed.

Lemma valid_next_day d :
  valid_date d = true -> toordinal d < toordinal (Date 9999 12 31) ->
  valid_date (next_day d) = true.
Proof.
  intros Hv Hlast. assert (Hb := @valid_date_bounds d Hv).
  destruct d as [y m dd]. simpl in Hb. destruct Hb as (Hy & Hm & Hd).
  unfold next_day. simpl.
  assert (Hdim : forall k, 28 <= days_in_month y k)
    by (intros k; unfold days_in_month;
        destruct (k =? 2), (is_leap y),
          ((k =? 4) || (k =? 6) || (k =? 9) || (k =? 11)); lia).
  destruct (Z.ltb_spec dd (days_in_month y m)) as [Hlt|Hge].
  - unfold valid_date. simpl.
    rewrite !andb_true_iff, !Z.leb_le. lia.
  - destruct (Z.ltb_spec m 12) as [Hm12|Hm12].
    + unfold valid_date. simpl.
      rewrite !andb_true_iff, !Z.leb_le.
      specialize (Hdim (m + 1)). lia.
    + assert (m = 12) by lia. subst m.
      assert (dd = 31) by (unfold days_in_month in *; simpl in *; lia).
      subst dd.
      assert (y < 9999).
      { destruct (Z_lt_le_dec y 9999) as [|Hy9]; [assumption|].
        assert (y = 9999) by lia. subst y. vm_compute in Hlast.
        discriminate Hlast. }
      unfold valid_date. cbn [year month day].
      change (days_in_month (y + 1) 1) with 31.
      rewrite !andb_true_iff, !Z.leb_le. lia.
Qed.

(** [today + timedelta(days=i)] is the date [i] ordinals after today. *)
Lemma toordinal_add_days d i :
  valid_date d = true ->
  toordinal d + Z.of_nat i <= toordinal (Date 9999 12 31) ->
  valid_date (add_days d i) = true /\
  toordinal (add_days d i) = toordinal d + Z.of_nat i.
Proof.
  intros Hv. induction i as [|i IH]; intros Hmax.
  - simpl. split; [assumption | lia].
  - destruct IH as [Hvi Hoi]; [lia|].
    cbn [add_days]. split.
    + apply valid_next_day; [assumption | lia].
    + rewrite toordinal_next_day by assumption. lia.
Qed.

(* ================================================================== *)
(** ** Facts about dictionaries *)

Section DictFacts.
Variable V : Type.
Implicit Types (d : PyDict.dict V) (k : string) (v : V).

Lemma get_set_same k v d : PyDict.get k (PyDict.set k v d) = Some v.
Proof.
  induction d as [|[k' v'] d IH]; simpl.
  - now rewrite String.eqb_refl.
  - destruct (String.eqb_spec k k') as [->|Hne]; simpl.
    + now rewrite String.eqb_refl.
    + destruct (String.eqb_spec k k'); [contradiction | exact IH].
Qed.

Lemma get_set_other k k' v d :
  k' <> k -> PyDict.get k' (PyDict.set k v d) = PyDict.get k' d.
Proof.
  intros Hne. induction d as [|[k0 v0] d IH]; simpl.
  - destruct (String.eqb_spec k' k); [contradiction | reflexivity].
  - destruct (String.eqb_spec k k0) as [->|Hk]; simpl.
    + destruct (String.eqb_spec k' k0); [contradiction | reflexivity].
    + destruct (String.eqb_spec k' k0); [reflexivity | exact IH].
Qed.

Lemma set_get_id k v d : PyDict.get k d = Some v -> PyDict.set k v d = d.
Proof.
  induction d as [|[k' v'] d IH]; simpl; [discriminate|].
  destruct (String.eqb_spec k k') as [->|Hne]; intros H.
  - now inversion H.
  - now rewrite IH.
Qed.

Lemma set_set k v v' d :
  PyDict.set k v' (PyDict.set k v d) = PyDict.set k v' d.
Proof.
  induction d as [|[k0 v0] d IH]; simpl.
  - now rewrite String.eqb_refl.
  - destruct (String.eqb_spec k k0) as [->|Hne]; simpl.
    + now rewrite String.eqb_refl.
    + destruct (String.eqb_spec k k0); [contradiction | now rewrite IH].
Qed.

Lemma get_In k v d : PyDict.get k d = Some v -> In (k, v) d.
Proof.
  induction d as [|[k' v'] d IH]; simpl; [discriminate|].
  destruct (String.eqb_spec k k') as [->|Hne]; intros H.
  - inversion H; now left.
  - right; auto.
Qed.

Lemma get_None_keys k d : PyDict.get k d = None <-> ~ In k (PyDict.keys d).
Proof.
  induction d as [|[k' v'] d IH]; simpl.
  - tauto.
  - destruct (String.eqb_spec k k') as [->|Hne].
    + split; [discriminate | intros H; exfalso; apply H; now left].
    + rewrite IH. split; intros H; [intros [E|E]; [now subst | auto] | tauto].
Qed.

Lemma get_Some_keys k v d : PyDict.get k d = Some v -> In k (PyDict.keys d).
Proof.
  intros H. apply get_In in H. unfold PyDict.keys.
  change k with (fst (k, v)). now apply in_map.
Qed.

Lemma keys_In_get k d :
  In k (PyDict.keys d) -> exists v, PyDict.get k d = Some v.
Proof.
  intros H. destruct (PyDict.get k d) as [v|] eqn:E; [now exists v|].
  apply get_None_keys in E. contradiction.
Qed.

Lemma keys_set_present k v d :
  In k (PyDict.keys d) -> PyDict.keys (PyDict.set k v d) = PyDict.keys d.
Proof.
  induction d as [|[k' v'] d IH]; simpl; [tauto|].
  destruct (String.eqb_spec k k') as [->|Hne]; simpl; [reflexivity|].
  intros [E|Hin]; [now subst | now rewrite IH].
Qed.

Lemma keys_set_absent k v d :
  ~ In k (PyDict.keys d) ->
  PyDict.keys (PyDict.set k v d) = (PyDict.keys d ++ [k])%list.
Proof.
  induction d as [|[k' v'] d IH]; simpl; [reflexivity|].
  destruct (String.eqb_spec k k') as [->|Hne]; simpl; intros H.
  - exfalso; apply H; now left.
  - rewrite IH; [reflexivity | tauto].
Qed.

Lemma set_absent k v d :
  ~ In k (PyDict.keys d) -> PyDict.set k v d = (d ++ [(k, v)])%list.
Proof.
  induction d as [|[k' v'] d IH]; simpl; [reflexivity|].
  destruct (String.eqb_spec k k') as [->|Hne]; simpl; intros H.
  - exfalso; apply H; now left.
  - rewrite IH; [reflexivity | tauto].
Qed.

(** What an entry of [d] after [d[k] = v] is. *)
Lemma In_set k v d e :
  In e (PyDict.set k v d) -> e = (k, v) \/ In e d.
Proof.
  induction d as [|[k' v'] d IH]; simpl.
  - intros [<-|[]]; now left.
  - destruct (String.eqb_spec k k') as [->|Hne]; simpl.
    + intros [<-|H]; [now left | right; now right].
    + intros [<-|H]; [right; now left|].
      destruct (IH H); [now left | right; now right].
Qed.

Lemma Forall_set (P : string * V -> Prop) k v d :
  P (k, v) -> Forall P d -> Forall P (PyDict.set k v d).
Proof.
  intros Hk Hd. apply Forall_forall. intros e He.
  destruct (In_set _ _ _ _ He) as [->|Hin]; [exact Hk|].
  rewrite Forall_forall in Hd. now apply Hd.
Qed.

(** A comprehension over items with distinct keys builds the items. *)
Lemma of_items_app (kvs : list (string * V)) d :
  NoDup (PyDict.keys d ++ map fst kvs) ->
  fold_left (fun d kv => PyDict.set (fst kv) (snd kv) d) kvs d
  = (d ++ kvs)%list.
Proof.
  revert d. induction kvs as [|[k v] kvs IH]; intros d Hnd; simpl.
  - now rewrite app_nil_r.
  - simpl in Hnd. rewrite set_absent.
    + rewrite IH.
      * now rewrite <- app_assoc.
      * unfold PyDict.keys in *. rewrite map_app. simpl.
        rewrite <- app_assoc. exact Hnd.
    + apply NoDup_remove_2 in Hnd. intros Hin. apply Hnd.
      apply in_or_app. now left.
Qed.

Lemma of_items_NoDup (kvs : list (string * V)) :
  NoDup (map fst kvs) -> PyDict.of_items kvs = kvs.
Proof.
  intros H. unfold PyDict.of_items. now rewrite of_items_app.
Qed.
End DictFacts.

(* ================================================================== *)
(** ** The slot expansion *)


Lemma rounds_step cur e : cur < e -> rounds cur e = S (rounds (cur + 60) e).
Proof.
  intros H. unfold rounds.
  replace (e - cur + 59) with ((e - (cur + 60) + 59) + 1 * 60) by lia.
  rewrite Z.div_add by lia.
  assert (0 <= (e - (cur + 60) + 59) / 60) by (apply Z.div_pos; lia).
  lia.
Qed.

Lemma rounds_done cur e : e <= cur -> rounds cur e = O.
Proof.
  intros H. unfold rounds.
  assert ((e - cur + 59) / 60 <= 0).
  { assert ((e - cur + 59) / 60 < 1); [|lia].
    apply Z.div_lt_upper_bound; lia. }
  lia.
Qed.

Lemma rounds_le cur e : (rounds cur e <= Z.to_nat (e - cur))%nat.
Proof.
  unfold rounds. destruct (Z_lt_le_dec cur e) as [Hlt|Hge].
  - apply Z2Nat.inj_le; try lia.
    + apply Z.div_pos; lia.
    + apply Z.div_le_upper_bound; lia.
  - replace (Z.to_nat ((e - cur + 59) / 60)) with O; [lia|].
    symmetry. now apply rounds_done.
Qed.

(** With fuel for every round the loop runs to its exit test: its result
    is the slot of each instant [cur + 60 * k] before [e]. *)
Lemma slots_loop_spec fuel cur e :
  (rounds cur e <= fuel)%nat ->
  slots_loop fuel cur e
  = map (fun k => strftime_HM (cur + 60 * Z.of_nat k)) (seq 0 (rounds cur e)).
Proof.
  revert cur. induction fuel as [|fuel IH]; intros cur Hf; cbn [slots_loop].
  - now replace (rounds cur e) with O by lia.
  - destruct (Z.ltb_spec cur e) as [Hlt|Hge].
    + rewrite (rounds_step Hlt) in *. cbn [seq map].
      change (Z.of_nat 0) with 0. rewrite Z.mul_0_r, Z.add_0_r. f_equal.
      rewrite IH by lia. rewrite <- seq_shift, map_map.
      apply map_ext. intros k. f_equal. lia.
    + now rewrite rounds_done.
Qed.

Lemma required_slots_spec start_dt end_dt :
  required_slots start_dt end_dt
  = map (fun k => strftime_HM (start_dt + 60 * Z.of_nat k))
        (seq 0 (rounds start_dt end_dt)).
Proof. apply slots_loop_spec, rounds_le. Qed.

(** The required slots are exactly the slots of the instants reached from
    the start in whole hours and lying before the end. *)
Lemma In_required_slots start_dt end_dt slot :
  In slot (required_slots start_dt end_dt) <->
  exists k, 0 <= k /\ start_dt + 60 * k < end_dt /\
            slot = strftime_HM (start_dt + 60 * k).
Proof.
  rewrite required_slots_spec, in_map_iff. split.
  - intros (k & <- & Hk). apply in_seq in Hk. exists (Z.of_nat k).
    repeat split; try lia.
    destruct (Z_lt_le_dec (start_dt + 60 * Z.of_nat k) end_dt) as [|Hge]; [assumption|].
    exfalso. unfold rounds in Hk.
    assert (Z.of_nat k < (end_dt - start_dt + 59) / 60) by lia.
    assert ((end_dt - start_dt + 59) / 60 <= Z.of_nat k); [|lia].
    assert ((end_dt - start_dt + 59) / 60 < Z.of_nat k + 1); [|lia].
    apply Z.div_lt_upper_bound; lia.
  - intros (k & Hk0 & Hlt & ->). exists (Z.to_nat k).
    rewrite Z2Nat.id by lia. split; [reflexivity|].
    apply in_seq. split; [lia|]. simpl. unfold rounds.
    assert (k + 1 <= (end_dt - start_dt + 59) / 60)
      by (apply Z.div_le_lower_bound; lia).
    lia.
Qed.

Lemma required_slots_head start_dt end_dt :
  start_dt < end_dt ->
  exists rest,
    required_slots start_dt end_dt = strftime_HM start_dt :: rest.
Proof.
  intros H. rewrite required_slots_spec, (rounds_step H). cbn [seq map].
  change (Z.of_nat 0) with 0. rewrite Z.mul_0_r, Z.add_0_r. eauto.
Qed.

(* ================================================================== *)
(** ** The conflict scan and the commit *)


Lemma scan_test slot daily :
  negb (is_unknown (PyDict.get_default slot "booked" daily)) = false
  <-> free slot daily.
Proof.
  unfold free, PyDict.get_default, is_unknown.
  destruct (PyDict.get slot daily) as [p|]; simpl.
  - destruct (String.eqb_spec p "unknown") as [->|Hne]; simpl.
    + tauto.
    + split; [discriminate | intros H; inversion H; contradiction].
  - split; discriminate.
Qed.

Lemma first_conflict_None required daily :
  first_conflict required daily = None <->
  forall slot, In slot required -> free slot daily.
Proof.
  induction required as [|s required IH]; simpl.
  - split; [intros _ ? [] | reflexivity].
  - destruct (negb _) eqn:E.
    + split; [discriminate|]. intros H. exfalso.
      assert (Hs : free s daily) by (apply H; now left).
      apply scan_test in Hs. congruence.
    + apply scan_test in E. rewrite IH. split.
      * intros H slot [<-|Hin]; auto.
      * intros H slot Hin. apply H. now right.
Qed.

Lemma first_conflict_Some required daily slot :
  first_conflict required daily = Some slot ->
  exists pre post,
    required = (pre ++ slot :: post)%list /\
    (forall s, In s pre -> free s daily) /\
    ~ free slot daily.
Proof.
  revert slot. induction required as [|s required IH]; simpl; intros slot;
    [discriminate|].
  destruct (negb _) eqn:E.
  - intros H; inversion H; subst. exists [], required. repeat split.
    + intros ? [].
    + intros Hf. apply scan_test in Hf. congruence.
  - intros H. destruct (IH _ H) as (pre & post & -> & Hpre & Hslot).
    exists (s :: pre), post. repeat split; [|assumption].
    intros s' [<-|Hin]; [now apply scan_test | auto].
Qed.


Lemma commit_set_all date required name (JAM : schedule) daily :
  PyDict.get date JAM = Some daily ->
  commit date required name JAM
  = PyDict.set date (set_all required name daily) JAM.
Proof.
  revert JAM daily. induction required as [|s required IH];
    intros JAM daily Hget; simpl.
  - symmetry. now apply set_get_id.
  - rewrite Hget.
    rewrite (IH _ (PyDict.set s name daily)) by apply get_set_same.
    now rewrite set_set.
Qed.

Lemma get_set_all required name daily slot :
  PyDict.get slot (set_all required name daily)
  = if in_dec string_dec slot required then Some name
    else PyDict.get slot daily.
Proof.
  revert daily. induction required as [|s required IH]; intros daily;
    simpl; [reflexivity|].
  unfold set_all in *. simpl. rewrite IH.
  destruct (in_dec string_dec slot required) as [Hin|Hnin].
  - destruct (string_dec s slot); reflexivity.
  - destruct (string_dec s slot) as [->|Hne].
    + apply get_set_same.
    + apply get_set_other. congruence.
Qed.

Lemma keys_set_all required name daily :
  (forall slot, In slot required -> In slot (PyDict.keys daily)) ->
  PyDict.keys (set_all required name daily) = PyDict.keys daily.
Proof.
  revert daily. induction required as [|s required IH]; intros daily H;
    [reflexivity|].
  unfold set_all in *. simpl. rewrite IH.
  - apply keys_set_present, H. now left.
  - intros slot Hin. rewrite keys_set_present by (apply H; now left).
    apply H. now right.
Qed.

Lemma set_all_free_unknown required daily :
  (forall slot, In slot required -> free slot daily) ->
  set_all required "unknown" daily = daily.
Proof.
  induction required as [|s required IH]; intros H; [reflexivity|].
  unfold set_all in *. simpl.
  rewrite (@set_get_id _ s "unknown" daily) by (apply H; now left).
  apply IH. intros slot Hin. apply H. now right.
Qed.

(** The booking once its four checks have passed. *)
Lemma book_checked date start_time end_time name (JAM : schedule)
      start_dt end_dt daily :
  strptime_datetime (date ++ " " ++ start_time) = Some start_dt ->
  strptime_datetime (date ++ " " ++ end_time) = Some end_dt ->
  start_dt < end_dt ->
  PyDict.get date JAM = Some daily ->
  name <> "" ->
  book_jam_session date start_time end_time name JAM
  = match first_conflict (required_slots start_dt end_dt) daily with
    | Some slot => (SlotConflict slot date (PyDict.get slot daily), JAM)
    | None =>
        (Booked name start_time end_time date,
         PyDict.set date
           (set_all (required_slots start_dt end_dt) name daily) JAM)
    end.
Proof.
  intros Hs He Hlt Hget Hname. unfold book_jam_session.
  rewrite Hs, He.
  destruct (Z.leb_spec end_dt start_dt); [lia|].
  unfold PyDict.mem, PyDict.get_default. rewrite Hget. simpl.
  destruct (String.eqb_spec name ""); [contradiction|].
  destruct (first_conflict _ daily); [reflexivity|].
  now rewrite (commit_set_all _ _ _ _ Hget).
Qed.

(** Every booking either leaves the calendar as it was or, all checks
    passed and all required slots free, writes the name into them. *)
Lemma book_cases date start_time end_time name (JAM : schedule) :
  snd (book_jam_session date start_time end_time name JAM) = JAM \/
  exists start_dt end_dt daily,
    strptime_datetime (date ++ " " ++ start_time) = Some start_dt /\
    strptime_datetime (date ++ " " ++ end_time) = Some end_dt /\
    start_dt < end_dt /\
    PyDict.get date JAM = Some daily /\
    name <> "" /\
    (forall slot, In slot (required_slots start_dt end_dt) -> free slot daily) /\
    book_jam_session date start_time end_time name JAM
    = (Booked name start_time end_time date,
       PyDict.set date (set_all (required_slots start_dt end_dt) name daily)
                  JAM).
Proof.
  destruct (strptime_datetime (date ++ " " ++ start_time)) as [s|] eqn:Hs.
  2:{ left. unfold book_jam_session. now rewrite Hs. }
  destruct (strptime_datetime (date ++ " " ++ end_time)) as [e|] eqn:He.
  2:{ left. unfold book_jam_session. now rewrite Hs, He. }
  destruct (Z_lt_le_dec s e) as [Hlt|Hge].
  2:{ left. unfold book_jam_session. rewrite Hs, He.
      destruct (Z.leb_spec e s); [reflexivity | lia]. }
  destruct (PyDict.get date JAM) as [daily|] eqn:Hget.
  2:{ left. unfold book_jam_session, PyDict.mem. rewrite Hs, He, Hget.
      now destruct (e <=? s). }
  destruct (string_dec name "") as [->|Hname].
  { left. unfold book_jam_session, PyDict.mem. rewrite Hs, He, Hget.
    now destruct (e <=? s). }
  rewrite (book_checked _ _ _ JAM Hs He Hlt Hget Hname).
  destruct (first_conflict _ daily) as [slot|] eqn:Hscan.
  - now left.
  - right. exists s, e, daily. rewrite first_conflict_None in Hscan.
    repeat split; auto.
Qed.

(* ================================================================== *)
(** ** The grid invariant *)

Lemma keys_fresh_day : PyDict.keys fresh_day = possible_times.
Proof. reflexivity. Qed.

Lemma calendar_ok_get (JAM : schedule) date daily :
  calendar_ok JAM -> PyDict.get date JAM = Some daily ->
  PyDict.keys daily = possible_times.
Proof.
  intros Hok Hget. apply get_In in Hget.
  unfold calendar_ok in Hok. rewrite Forall_forall in Hok.
  exact (Hok _ Hget).
Qed.

Lemma calendar_ok_set (JAM : schedule) date daily :
  calendar_ok JAM -> PyDict.keys daily = possible_times ->
  calendar_ok (PyDict.set date daily JAM).
Proof. intros Hok Hk. now apply Forall_set. Qed.

Lemma generate_loop_ok today range (JAM : schedule) :
  calendar_ok JAM -> calendar_ok (generate_loop today range JAM).
Proof.
  revert JAM. induction range as [|i range IH]; intros JAM Hok; simpl.
  - exact Hok.
  - apply IH, calendar_ok_set; [exact Hok | exact keys_fresh_day].
Qed.

Lemma book_ok date start_time end_time name (JAM : schedule) :
  calendar_ok JAM ->
  calendar_ok (snd (book_jam_session date start_time end_time name JAM)).
Proof.
  intros Hok.
  destruct (book_cases date start_time end_time name JAM)
    as [->|(s & e & daily & _ & _ & _ & Hget & _ & Hfree & ->)];
    [exact Hok|].
  simpl. apply calendar_ok_set; [exact Hok|].
  rewrite keys_set_all.
  - exact (calendar_ok_get date Hok Hget).
  - intros slot Hin. exact (get_Some_keys slot daily (Hfree slot Hin)).
Qed.

(** C3. Every operation preserves the grid invariant: if every date of
    the calendar maps exactly the thirteen keys 08:00 to 20:00, then so
    does every date of the calendar left by generating the schedule, by an
    availability query, and by a booking, whether it succeeds or fails. *)
Theorem calendar_grid_invariant (op : operation) (JAM : schedule) :
  calendar_ok JAM -> calendar_ok (snd (run op JAM)).
Proof.
  intros Hok. destruct op as [today | date | date st et name]; simpl.
  - now apply generate_loop_ok.
  - exact Hok.
  - now apply book_ok.
Qed.

(** The invariant holds of every calendar the process can hold. *)
Lemma reachable_ok (JAM : schedule) : reachable JAM -> calendar_ok JAM.
Proof.
  induction 1 as [|op JAM _ IH].
  - constructor.
  - destruct op as [today | date | date st et name]; simpl.
    + now apply generate_loop_ok.
    + exact IH.
    + now apply book_ok.
Qed.

Lemma possible_times_eq :
  possible_times
  = ["08:00"; "09:00"; "10:00"; "11:00"; "12:00"; "13:00"; "14:00";
     "15:00"; "16:00"; "17:00"; "18:00"; "19:00"; "20:00"].
Proof. reflexivity. Qed.

Lemma reachable_bob_calendar : reachable bob_calendar.
Proof.
  exact (reach_step (Book "2024-08-01" "10:00" "12:00" "Bob")
           (reach_step (Generate august_1) reach_empty)).
Qed.

Lemma calendar_grid_invariant_witness :
  calendar_ok opening_calendar /\
  calendar_ok
    (snd (run (Book "2024-08-01" "10:00" "12:00" "Bob") opening_calendar)).
Proof.
  assert (H : calendar_ok opening_calendar).
  { unfold opening_calendar. repeat constructor. }
  split; [exact H|].
  exact (calendar_grid_invariant
           (Book "2024-08-01" "10:00" "12:00" "Bob") H).
Defined.

(* ================================================================== *)
(** ** Booking: the order of the checks *)

(** C5. The booking checks its preconditions in a fixed order and
    reports the first failure only, leaving the calendar as it was: a
    date or time that does not parse gives [InvalidInput]; then a start
    not strictly before the end gives [InvalidRange]; then a date absent
    from the calendar gives [NotOpen]; then an empty reservation name
    gives [MissingOccupant].  In particular a date outside the calendar
    with an empty name gives [NotOpen], which is not [MissingOccupant]. *)
Theorem book_checks_in_order
        (date start_time end_time name : string) (JAM : schedule) :
  let start := strptime_datetime (date ++ " " ++ start_time) in
  let stop := strptime_datetime (date ++ " " ++ end_time) in
  let result := book_jam_session date start_time end_time name JAM in
  (start = None \/ stop = None -> result = (InvalidInput, JAM)) /\
  (forall start_dt end_dt,
      start = Some start_dt -> stop = Some end_dt ->
      (end_dt <= start_dt -> result = (InvalidRange, JAM)) /\
      (start_dt < end_dt -> PyDict.mem date JAM = false ->
       result = (NotOpen date, JAM)) /\
      (start_dt < end_dt -> PyDict.mem date JAM = true -> name = "" ->
       result = (MissingOccupant, JAM)) /\
      (start_dt < end_dt -> PyDict.mem date JAM = false -> name = "" ->
       result = (NotOpen date, JAM) /\ NotOpen date <> MissingOccupant)).
Proof.
  cbv zeta. unfold book_jam_session. split.
  - intros [-> | H]; [reflexivity|].
    rewrite H. now destruct (strptime_datetime (date ++ " " ++ start_time)).
  - intros s e -> ->. split; [|split; [|split]].
    + intros Hge. destruct (Z.leb_spec e s); [reflexivity | lia].
    + intros Hlt Hmem. destruct (Z.leb_spec e s); [lia|]. now rewrite Hmem.
    + intros Hlt Hmem ->. destruct (Z.leb_spec e s); [lia|]. now rewrite Hmem.
    + intros Hlt Hmem ->. split; [|discriminate].
      destruct (Z.leb_spec e s); [lia|]. now rewrite Hmem.
Qed.

Lemma book_checks_in_order_witness :
  book_jam_session "2024-13-40" "10:00" "12:00" "" opening_calendar
  = (InvalidInput, opening_calendar) /\
  book_jam_session "2024-08-09" "12:00" "10:00" "" opening_calendar
  = (InvalidRange, opening_calendar) /\
  book_jam_session "2024-08-09" "10:00" "12:00" "" opening_calendar
  = (NotOpen "2024-08-09", opening_calendar) /\
  book_jam_session "2024-08-01" "10:00" "12:00" "" opening_calendar
  = (MissingOccupant, opening_calendar).
Proof.
  split; [|split; [|split]].
  - apply (book_checks_in_order "2024-13-40" "10:00" "12:00" "" opening_calendar).
    now left.
  - eapply (book_checks_in_order "2024-08-09" "12:00" "10:00" "" opening_calendar);
      [reflexivity | reflexivity | vm_compute; discriminate].
  - eapply (book_checks_in_order "2024-08-09" "10:00" "12:00" "" opening_calendar);
      reflexivity.
  - eapply (book_checks_in_order "2024-08-01" "10:00" "12:00" "" opening_calendar);
      reflexivity.
Defined.

(** C7. A booking whose start is not strictly before its end fails with
    [InvalidRange], "Start time must be before end time.", whatever the
    reservation name and whether or not the date is in the calendar. *)
Theorem book_start_not_before_end
        (date start_time end_time name : string) (JAM : schedule)
        (start_dt end_dt : datetime) :
  strptime_datetime (date ++ " " ++ start_time) = Some start_dt ->
  strptime_datetime (date ++ " " ++ end_time) = Some end_dt ->
  end_dt <= start_dt ->
  book_jam_session date start_time end_time name JAM
  = (error_response "Start time must be before end time.", JAM).
Proof.
  intros Hs He Hge. unfold book_jam_session. rewrite Hs, He.
  apply Z.leb_le in Hge. now rewrite Hge.
Qed.

Lemma book_start_not_before_end_witness :
  PyDict.mem "2030-01-01" opening_calendar = false /\
  book_jam_session "2030-01-01" "12:00" "12:00" "" opening_calendar
  = (InvalidRange, opening_calendar) /\
  book_jam_session "2024-08-01" "13:00" "09:00" "Bob" opening_calendar
  = (InvalidRange, opening_calendar).
Proof.
  split; [reflexivity|]. split.
  - eapply (@book_start_not_before_end "2030-01-01" "12:00" "12:00" ""
              opening_calendar); [reflexivity | reflexivity | vm_compute; discriminate].
  - eapply (@book_start_not_before_end "2024-08-01" "13:00" "09:00" "Bob"
              opening_calendar); [reflexivity | reflexivity | vm_compute; discriminate].
Defined.

(* ================================================================== *)
(** ** Booking: conflicts *)

(** C1, as amended.  For a booking on a date of the calendar with
    parseable date and times, start strictly before end, the hourly
    expansion staying within the range of [datetime] (as it does for
    every date before 9999-12-31) and a non-empty name: if any required
    slot is not free (it is held by an occupant other than "unknown", or
    it is not a slot of the day), the booking returns the [SlotConflict]
    error naming the first required slot, in chronological order, that is
    not free, with that slot's current entry ([None] when the day has no
    such slot), and the calendar is left exactly as it was. *)
Theorem book_conflict_all_or_nothing
        (date start_time end_time name : string) (JAM : schedule)
        (start_dt end_dt : datetime) (daily : PyDict.dict string)
        (slot : string) :
  strptime_datetime (date ++ " " ++ start_time) = Some start_dt ->
  strptime_datetime (date ++ " " ++ end_time) = Some end_dt ->
  start_dt < end_dt ->
  expansion_in_range start_dt end_dt ->
  PyDict.get date JAM = Some daily ->
  name <> "" ->
  In slot (required_slots start_dt end_dt) ->
  ~ free slot daily ->
  exists earlier first later,
    required_slots start_dt end_dt = (earlier ++ first :: later)%list /\
    (forall s, In s earlier -> free s daily) /\
    ~ free first daily /\
    book_jam_session date start_time end_time name JAM
    = (SlotConflict first date (PyDict.get first daily), JAM).
Proof.
  intros Hs He Hlt _ Hget Hname Hin Hbusy.
  rewrite (book_checked _ _ _ JAM Hs He Hlt Hget Hname).
  destruct (first_conflict (required_slots start_dt end_dt) daily)
    as [first|] eqn:Hscan.
  - destruct (first_conflict_Some _ _ Hscan)
      as (earlier & later & Hreq & Hearlier & Hfirst).
    exists earlier, first, later. auto.
  - exfalso. apply Hbusy.
    exact (proj1 (first_conflict_None _ _) Hscan slot Hin).
Qed.

(** Scenario 2 of the specification: after Bob's booking, Alice asking
    for 11:00 to 13:00 is refused on slot 11:00, held by Bob. *)
Lemma book_conflict_all_or_nothing_witness :
  exists earlier first later,
    required_slots 1064303220 1064303340 = (earlier ++ first :: later)%list /\
    (forall s, In s earlier ->
               free s (PyDict.get_default "2024-08-01" PyDict.empty bob_calendar)) /\
    ~ free first (PyDict.get_default "2024-08-01" PyDict.empty bob_calendar) /\
    book_jam_session "2024-08-01" "11:00" "13:00" "Alice" bob_calendar
    = (SlotConflict first "2024-08-01"
         (PyDict.get first
            (PyDict.get_default "2024-08-01" PyDict.empty bob_calendar)),
       bob_calendar).
Proof.
  apply (@book_conflict_all_or_nothing
           "2024-08-01" "11:00" "13:00" "Alice" bob_calendar
           1064303220 1064303340
           (PyDict.get_default "2024-08-01" PyDict.empty bob_calendar)
           "11:00").
  - reflexivity.
  - reflexivity.
  - reflexivity.
  - vm_compute. discriminate.
  - reflexivity.
  - discriminate.
  - vm_compute. now left.
  - vm_compute. discriminate.
Defined.

Lemma scenario_2 :
  book_jam_session "2024-08-01" "11:00" "13:00" "Alice" bob_calendar
  = (SlotConflict "11:00" "2024-08-01" (Some "Bob"), bob_calendar).
Proof. reflexivity. Qed.

(** C1 as stated fails when a required slot off the grid comes before an
    occupied one.  On Bob's calendar Alice asks for 07:00 to 11:00: the
    required slot 10:00 is held by Bob, yet the error names 07:00, which
    the day does not have, with occupant [None]; it names no slot of the
    day with that slot's occupant. *)
Lemma book_conflict_names_slot_off_grid :
  let daily := PyDict.get_default "2024-08-01" PyDict.empty bob_calendar in
  let result :=
    book_jam_session "2024-08-01" "07:00" "11:00" "Alice" bob_calendar in
  strptime_datetime ("2024-08-01" ++ " " ++ "07:00") = Some 1064302980 /\
  strptime_datetime ("2024-08-01" ++ " " ++ "11:00") = Some 1064303220 /\
  PyDict.mem "2024-08-01" bob_calendar = true /\
  In "10:00" (required_slots 1064302980 1064303220) /\
  PyDict.get "10:00" daily = Some "Bob" /\
  result = (SlotConflict "07:00" "2024-08-01" None, bob_calendar) /\
  PyDict.get "07:00" daily = None /\
  ~ exists slot party,
      PyDict.get slot daily = Some party /\
      fst result = SlotConflict slot "2024-08-01" (Some party).
Proof.
  cbv zeta. repeat (split; [reflexivity || (vm_compute; tauto) |]).
  intros (slot & party & Hget & Hres).
  apply get_In in Hget. vm_compute in Hget, Hres.
  repeat (destruct Hget as [Hget|Hget];
          [inversion Hget; subst; discriminate Hres|]).
  exact Hget.
Qed.

(* ================================================================== *)
(** ** Booking: success *)

(** On whole-hour boundaries the required slots are the whole hours
    inside the range. *)
Lemma required_slots_covered start_dt end_dt slot :
  dt_minute start_dt = 0 -> dt_minute end_dt = 0 ->
  In slot (required_slots start_dt end_dt) <-> covered start_dt end_dt slot.
Proof.
  unfold dt_minute, covered. intros Hs He.
  rewrite In_required_slots. split; intros (k & Hk & Hlt & ->);
    exists k; repeat split; try assumption; try lia.
  apply Z.mod_divide in Hs, He; try lia.
  destruct Hs as [a ->], He as [b ->]. lia.
Qed.

(** C2. For a booking on a date of the calendar with parseable inputs,
    start strictly before end on whole-hour boundaries, a non-empty name
    and all required slots free: the booking succeeds; afterwards the day
    maps the name to exactly the slots of the whole hours in [start, end)
    and every other slot of the day to what it held; no slot key and no
    date is added; every other date is unchanged. *)
Theorem book_free_range_assigns_exactly
        (date start_time end_time name : string) (JAM : schedule)
        (start_dt end_dt : datetime) (daily : PyDict.dict string) :
  strptime_datetime (date ++ " " ++ start_time) = Some start_dt ->
  strptime_datetime (date ++ " " ++ end_time) = Some end_dt ->
  start_dt < end_dt ->
  dt_minute start_dt = 0 -> dt_minute end_dt = 0 ->
  PyDict.get date JAM = Some daily ->
  name <> "" ->
  (forall slot, In slot (required_slots start_dt end_dt) -> free slot daily) ->
  exists JAM' daily',
    book_jam_session date start_time end_time name JAM
    = (Booked name start_time end_time date, JAM') /\
    PyDict.get date JAM' = Some daily' /\
    (forall slot, covered start_dt end_dt slot ->
                  PyDict.get slot daily' = Some name) /\
    (forall slot, ~ covered start_dt end_dt slot ->
                  PyDict.get slot daily' = PyDict.get slot daily) /\
    PyDict.keys daily' = PyDict.keys daily /\
    (forall other, other <> date ->
                   PyDict.get other JAM' = PyDict.get other JAM) /\
    PyDict.keys JAM' = PyDict.keys JAM.
Proof.
  intros Hs He Hlt Hms Hme Hget Hname Hfree.
  pose (required := required_slots start_dt end_dt).
  exists (PyDict.set date (set_all required name daily) JAM),
         (set_all required name daily).
  split; [|split; [|split; [|split; [|split; [|split]]]]].
  - rewrite (book_checked _ _ _ JAM Hs He Hlt Hget Hname).
    apply first_conflict_None in Hfree. now rewrite Hfree.
  - apply get_set_same.
  - intros slot Hc.
    apply (@required_slots_covered start_dt end_dt slot Hms Hme) in Hc.
    rewrite get_set_all. subst required.
    now destruct (in_dec string_dec slot (required_slots start_dt end_dt)).
  - intros slot Hc. rewrite get_set_all.
    destruct (in_dec string_dec slot required) as [Hin|]; [|reflexivity].
    exfalso. apply Hc.
    now apply (@required_slots_covered start_dt end_dt slot Hms Hme).
  - apply keys_set_all. intros slot Hin.
    exact (get_Some_keys slot daily (Hfree slot Hin)).
  - intros other Hne. now apply get_set_other.
  - apply keys_set_present. exact (get_Some_keys date JAM Hget).
Qed.

(** Scenario 1 of the specification. *)
Lemma book_free_range_assigns_exactly_witness :
  exists JAM' daily',
    book_jam_session "2024-08-01" "10:00" "12:00" "Bob" opening_calendar
    = (Booked "Bob" "10:00" "12:00" "2024-08-01", JAM') /\
    PyDict.get "2024-08-01" JAM' = Some daily' /\
    (forall slot, covered 1064303160 1064303280 slot ->
                  PyDict.get slot daily' = Some "Bob") /\
    (forall slot, ~ covered 1064303160 1064303280 slot ->
                  PyDict.get slot daily' = PyDict.get slot fresh_day) /\
    PyDict.keys daily' = PyDict.keys fresh_day /\
    (forall other, other <> "2024-08-01" ->
                   PyDict.get other JAM' = PyDict.get other opening_calendar) /\
    PyDict.keys JAM' = PyDict.keys opening_calendar.
Proof.
  apply (@book_free_range_assigns_exactly
           "2024-08-01" "10:00" "12:00" "Bob" opening_calendar
           1064303160 1064303280 fresh_day).
  - reflexivity.
  - reflexivity.
  - reflexivity.
  - reflexivity.
  - reflexivity.
  - reflexivity.
  - discriminate.
  - intros slot Hin. vm_compute in Hin.
    destruct Hin as [<-|[<-|[]]]; reflexivity.
Defined.

Lemma scenario_1 :
  let daily := PyDict.get_default "2024-08-01" PyDict.empty bob_calendar in
  PyDict.get "10:00" daily = Some "Bob" /\
  PyDict.get "11:00" daily = Some "Bob" /\
  PyDict.get "12:00" daily = Some "unknown".
Proof. repeat split. Qed.

(** C10. The free sentinel is accepted as a reservation name: a booking
    under "unknown" of free slots on a date of the calendar succeeds and
    leaves the calendar exactly as it was, so the availability query still
    lists every one of those slots as available, and the same range can
    then be booked under any non-empty name. *)
Theorem book_under_sentinel_name
        (parsed : date) (date start_time end_time : string) (JAM : schedule)
        (start_dt end_dt : datetime) (daily : PyDict.dict string) :
  strptime_date date = Some parsed ->
  strptime_datetime (date ++ " " ++ start_time) = Some start_dt ->
  strptime_datetime (date ++ " " ++ end_time) = Some end_dt ->
  start_dt < end_dt ->
  PyDict.get date JAM = Some daily ->
  (forall slot, In slot (required_slots start_dt end_dt) -> free slot daily) ->
  "unknown" <> "" /\
  book_jam_session date start_time end_time "unknown" JAM
  = (Booked "unknown" start_time end_time date, JAM) /\
  list_jam_spot_availabilities date JAM
  = schedule_response date (available_of daily) (booked_of daily) /\
  (forall slot, In slot (required_slots start_dt end_dt) ->
                In slot (available_of daily)) /\
  (forall name, name <> "" ->
     fst (book_jam_session date start_time end_time name JAM)
     = Booked name start_time end_time date).
Proof.
  intros Hd Hs He Hlt Hget Hfree.
  assert (Hscan : first_conflict (required_slots start_dt end_dt) daily = None)
    by now apply first_conflict_None.
  split; [discriminate|]. split; [|split; [|split]].
  - rewrite (book_checked _ _ _ JAM Hs He Hlt Hget) by discriminate.
    rewrite Hscan, set_all_free_unknown by assumption.
    now rewrite (set_get_id _ _ Hget).
  - unfold list_jam_spot_availabilities. rewrite Hd, Hget.
    destruct (required_slots_head Hlt) as [rest Hreq].
    assert (Hf : free (strftime_HM start_dt) daily)
      by (apply Hfree; rewrite Hreq; now left).
    destruct daily; [discriminate Hf | reflexivity].
  - intros slot Hin. specialize (Hfree slot Hin). apply get_In in Hfree.
    unfold available_of, PyDict.items.
    change slot with (fst (slot, "unknown")).
    apply in_map, filter_In. split; [assumption | reflexivity].
  - intros name Hname.
    rewrite (book_checked _ _ _ JAM Hs He Hlt Hget Hname).
    now rewrite Hscan.
Qed.

Lemma book_under_sentinel_name_witness :
  book_jam_session "2024-08-01" "10:00" "12:00" "unknown" opening_calendar
  = (Booked "unknown" "10:00" "12:00" "2024-08-01", opening_calendar) /\
  (forall slot, In slot (required_slots 1064303160 1064303280) ->
                In slot (available_of fresh_day)) /\
  fst (book_jam_session "2024-08-01" "10:00" "12:00" "Bob" opening_calendar)
  = Booked "Bob" "10:00" "12:00" "2024-08-01".
Proof.
  assert (H := @book_under_sentinel_name
                 august_1 "2024-08-01" "10:00" "12:00" opening_calendar
                 1064303160 1064303280 fresh_day).
  destruct H as (_ & Hbook & _ & Havail & Hnext).
  - reflexivity.
  - reflexivity.
  - reflexivity.
  - reflexivity.
  - reflexivity.
  - intros slot Hin. vm_compute in Hin.
    destruct Hin as [<-|[<-|[]]]; reflexivity.
  - split; [exact Hbook|]. split; [exact Havail|].
    apply Hnext. discriminate.
Defined.

(* ================================================================== *)
(** ** Booking: times off the hour *)

Lemma dt_minute_step t k : dt_minute (t + 60 * k) = dt_minute t.
Proof.
  unfold dt_minute. rewrite Z.mul_comm. apply Z.mod_add. lia.
Qed.

Lemma strftime_HM_off_grid t :
  dt_minute t <> 0 -> ~ In (strftime_HM t) possible_times.
Proof.
  intros Hm Hin.
  assert (Hh : 0 <= dt_hour t < 24).
  { unfold dt_hour. split.
    - apply Z.div_pos; [apply Z.mod_pos_bound|]; lia.
    - apply Z.div_lt_upper_bound; [|apply Z.mod_pos_bound]; lia. }
  assert (Hr : 0 <= dt_minute t < 60) by (apply Z.mod_pos_bound; lia).
  assert (Hall : misaligned_keys_off_grid = true) by (vm_compute; reflexivity).
  unfold misaligned_keys_off_grid in Hall.
  rewrite forallb_forall in Hall.
  specialize (Hall (Z.to_nat (dt_hour t))).
  rewrite forallb_forall in Hall.
  assert (Hno := Hall ltac:(apply in_seq; lia) (Z.to_nat (dt_minute t))
                      ltac:(apply in_seq; lia)).
  rewrite !Z2Nat.id in Hno by lia.
  apply negb_true_iff in Hno.
  assert (Hyes : existsb (String.eqb (strftime_HM t)) possible_times = true).
  { apply existsb_exists. exists (strftime_HM t).
    split; [exact Hin | apply String.eqb_refl]. }
  unfold strftime_HM in Hyes. congruence.
Qed.

Lemma strftime_HM_on_hour t :
  dt_minute t = 0 ->
  exists h, 0 <= h < 24 /\ strftime_HM t = (pad2 h ++ ":00")%string.
Proof.
  intros Hm. exists (dt_hour t). split.
  - unfold dt_hour. split.
    + apply Z.div_pos; [apply Z.mod_pos_bound|]; lia.
    + apply Z.div_lt_upper_bound; [|apply Z.mod_pos_bound]; lia.
  - unfold strftime_HM. now rewrite Hm.
Qed.

(** C6, as amended.  For a booking on a date of a calendar on the grid,
    with parseable inputs, start strictly before end, the hourly
    expansion staying within the range of [datetime] (as it does for
    every date before 9999-12-31) and a non-empty name.  When the start
    time has minutes other than 00, no expanded slot key is a key of the
    grid, and the scan counts the first of them as taken, so the booking
    is refused with the [SlotConflict] error naming that key with
    occupant [None] and the calendar is unchanged: the refusal is the
    conflict error, not an error of its own.  When the start is on the
    hour, every expanded key is an on-the-hour key whatever the minutes
    of the end time, and the end time is not checked for alignment: if
    the expanded slots are free the booking succeeds and writes the name
    into them. *)
Theorem misaligned_start_refused_as_conflict
        (date start_time end_time name : string) (JAM : schedule)
        (start_dt end_dt : datetime) :
  calendar_ok JAM ->
  strptime_datetime (date ++ " " ++ start_time) = Some start_dt ->
  strptime_datetime (date ++ " " ++ end_time) = Some end_dt ->
  start_dt < end_dt ->
  expansion_in_range start_dt end_dt ->
  PyDict.mem date JAM = true ->
  name <> "" ->
  (dt_minute start_dt <> 0 ->
   (forall slot, In slot (required_slots start_dt end_dt) ->
                 ~ In slot possible_times) /\
   book_jam_session date start_time end_time name JAM
   = (SlotConflict (strftime_HM start_dt) date None, JAM)) /\
  (dt_minute start_dt = 0 ->
   (forall slot, In slot (required_slots start_dt end_dt) ->
                 exists h, 0 <= h < 24 /\ slot = (pad2 h ++ ":00")%string) /\
   (forall daily,
      PyDict.get date JAM = Some daily ->
      (forall slot, In slot (required_slots start_dt end_dt) ->
                    free slot daily) ->
      book_jam_session date start_time end_time name JAM
      = (Booked name start_time end_time date,
         PyDict.set date
           (set_all (required_slots start_dt end_dt) name daily) JAM))).
Proof.
  intros Hok Hs He Hlt _ Hmem Hname. split.
  - intros Hm.
    assert (Hoff : forall slot, In slot (required_slots start_dt end_dt) ->
                                ~ In slot possible_times).
    { intros slot Hin. apply In_required_slots in Hin.
      destruct Hin as (k & _ & _ & ->).
      apply strftime_HM_off_grid. now rewrite dt_minute_step. }
    split; [exact Hoff|].
    unfold PyDict.mem in Hmem.
    destruct (PyDict.get date JAM) as [daily|] eqn:Hget; [|discriminate].
    rewrite (book_checked _ _ _ JAM Hs He Hlt Hget Hname).
    destruct (required_slots_head Hlt) as [rest Hreq].
    assert (Hnone : PyDict.get (strftime_HM start_dt) daily = None).
    { apply get_None_keys. rewrite (calendar_ok_get date Hok Hget).
      apply Hoff. rewrite Hreq. now left. }
    rewrite Hreq. cbn [first_conflict]. unfold PyDict.get_default.
    rewrite Hnone. change (negb (is_unknown "booked")) with true.
    cbv iota. now rewrite Hnone.
  - intros Hm. split.
    + intros slot Hin. apply In_required_slots in Hin.
      destruct Hin as (k & _ & _ & ->).
      apply strftime_HM_on_hour. now rewrite dt_minute_step.
    + intros daily Hget Hfree.
      rewrite (book_checked _ _ _ JAM Hs He Hlt Hget Hname).
      apply first_conflict_None in Hfree. now rewrite Hfree.
Qed.

(** A start off the hour is refused as a conflict; an end off the hour
    is accepted: 10:00 to 11:30 books 10:00 and 11:00. *)
Lemma misaligned_start_refused_as_conflict_witness :
  dt_minute 1064303190 <> 0 /\
  book_jam_session "2024-08-01" "10:30" "11:30" "Alice" opening_calendar
  = (SlotConflict "10:30" "2024-08-01" None, opening_calendar) /\
  (forall slot, In slot (required_slots 1064303160 1064303250) ->
                exists h, 0 <= h < 24 /\ slot = (pad2 h ++ ":00")%string) /\
  dt_minute 1064303250 = 30 /\
  book_jam_session "2024-08-01" "10:00" "11:30" "Alice" opening_calendar
  = (Booked "Alice" "10:00" "11:30" "2024-08-01",
     PyDict.set "2024-08-01"
       (set_all (required_slots 1064303160 1064303250) "Alice" fresh_day)
       opening_calendar).
Proof.
  assert (Hok : calendar_ok opening_calendar)
    by (unfold opening_calendar; repeat constructor).
  assert (Hend : forall Hname : "Alice" <> "",
             dt_minute 1064303160 = 0 ->
             (forall slot, In slot (required_slots 1064303160 1064303250) ->
                exists h, 0 <= h < 24 /\ slot = (pad2 h ++ ":00")%string) /\
             (forall daily,
                PyDict.get "2024-08-01" opening_calendar = Some daily ->
                (forall slot, In slot (required_slots 1064303160 1064303250) ->
                              free slot daily) ->
                book_jam_session "2024-08-01" "10:00" "11:30" "Alice"
                  opening_calendar
                = (Booked "Alice" "10:00" "11:30" "2024-08-01",
                   PyDict.set "2024-08-01"
                     (set_all (required_slots 1064303160 1064303250)
                              "Alice" daily) opening_calendar))).
  { intros Hname.
    refine (proj2 (@misaligned_start_refused_as_conflict
                     "2024-08-01" "10:00" "11:30" "Alice"
                     opening_calendar 1064303160 1064303250
                     Hok _ _ _ _ _ Hname)).
    - reflexivity.
    - reflexivity.
    - reflexivity.
    - vm_compute. discriminate.
    - reflexivity. }
  assert (Hname : "Alice" <> "") by discriminate.
  split; [vm_compute; discriminate|]. split; [|split; [|split]].
  - refine (proj2 (proj1 (@misaligned_start_refused_as_conflict
                            "2024-08-01" "10:30" "11:30" "Alice"
                            opening_calendar 1064303190 1064303250
                            Hok _ _ _ _ _ Hname) _)).
    + reflexivity.
    + reflexivity.
    + reflexivity.
    + vm_compute. discriminate.
    + reflexivity.
    + vm_compute; discriminate.
  - exact (proj1 (Hend Hname eq_refl)).
  - reflexivity.
  - apply (proj2 (Hend Hname eq_refl) fresh_day); [reflexivity|].
    intros slot Hin. vm_compute in Hin.
    destruct Hin as [<-|[<-|[]]]; reflexivity.
Defined.

(** C6 as stated fails on both counts.  With only the end time off the
    hour (10:00 to 11:30 on Bob's calendar) the expanded keys 10:00 and
    11:00 are keys of the grid and the scan reports Bob's booking; with
    the start off the hour (10:30 to 11:30 on the opening calendar, every
    slot free) the scan does not pass the keys over in silence, it
    refuses the booking. *)
Lemma misaligned_keys_scanned :
  strptime_datetime ("2024-08-01" ++ " " ++ "10:00") = Some 1064303160 /\
  strptime_datetime ("2024-08-01" ++ " " ++ "11:30") = Some 1064303250 /\
  dt_minute 1064303250 = 30 /\
  required_slots 1064303160 1064303250 = ["10:00"; "11:00"] /\
  ~ (forall slot, In slot (required_slots 1064303160 1064303250) ->
                  ~ In slot possible_times) /\
  book_jam_session "2024-08-01" "10:00" "11:30" "Alice" bob_calendar
  = (SlotConflict "10:00" "2024-08-01" (Some "Bob"), bob_calendar) /\
  book_jam_session "2024-08-01" "10:30" "11:30" "Alice" opening_calendar
  = (SlotConflict "10:30" "2024-08-01" None, opening_calendar).
Proof.
  repeat (split; [reflexivity|]). split; [|split; reflexivity].
  intros H. apply (H "10:00"); vm_compute; tauto.
Qed.

(* ================================================================== *)
(** ** Schedule generation *)

Lemma generate_loop_keeps_fresh today range (JAM : schedule) date :
  PyDict.get date JAM = Some fresh_day ->
  PyDict.get date (generate_loop today range JAM) = Some fresh_day.
Proof.
  revert JAM. induction range as [|i range IH]; intros JAM H; simpl.
  - exact H.
  - apply IH.
    destruct (string_dec date (strftime_date (add_days today i))) as [->|Hne].
    + apply get_set_same.
    + now rewrite get_set_other.
Qed.

Lemma generate_loop_window today range (JAM : schedule) i :
  In i range ->
  PyDict.get (strftime_date (add_days today i))
             (generate_loop today range JAM) = Some fresh_day.
Proof.
  revert JAM. induction range as [|j range IH]; intros JAM Hin; simpl.
  - destruct Hin.
  - destruct (in_dec Nat.eq_dec i range) as [Hlater|Hnot].
    + now apply IH.
    + destruct Hin as [->|Hin]; [|contradiction].
      apply generate_loop_keeps_fresh, get_set_same.
Qed.

Lemma generate_loop_outside today range (JAM : schedule) date :
  (forall i, In i range -> date <> strftime_date (add_days today i)) ->
  PyDict.get date (generate_loop today range JAM) = PyDict.get date JAM.
Proof.
  revert JAM. induction range as [|i range IH]; intros JAM H; simpl.
  - reflexivity.
  - rewrite IH by (intros j Hj; apply H; now right).
    apply get_set_other, H. now left.
Qed.

Lemma fresh_day_free time :
  In time possible_times -> PyDict.get time fresh_day = Some "unknown".
Proof.
  intros Hin. vm_compute in Hin.
  repeat (destruct Hin as [<-|Hin]; [reflexivity|]). destruct Hin.
Qed.

(** C8, as amended.  For [today] a valid date of a four-digit year with
    six days left before the end of year 9999, generating the schedule
    maps each of the seven dates today to today+6, valid dates of
    consecutive ordinals, to a fresh day: one entry per grid hour 08:00 to
    20:00, thirteen in all, each holding the free sentinel; what those
    seven dates held before is replaced.  Every date outside the window
    keeps the entry it had. *)
Theorem generate_populates_window (today : date) (JAM : schedule) :
  valid_date today = true -> 1000 <= year today ->
  toordinal today + 6 <= toordinal (Date 9999 12 31) ->
  let JAM' := generate_friends_schedule today JAM in
  (forall i, (i < 7)%nat ->
     valid_date (add_days today i) = true /\
     toordinal (add_days today i) = toordinal today + Z.of_nat i /\
     PyDict.get (strftime_date (add_days today i)) JAM' = Some fresh_day) /\
  PyDict.keys fresh_day = possible_times /\
  List.length possible_times = 13%nat /\
  (forall time, In time possible_times ->
                PyDict.get time fresh_day = Some "unknown") /\
  (forall date, ~ In date (window today) ->
                PyDict.get date JAM' = PyDict.get date JAM).
Proof.
  intros Hv Hy Hmax. cbv zeta. unfold generate_friends_schedule.
  split; [|split; [|split; [|split]]].
  - intros i Hi.
    destruct (toordinal_add_days today i Hv ltac:(lia)) as [Hvi Hoi].
    split; [exact Hvi|]. split; [exact Hoi|].
    apply generate_loop_window, in_seq. lia.
  - reflexivity.
  - reflexivity.
  - exact fresh_day_free.
  - intros date Hout. apply generate_loop_outside.
    intros i Hi ->. apply Hout. unfold window.
    now apply (in_map (fun i => strftime_date (add_days today i))).
Qed.

Lemma generate_populates_window_witness :
  window august_1
  = ["2024-08-01"; "2024-08-02"; "2024-08-03"; "2024-08-04"; "2024-08-05";
     "2024-08-06"; "2024-08-07"] /\
  PyDict.get "2024-08-07" (generate_friends_schedule august_1 bob_calendar)
  = Some fresh_day /\
  PyDict.get "2024-08-01" (generate_friends_schedule august_1 bob_calendar)
  = Some fresh_day.
Proof.
  assert (H : forall i, (i < 7)%nat ->
            valid_date (add_days august_1 i) = true /\
            toordinal (add_days august_1 i)
            = toordinal august_1 + Z.of_nat i /\
            PyDict.get (strftime_date (add_days august_1 i))
              (generate_friends_schedule august_1 bob_calendar)
            = Some fresh_day).
  { refine (proj1 (generate_populates_window august_1 bob_calendar _ _ _)).
    - reflexivity.
    - vm_compute. discriminate.
    - vm_compute. discriminate. }
  split; [reflexivity|]. split.
  - apply (H 6%nat). lia.
  - apply (H 0%nat). lia.
Defined.

(** C8 as stated fails in its last part: generating does not clear the
    calendar.  A calendar that holds 2024-07-31 with Bob at 10:00 still
    holds that entry, Bob included, after generating on 2024-08-01. *)
Lemma generate_keeps_dates_outside_window :
  let before := yesterday_calendar in
  let after := generate_friends_schedule august_1 before in
  ~ In "2024-07-31" (window august_1) /\
  PyDict.mem "2024-07-31" before = true /\
  PyDict.get "2024-07-31" after = PyDict.get "2024-07-31" before /\
  exists daily,
    PyDict.get "2024-07-31" after = Some daily /\
    PyDict.get "10:00" daily = Some "Bob".
Proof.
  cbv zeta. split; [|split; [|split]].
  - vm_compute. intros H.
    repeat (destruct H as [H|H]; [discriminate H|]). exact H.
  - reflexivity.
  - reflexivity.
  - eexists. split; reflexivity.
Qed.

(* ================================================================== *)
(** ** The availability query *)

Lemma NoDup_possible_times : NoDup possible_times.
Proof.
  rewrite possible_times_eq.
  repeat (constructor;
          [ intros H; repeat (destruct H as [H|H]; [discriminate H|]);
            exact H | ]).
  constructor.
Qed.

Section Partition.
Variable V : Type.
Variable f : string * V -> bool.

Lemma keys_filter_incl (d : PyDict.dict V) k :
  In k (map fst (filter f d)) -> In k (map fst d).
Proof.
  rewrite !in_map_iff. intros (e & <- & He).
  apply filter_In in He. exists e. tauto.
Qed.

Lemma NoDup_keys_filter (d : PyDict.dict V) :
  NoDup (map fst d) -> NoDup (map fst (filter f d)).
Proof.
  induction d as [|e d IH]; simpl; intros Hnd; [constructor|].
  inversion Hnd as [|? ? Hnotin Hrest]; subst.
  destruct (f e); simpl; auto.
  constructor; auto.
  intros Hin. apply Hnotin. now apply keys_filter_incl.
Qed.

(** The entries the test takes and the entries it leaves, together, are
    the entries. *)
Lemma keys_filter_partition (d : PyDict.dict V) :
  Permutation
    (map fst (filter f d) ++ map fst (filter (fun e => negb (f e)) d))
    (map fst d).
Proof.
  induction d as [|e d IH]; simpl; [constructor|].
  destruct (f e); simpl.
  - now constructor.
  - apply Permutation_sym, Permutation_cons_app, Permutation_sym, IH.
Qed.

Lemma In_get_NoDup (d : PyDict.dict V) k v :
  NoDup (PyDict.keys d) -> In (k, v) d -> PyDict.get k d = Some v.
Proof.
  induction d as [|[k' v'] d IH]; simpl; intros Hnd Hin; [destruct Hin|].
  inversion Hnd as [|? ? Hnotin Hrest]; subst.
  destruct (String.eqb_spec k k') as [->|Hne].
  - destruct Hin as [E|Hin]; [now inversion E|].
    exfalso. apply Hnotin. change k' with (fst (k', v)). now apply in_map.
  - destruct Hin as [E|Hin]; [inversion E; congruence | auto].
Qed.
End Partition.

Lemma available_of_spec (daily : PyDict.dict string) slot :
  NoDup (PyDict.keys daily) ->
  In slot (available_of daily) <-> free slot daily.
Proof.
  intros Hnd. unfold available_of, free, PyDict.items.
  rewrite in_map_iff. split.
  - intros ([k p] & <- & He). apply filter_In in He. simpl in *.
    destruct He as [Hin Hp]. apply String.eqb_eq in Hp. subst p.
    now apply In_get_NoDup.
  - intros Hget. exists (slot, "unknown"). split; [reflexivity|].
    apply filter_In. split; [now apply get_In | reflexivity].
Qed.

Lemma booked_of_filter (daily : PyDict.dict string) :
  NoDup (PyDict.keys daily) ->
  booked_of daily = filter (fun tp => negb (is_unknown (snd tp))) daily.
Proof.
  intros Hnd. unfold booked_of, PyDict.items.
  apply of_items_NoDup. now apply NoDup_keys_filter.
Qed.

Lemma booked_of_spec (daily : PyDict.dict string) slot party :
  NoDup (PyDict.keys daily) ->
  PyDict.get slot (booked_of daily) = Some party <->
  PyDict.get slot daily = Some party /\ party <> "unknown".
Proof.
  intros Hnd. rewrite booked_of_filter by exact Hnd. split.
  - intros Hget. apply get_In, filter_In in Hget. simpl in Hget.
    destruct Hget as [Hin Hp]. split.
    + now apply In_get_NoDup.
    + intros ->. discriminate Hp.
  - intros [Hget Hp]. apply In_get_NoDup.
    + now apply NoDup_keys_filter.
    + apply filter_In. split; [now apply get_In|]. simpl.
      unfold is_unknown. now destruct (String.eqb_spec party "unknown").
Qed.

Lemma availability_partition (daily : PyDict.dict string) :
  NoDup (PyDict.keys daily) ->
  Permutation (available_of daily ++ PyDict.keys (booked_of daily))
              (PyDict.keys daily).
Proof.
  intros Hnd. rewrite booked_of_filter by exact Hnd.
  apply keys_filter_partition.
Qed.

(** C4. The availability query is a three-way function of its date
    argument, on every calendar on the grid.  A date [strptime] rejects
    gives the invalid-date error (a value, the query raises nothing).  A
    date that parses and is not in the calendar gives the explicit
    not-open result, which differs from every schedule result.  A date
    that parses and is in the calendar gives the schedule of its day: the
    free-slot list holds exactly the slots whose occupant is "unknown",
    the booked-slot mapping maps exactly the other slots to their
    occupants, and the two together hold every grid slot exactly once. *)
Theorem availability_three_way (date : string) (JAM : schedule) :
  calendar_ok JAM ->
  (strptime_date date = None ->
   list_jam_spot_availabilities date JAM = invalid_date_response) /\
  (strptime_date date <> None -> PyDict.mem date JAM = false ->
   list_jam_spot_availabilities date JAM = not_open_response date) /\
  (forall available booked,
     not_open_response date <> schedule_response date available booked) /\
  (strptime_date date <> None ->
   forall daily, PyDict.get date JAM = Some daily ->
     list_jam_spot_availabilities date JAM
     = schedule_response date (available_of daily) (booked_of daily) /\
     (forall slot, In slot (available_of daily) <->
                   PyDict.get slot daily = Some "unknown") /\
     (forall slot party,
        PyDict.get slot (booked_of daily) = Some party <->
        PyDict.get slot daily = Some party /\ party <> "unknown") /\
     Permutation (available_of daily ++ PyDict.keys (booked_of daily))
                 possible_times).
Proof.
  intros Hok. unfold list_jam_spot_availabilities.
  split; [|split; [|split]].
  - now intros ->.
  - intros Hd Hmem. unfold PyDict.mem in Hmem.
    destruct (strptime_date date); [|contradiction].
    now destruct (PyDict.get date JAM).
  - intros available booked H. discriminate H.
  - intros Hd daily Hget.
    assert (Hkeys := calendar_ok_get date Hok Hget).
    assert (Hnd : NoDup (PyDict.keys daily))
      by (rewrite Hkeys; exact NoDup_possible_times).
    split; [|split; [|split]].
    + destruct (strptime_date date); [|contradiction]. rewrite Hget.
      destruct daily; [discriminate Hkeys | reflexivity].
    + intros slot. now apply available_of_spec.
    + intros slot party. now apply booked_of_spec.
    + rewrite <- Hkeys. now apply availability_partition.
Qed.

(** Scenario 3 and scenario 5 of the specification, and a date past the
    window. *)
Lemma availability_three_way_witness :
  list_jam_spot_availabilities "2024-13-40" bob_calendar
  = invalid_date_response /\
  list_jam_spot_availabilities "2024-08-09" bob_calendar
  = not_open_response "2024-08-09" /\
  list_jam_spot_availabilities "2024-08-01" bob_calendar
  = schedule_response "2024-08-01"
      ["08:00"; "09:00"; "12:00"; "13:00"; "14:00"; "15:00"; "16:00";
       "17:00"; "18:00"; "19:00"; "20:00"]
      [("10:00", "Bob"); ("11:00", "Bob")].
Proof.
  assert (Hok : calendar_ok bob_calendar)
    by (exact (reachable_ok reachable_bob_calendar)).
  split; [|split].
  - apply (proj1 (availability_three_way "2024-13-40" Hok)). reflexivity.
  - apply (proj1 (proj2 (availability_three_way "2024-08-09" Hok)));
      [discriminate | reflexivity].
  - assert (Hd : strptime_date "2024-08-01" <> None) by discriminate.
    exact (proj1 (proj2 (proj2 (proj2
             (availability_three_way "2024-08-01" Hok))) Hd
             (PyDict.get_default "2024-08-01" PyDict.empty bob_calendar)
             eq_refl)).
Defined.

(* ================================================================== *)
(** ** The friend directory *)

Unset Implicit Arguments.

Section Directory.
Variable get_agent_card : string -> Host.exception + Host.AgentCard.

(** Case analysis on what the transport did at one address. *)
Ltac fetch address :=
  unfold Host._register_remote_agent;
  destruct (get_agent_card address) as [[error|error|error]|card] eqn:?;
  simpl in *; try discriminate.

Lemma register_returns address w :
  caught (get_agent_card address) = true ->
  exists w', Host._register_remote_agent get_agent_card address w = inr w'.
Proof. fetch address; eauto. Qed.

Lemma register_each_returns addresses w :
  (forall a, In a addresses -> caught (get_agent_card a) = true) ->
  exists w', Host.register_each get_agent_card addresses w = inr w'.
Proof.
  revert w. induction addresses as [|a addresses IH]; intros w Hall; simpl.
  - eauto.
  - destruct (@register_returns a w) as [w1 ->]; [apply Hall; now left|].
    apply IH. intros b Hb. apply Hall. now right.
Qed.

(** A failed address changes nothing but the output. *)
Lemma register_failed address w1 w2 w1' :
  answered (get_agent_card address) = false ->
  Host.self w1 = Host.self w2 ->
  Host._register_remote_agent get_agent_card address w1 = inr w1' ->
  Host.self w1' = Host.self w2.
Proof.
  intros Hfail Hself. fetch address; intros H; inversion H; subst; assumption.
Qed.

(** A registration depends on the output written so far in no way. *)
Lemma register_answered address w1 w2 w1' :
  answered (get_agent_card address) = true ->
  Host.self w1 = Host.self w2 ->
  Host._register_remote_agent get_agent_card address w1 = inr w1' ->
  exists w2', Host._register_remote_agent get_agent_card address w2 = inr w2' /\ Host.self w1' = Host.self w2'.
Proof.
  intros Hok Hself. fetch address. intros H; inversion H; subst.
  eexists. split; [reflexivity|]. simpl. now rewrite Hself.
Qed.

Lemma register_each_skips_failed addresses w1 w2 w1' :
  Host.self w1 = Host.self w2 ->
  Host.register_each get_agent_card addresses w1 = inr w1' ->
  exists w2',
    Host.register_each get_agent_card (filter (fun a => answered (get_agent_card a)) addresses) w2
    = inr w2' /\
    Host.self w1' = Host.self w2'.
Proof.
  revert w1 w2. induction addresses as [|a addresses IH];
    intros w1 w2 Hself Hrun; simpl in *.
  - inversion Hrun; subst. eauto.
  - destruct (Host._register_remote_agent get_agent_card a w1) as [e|w1a] eqn:Hstep; [discriminate|].
    destruct (answered (get_agent_card a)) eqn:Hans; simpl.
    + destruct (register_answered a w1 w2 w1a Hans Hself Hstep) as (w2a & -> & Hs).
      exact (IH _ _ Hs Hrun).
    + apply (IH w1a w2); [|exact Hrun].
      exact (register_failed a w1 w2 w1a Hans Hself Hstep).
Qed.

Lemma register_stdout_grows address w w' line :
  Host._register_remote_agent get_agent_card address w = inr w' ->
  In line (Host.stdout w) -> In line (Host.stdout w').
Proof.
  fetch address; intros H; inversion H; subst; simpl; intros Hin;
    try (apply in_or_app; now left); assumption.
Qed.

Lemma register_each_stdout_grows addresses w w' line :
  Host.register_each get_agent_card addresses w = inr w' ->
  In line (Host.stdout w) -> In line (Host.stdout w').
Proof.
  revert w. induction addresses as [|a addresses IH]; intros w Hrun Hin;
    simpl in *.
  - now inversion Hrun; subst.
  - destruct (Host._register_remote_agent get_agent_card a w) as [e|w1] eqn:Hstep; [discriminate|].
    apply (IH w1 Hrun). exact (register_stdout_grows a w w1 line Hstep Hin).
Qed.

Lemma register_each_logs addresses w w' a e line :
  Host.register_each get_agent_card addresses w = inr w' ->
  In a addresses -> get_agent_card a = inl e ->
  failure_line a e = Some line ->
  In line (Host.stdout w').
Proof.
  revert w. induction addresses as [|b addresses IH];
    intros w Hrun Hin Hfetch Hline; simpl in *; [destruct Hin|].
  destruct (Host._register_remote_agent get_agent_card b w) as [x|w1] eqn:Hstep; [discriminate|].
  destruct Hin as [->|Hin]; [|exact (IH w1 Hrun Hin Hfetch Hline)].
  apply (register_each_stdout_grows addresses w1 w' line Hrun).
  unfold Host._register_remote_agent in Hstep. rewrite Hfetch in Hstep.
  destruct e; simpl in *; inversion Hline; inversion Hstep; subst; simpl;
    apply in_or_app; right; now left.
Qed.

Lemma register_keeps_listed address w w' n :
  Host._register_remote_agent get_agent_card address w = inr w' -> listed n w -> listed n w'.
Proof.
  unfold listed. fetch address; intros H; inversion H; subst; simpl;
    try (intros; assumption).
  intros (c & Hget & Hname).
  destruct (string_dec n (Host.name card)) as [->|Hne].
  - exists card. split; [apply get_set_same | reflexivity].
  - exists c. split; [now rewrite get_set_other | assumption].
Qed.

Lemma register_each_keeps_listed addresses w w' n :
  Host.register_each get_agent_card addresses w = inr w' -> listed n w -> listed n w'.
Proof.
  revert w. induction addresses as [|a addresses IH]; intros w Hrun Hl;
    simpl in *.
  - now inversion Hrun; subst.
  - destruct (Host._register_remote_agent get_agent_card a w) as [e|w1] eqn:Hstep; [discriminate|].
    exact (IH w1 Hrun (register_keeps_listed a w w1 n Hstep Hl)).
Qed.

Lemma register_each_lists addresses w w' a card :
  Host.register_each get_agent_card addresses w = inr w' ->
  In a addresses -> get_agent_card a = inr card ->
  listed (Host.name card) w'.
Proof.
  revert w. induction addresses as [|b addresses IH];
    intros w Hrun Hin Hfetch; simpl in *; [destruct Hin|].
  destruct (Host._register_remote_agent get_agent_card b w) as [x|w1] eqn:Hstep; [discriminate|].
  destruct Hin as [->|Hin]; [|exact (IH w1 Hrun Hin Hfetch)].
  apply (register_each_keeps_listed addresses w1 w' (Host.name card) Hrun).
  unfold Host._register_remote_agent in Hstep. rewrite Hfetch in Hstep.
  inversion Hstep; subst. exists card. simpl.
  split; [apply get_set_same | reflexivity].
Qed.

(** Every card of the directory was there before or came from an
    address that answered. *)
Lemma register_each_only_answers addresses w w' n card :
  Host.register_each get_agent_card addresses w = inr w' ->
  PyDict.get n (Host.cards (Host.self w')) = Some card ->
  PyDict.get n (Host.cards (Host.self w)) = Some card \/
  exists a, In a addresses /\ get_agent_card a = inr card /\
            Host.name card = n.
Proof.
  revert w. induction addresses as [|a addresses IH]; intros w Hrun Hget;
    simpl in *.
  - inversion Hrun; subst. now left.
  - destruct (Host._register_remote_agent get_agent_card a w) as [e|w1] eqn:Hstep; [discriminate|].
    destruct (IH w1 Hrun Hget) as [Hold|(b & Hb & Hfb & Hnb)].
    + unfold Host._register_remote_agent in Hstep.
      destruct (get_agent_card a) as [[error|error|error]|c] eqn:Hfetch;
        inversion Hstep; subst; simpl in *; try (now left).
      destruct (string_dec n (Host.name c)) as [->|Hne].
      * rewrite get_set_same in Hold. inversion Hold; subst.
        right. exists a. auto.
      * rewrite get_set_other in Hold by assumption. now left.
    + right. exists b. auto.
Qed.

End Directory.

(** C9. Building the directory is best-effort.  Whenever every fetch
    either returns a card or fails with a transport failure (an exception
    one of the two [except] clauses meets), the build returns, no
    exception leaving it; each failure is printed; the failed addresses
    leave no trace in the instance, which is the one the build over the
    answering addresses alone gives; every friend whose card was fetched
    is in the directory and has its line in the summary; every card of
    the directory was there before or was fetched from an answering
    address; and the summary is the marker "No friends found", not the
    empty string, when the directory is empty. *)
Theorem directory_build_best_effort
        (get_agent_card : string -> Host.exception + Host.AgentCard)
        (addresses : list string) (w : Host.world) :
  (forall a, In a addresses -> caught (get_agent_card a) = true) ->
  exists w',
    Host._async_init_components get_agent_card addresses w = inr w' /\
    (forall a e line,
        In a addresses -> get_agent_card a = inl e ->
        failure_line a e = Some line -> In line (Host.stdout w')) /\
    (exists w'',
        Host._async_init_components get_agent_card
          (filter (fun a => answered (get_agent_card a)) addresses) w
        = inr w'' /\
        Host.self w' = Host.self w'') /\
    (forall a card,
        In a addresses -> get_agent_card a = inr card ->
        exists card',
          PyDict.get (Host.name card) (Host.cards (Host.self w')) = Some card' /\
          Host.name card' = Host.name card /\
          In (Host.json_dumps_card card') (agent_info (Host.self w'))) /\
    (forall n card,
        PyDict.get n (Host.cards (Host.self w')) = Some card ->
        PyDict.get n (Host.cards (Host.self w)) = Some card \/
        exists a, In a addresses /\ get_agent_card a = inr card /\
                  Host.name card = n) /\
    Host.agents (Host.self w')
    = match agent_info (Host.self w') with
      | [] => "No friends found"
      | _ :: _ => Host.join Host.newline (agent_info (Host.self w'))
      end /\
    (Host.cards (Host.self w') = PyDict.empty ->
     Host.agents (Host.self w') = "No friends found") /\
    "No friends found" <> "".
Proof.
  intros Hall.
  destruct (register_each_returns get_agent_card addresses w Hall)
    as [w1 Hrun].
  exists (Host._refresh_agent_directory w1).
  unfold Host._async_init_components. rewrite Hrun.
  split; [reflexivity|].
  split; [|split; [|split; [|split; [|split; [|split]]]]].
  - intros a e line Hin Hfetch Hline. simpl. apply in_or_app. left.
    exact (register_each_logs get_agent_card addresses w w1 a e line Hrun Hin Hfetch
             Hline).
  - destruct (register_each_skips_failed get_agent_card addresses w w w1
                eq_refl Hrun) as (w2 & -> & Hself).
    eexists. split; [reflexivity|].
    unfold Host._refresh_agent_directory. simpl. now rewrite Hself.
  - intros a card Hin Hfetch.
    destruct (register_each_lists get_agent_card addresses w w1 a card Hrun Hin
                Hfetch)
      as (card' & Hget & Hname).
    exists card'. simpl. repeat split; try assumption.
    unfold agent_info. simpl. apply in_map.
    apply get_In in Hget. unfold PyDict.values.
    change card' with (snd (Host.name card, card')). now apply in_map.
  - intros n card Hget. simpl in Hget.
    exact (register_each_only_answers get_agent_card addresses w w1 n card Hrun
             Hget).
  - reflexivity.
  - simpl. intros ->. reflexivity.
  - discriminate.
Qed.

(** Scenario 4 of the specification: of three addresses one answers, one
    refuses the connection and one sends a malformed descriptor. *)
Lemma directory_build_best_effort_witness :
  exists w',
    Host._async_init_components sample_transport sample_addresses new_world
    = inr w' /\
    In (Host.FailedCard "http://localhost:10003" "connection refused")
       (Host.stdout w') /\
    In (Host.FailedInit "http://localhost:10004" "malformed agent card")
       (Host.stdout w') /\
    PyDict.keys (Host.cards (Host.self w')) = ["Cartola"].
Proof.
  destruct (@directory_build_best_effort
              sample_transport sample_addresses new_world)
    as (w' & Hrun & Hlog & _).
  - intros a Hin. vm_compute in Hin.
    destruct Hin as [<-|[<-|[<-|[]]]]; reflexivity.
  - exists w'. split; [exact Hrun|]. split; [|split].
    + apply (Hlog "http://localhost:10003"
                  (Host.ConnectError "connection refused"));
        [vm_compute; tauto | reflexivity | reflexivity].
    + apply (Hlog "http://localhost:10004"
                  (Host.OtherException "malformed agent card"));
        [vm_compute; tauto | reflexivity | reflexivity].
    + vm_compute in Hrun. inversion Hrun. reflexivity.
Defined.

Lemma empty_directory_marker :
  forall w',
    Host._async_init_components sample_transport
      ["http://localhost:10003"; "http://localhost:10004"] new_world
    = inr w' ->
    Host.agents (Host.self w') = "No friends found".
Proof. intros w' H. vm_compute in H. now inversion H. Qed.

(* ================================================================== *)
(** ** [strptime] reads back what [strftime] writes *)

Lemma code_digit_char n : code (digit_char n) = 48 + n mod 10.
Proof.
  unfold code, digit_char.
  assert (0 <= n mod 10 < 10) by (apply Z.mod_pos_bound; lia).
  rewrite nat_ascii_embedding by lia. lia.
Qed.

Lemma is_digit_digit_char n : is_digit (digit_char n) = true.
Proof.
  unfold is_digit, in_range. rewrite code_digit_char.
  assert (0 <= n mod 10 < 10) by (apply Z.mod_pos_bound; lia).
  apply andb_true_iff. split; apply Z.leb_le; lia.
Qed.

Lemma hd_error_map_app (A B : Type) (g : A -> B) (l : list A) (l' : list B) x :
  hd_error l = Some x -> hd_error (map g l ++ l')%list = Some (g x).
Proof. destruct l; simpl; intros H; inversion H; reflexivity. Qed.

(** The year directive on the four digits [%Y] writes. *)
Lemma match_year y f r vs rest :
  1000 <= y <= 9999 ->
  hd_error (match_format f r) = Some (vs, rest) ->
  hd_error (match_format (Dir dir_Y :: Lit "-" :: f) (pad4 y ++ "-" ++ r))
  = Some (y :: vs, rest).
Proof.
  intros Hy Hf. unfold pad4, dir_Y.
  cbn [match_format flat_map match_classes class_matches append].
  rewrite !is_digit_digit_char.
  cbn [match_format flat_map match_classes class_matches append].
  change (Ascii.eqb "-" "-") with true. cbv iota.
  rewrite (hd_error_map_app _ _ _ _ _ _ Hf). cbn [fst snd].
  do 2 f_equal. cbn [int_of_digits].
  rewrite !is_digit_digit_char, !code_digit_char. f_equal.
  Z.div_mod_to_equations. lia.
Qed.

Lemma small_cases (n : Z) (lo : Z) (len : nat) :
  lo <= n < lo + Z.of_nat len -> In n (map (fun k => lo + Z.of_nat k) (seq 0 len)).
Proof.
  intros H. apply in_map_iff. exists (Z.to_nat (n - lo)).
  split; [lia | apply in_seq; lia].
Qed.

(** Splits a goal about [n] in a small range into one goal per value. *)
Ltac each_value n lo len H :=
  let Hin := fresh "Hin" in
  pose proof (@small_cases n lo len H) as Hin;
  cbv [seq map Z.of_nat Pos.of_succ_nat Pos.succ Z.add Pos.add Pos.add_carry] in Hin;
  repeat (destruct Hin as [Hin|Hin]; [subst n|]); [..|destruct Hin].

(** The month directive on the two digits [%m] writes, a [-] following. *)
Lemma match_month m f r vs rest :
  1 <= m <= 12 ->
  hd_error (match_format f r) = Some (vs, rest) ->
  hd_error (match_format (Dir dir_m :: Lit "-" :: f) (pad2 m ++ "-" ++ r))
  = Some (m :: vs, rest).
Proof.
  intros Hm Hf.
  destruct (match_format f r) as [|[vs' rest'] l] eqn:E; [discriminate|].
  simpl in Hf. inversion Hf; subst.
  assert (Hm' : 1 <= m < 1 + Z.of_nat 12) by lia.
  each_value m 1 12%nat Hm'; vm_compute pad2; simpl; rewrite E; reflexivity.
Qed.

(** The day directive on the two digits [%d] writes. *)
Lemma match_day dd f r vs rest :
  1 <= dd <= 31 ->
  hd_error (match_format f r) = Some (vs, rest) ->
  hd_error (match_format (Dir dir_d :: f) (pad2 dd ++ r))
  = Some (dd :: vs, rest).
Proof.
  intros Hd Hf.
  destruct (match_format f r) as [|[vs' rest'] l] eqn:E; [discriminate|].
  simpl in Hf. inversion Hf; subst.
  assert (Hd' : 1 <= dd < 1 + Z.of_nat 31) by lia.
  each_value dd 1 31%nat Hd'; vm_compute pad2; simpl; rewrite E; reflexivity.
Qed.

(** The hour directive on the two digits [%H] writes, a [:] following. *)
Lemma match_hour H f r vs rest :
  0 <= H < 24 ->
  hd_error (match_format f r) = Some (vs, rest) ->
  hd_error (match_format (Dir dir_H :: Lit ":" :: f) (pad2 H ++ ":" ++ r))
  = Some (H :: vs, rest).
Proof.
  intros HH Hf.
  destruct (match_format f r) as [|[vs' rest'] l] eqn:E; [discriminate|].
  simpl in Hf. inversion Hf; subst.
  assert (HH' : 0 <= H < 0 + Z.of_nat 24) by lia.
  each_value H 0 24%nat HH'; vm_compute pad2; simpl; rewrite E; reflexivity.
Qed.

(** The minute directive on the two digits [%M] writes, at the end. *)
Lemma match_minute M :
  0 <= M < 60 ->
  hd_error (match_format [Dir dir_M] (pad2 M)) = Some ([M], "").
Proof.
  intros HM. assert (HM' : 0 <= M < 0 + Z.of_nat 60) by lia.
  each_value M 0 60%nat HM'; reflexivity.
Qed.

Lemma is_space_digit_char n : is_space (digit_char n) = false.
Proof.
  unfold is_space, in_range. rewrite !code_digit_char.
  assert (0 <= n mod 10 < 10) by (apply Z.mod_pos_bound; lia).
  repeat match goal with
         | |- context [?a <=? ?b] => destruct (Z.leb_spec a b); try lia
         | |- context [?a =? ?b] => destruct (Z.eqb_spec a b); try lia
         end; reflexivity.
Qed.

(** One blank between the date and a time that starts with a digit. *)
Lemma match_blank n s f :
  match_format (Spaces :: f) (String " " (String (digit_char n) s))
  = match_format f (String (digit_char n) s) ++ [].
Proof.
  cbn [match_format space_prefixes].
  change (is_space " ") with true. cbv iota.
  rewrite is_space_digit_char. reflexivity.
Qed.

Lemma append_assoc_string (a b c : string) :
  ((a ++ b) ++ c)%string = (a ++ (b ++ c))%string.
Proof. induction a as [|x a IH]; simpl; [reflexivity | now rewrite IH]. Qed.

Lemma pad2_head n : 0 <= n < 100 ->
  pad2 n = String (digit_char (n / 10)) (String (digit_char n) "").
Proof. intros H. unfold pad2. destruct (Z.ltb_spec n 100); [reflexivity | lia]. Qed.

Lemma days_in_month_le y m : days_in_month y m <= 31.
Proof.
  unfold days_in_month.
  destruct (m =? 2), (is_leap y),
    ((m =? 4) || (m =? 6) || (m =? 9) || (m =? 11)); lia.
Qed.

(** A valid date of a four-digit year reads back from [%Y-%m-%d]. *)
Lemma strptime_date_strftime d :
  valid_date d = true -> 1000 <= year d ->
  strptime_date (strftime_date d) = Some d.
Proof.
  intros Hv Hy. pose proof (valid_date_bounds d Hv) as (Hyr & Hm & Hd).
  pose proof (days_in_month_le (year d) (month d)).
  destruct d as [y m dd]. cbn [year month day] in *.
  unfold strptime_date, strptime_fields, strftime_date, fmt_date.
  cbn [year month day].
  assert (E : hd_error (match_format
                [Dir dir_Y; Lit "-"; Dir dir_m; Lit "-"; Dir dir_d]
                (pad4 y ++ "-" ++ pad2 m ++ "-" ++ pad2 dd))
              = Some ([y; m; dd], "")).
  { apply match_year; [lia|]. apply match_month; [lia|].
    replace (pad2 dd) with (pad2 dd ++ "")%string
      by (unfold pad2; destruct (dd <? 100); reflexivity).
    apply match_day; [lia | reflexivity]. }
  destruct (match_format _ _) as [|[vs rest] l]; [discriminate E|].
  simpl in E. inversion E; subst. now rewrite Hv.
Qed.

(** The same with a time [%H:%M] after one blank. *)
Lemma strptime_datetime_strftime d H M :
  valid_date d = true -> 1000 <= year d ->
  0 <= H < 24 -> 0 <= M < 60 ->
  strptime_datetime (strftime_date d ++ " " ++ (pad2 H ++ ":" ++ pad2 M))
  = Some (mk_datetime d H M).
Proof.
  intros Hv Hy HH HM. pose proof (valid_date_bounds d Hv) as (Hyr & Hm & Hd).
  pose proof (days_in_month_le (year d) (month d)).
  destruct d as [y m dd]. cbn [year month day] in *.
  unfold strptime_datetime, strptime_fields, strftime_date, fmt_datetime,
    fmt_date.
  cbn [year month day app].
  rewrite !append_assoc_string.
  assert (E : hd_error (match_format
                [Dir dir_Y; Lit "-"; Dir dir_m; Lit "-"; Dir dir_d; Spaces;
                 Dir dir_H; Lit ":"; Dir dir_M]
                (pad4 y ++ "-" ++ pad2 m ++ "-" ++ pad2 dd ++ " "
                   ++ pad2 H ++ ":" ++ pad2 M))
              = Some ([y; m; dd; H; M], "")).
  { apply match_year; [lia|]. apply match_month; [lia|].
    apply match_day; [lia|].
    pose proof (match_hour H [Dir dir_M] (pad2 M) [M] "" HH
                  (match_minute M HM)) as X.
    rewrite (pad2_head H) in * by lia. cbn [append] in *.
    rewrite (match_blank (H / 10)), app_nil_r. exact X. }
  destruct (match_format _ _) as [|[vs rest] l]; [discriminate E|].
  simpl in E. inversion E; subst. now rewrite Hv.
Qed.

(* ================================================================== *)
(** ** The calendar at process start *)

Lemma year_next_day d : year d <= year (next_day d).
Proof.
  unfold next_day.
  destruct (day d <? days_in_month (year d) (month d)); cbn [year]; [lia|].
  destruct (month d <? 12); cbn [year]; lia.
Qed.

Lemma year_add_days d i : year d <= year (add_days d i).
Proof.
  induction i as [|i IH]; cbn [add_days]; [lia|].
  pose proof (year_next_day (add_days d i)). lia.
Qed.

Lemma window_date_parses today i :
  valid_date today = true -> 1000 <= year today ->
  toordinal today + Z.of_nat i <= toordinal (Date 9999 12 31) ->
  strptime_date (strftime_date (add_days today i)) = Some (add_days today i).
Proof.
  intros Hv Hy Hmax.
  destruct (toordinal_add_days today i Hv Hmax) as [Hvi _].
  apply strptime_date_strftime; [exact Hvi|].
  pose proof (year_add_days today i). lia.
Qed.

(** Generation, then query.  When [today] is a valid date of a four-digit
    year with six days left before the end of year 9999, then whatever
    the calendar held, after generating the schedule the availability
    query on each of the seven dates today to today+6 answers with the
    thirteen grid slots, all available, and no slot booked. *)
Theorem generated_window_all_available (today : date) (JAM : schedule) (i : nat) :
  valid_date today = true -> 1000 <= year today ->
  toordinal today + 6 <= toordinal (Date 9999 12 31) ->
  (i < 7)%nat ->
  list_jam_spot_availabilities
    (strftime_date (add_days today i)) (generate_friends_schedule today JAM)
  = schedule_response (strftime_date (add_days today i))
      possible_times PyDict.empty.
Proof.
  intros Hv Hy Hmax Hi. unfold list_jam_spot_availabilities.
  rewrite window_date_parses by (try assumption; lia).
  unfold generate_friends_schedule.
  rewrite generate_loop_window by (apply in_seq; lia).
  reflexivity.
Qed.

Lemma generated_window_all_available_witness :
  list_jam_spot_availabilities "2024-08-03"
    (generate_friends_schedule august_1 bob_calendar)
  = schedule_response "2024-08-03" possible_times PyDict.empty.
Proof.
  apply (generated_window_all_available august_1 bob_calendar 2);
    [reflexivity | vm_compute; discriminate | vm_compute; discriminate | lia].
Defined.

Lemma generate_loop_new_keys today range (JAM : schedule) :
  NoDup (PyDict.keys JAM
           ++ map (fun i => strftime_date (add_days today i)) range) ->
  PyDict.keys (generate_loop today range JAM)
  = PyDict.keys JAM ++ map (fun i => strftime_date (add_days today i)) range.
Proof.
  revert JAM. induction range as [|i range IH]; intros JAM Hnd; simpl.
  - now rewrite app_nil_r.
  - simpl in Hnd. rewrite IH.
    + rewrite keys_set_absent.
      * now rewrite <- app_assoc.
      * apply NoDup_remove_2 in Hnd. intros Hin. apply Hnd.
        apply in_or_app. now left.
    + rewrite keys_set_absent.
      * rewrite <- app_assoc. exact Hnd.
      * apply NoDup_remove_2 in Hnd. intros Hin. apply Hnd.
        apply in_or_app. now left.
Qed.

Lemma window_NoDup today :
  valid_date today = true -> 1000 <= year today ->
  toordinal today + 6 <= toordinal (Date 9999 12 31) ->
  NoDup (window today).
Proof.
  intros Hv Hy Hmax. unfold window.
  apply Finite.Injective_map_NoDup_in; [|apply seq_NoDup].
  intros i j Hi Hj Heq. apply in_seq in Hi, Hj.
  assert (Hpi := window_date_parses today i Hv Hy ltac:(lia)).
  assert (Hpj := window_date_parses today j Hv Hy ltac:(lia)).
  rewrite Heq, Hpj in Hpi. inversion Hpi as [Hd].
  destruct (toordinal_add_days today i Hv ltac:(lia)) as [_ Hoi].
  destruct (toordinal_add_days today j Hv ltac:(lia)) as [_ Hoj].
  rewrite <- Hd in Hoi. lia.
Qed.

(** The calendar at process start.  Generating on the empty calendar,
    [today] a valid date of a four-digit year with six days left before
    the end of year 9999, leaves exactly seven dates, pairwise distinct
    and in chronological order: the dates [today + i] for [i] from 0 to 6,
    whose ordinals are consecutive. *)
Theorem generated_calendar_dates (today : date) :
  valid_date today = true -> 1000 <= year today ->
  toordinal today + 6 <= toordinal (Date 9999 12 31) ->
  PyDict.keys (generate_friends_schedule today PyDict.empty) = window today /\
  List.length (window today) = 7%nat /\
  NoDup (window today) /\
  (forall i, (i < 7)%nat ->
     nth_error (window today) i = Some (strftime_date (add_days today i)) /\
     valid_date (add_days today i) = true /\
     toordinal (add_days today i) = toordinal today + Z.of_nat i).
Proof.
  intros Hv Hy Hmax.
  assert (Hnd := window_NoDup today Hv Hy Hmax).
  split; [|split; [|split]].
  - unfold generate_friends_schedule.
    rewrite generate_loop_new_keys; [reflexivity | exact Hnd].
  - reflexivity.
  - exact Hnd.
  - intros i Hi. split.
    + unfold window.
      rewrite nth_error_map, nth_error_seq.
      destruct (Nat.ltb_spec i 7); [reflexivity | lia].
    + apply toordinal_add_days; [exact Hv | lia].
Qed.

Lemma generated_calendar_dates_witness :
  PyDict.keys (generate_friends_schedule (Date 2024 2 26) PyDict.empty)
  = ["2024-02-26"; "2024-02-27"; "2024-02-28"; "2024-02-29"; "2024-03-01";
     "2024-03-02"; "2024-03-03"].
Proof.
  apply (generated_calendar_dates (Date 2024 2 26));
    [reflexivity | vm_compute; discriminate | vm_compute; discriminate].
Defined.

(* ================================================================== *)
(** ** Booking: what a booking changes, and what it never does *)

(** A booking that reports an error leaves the calendar as it was. *)
Lemma book_error_unchanged date start_time end_time name (JAM : schedule) :
  PyDict.get "status"
    (fst (book_jam_session date start_time end_time name JAM))
  = Some (VStr "error") ->
  snd (book_jam_session date start_time end_time name JAM) = JAM.
Proof.
  destruct (book_cases date start_time end_time name JAM)
    as [H|(s & e & daily & _ & _ & _ & _ & _ & _ & ->)]; [now intros _|].
  simpl. discriminate.
Qed.

(** A booking that reports success passed every check. *)
Lemma book_success_inv date start_time end_time name (JAM : schedule) :
  PyDict.get "status"
    (fst (book_jam_session date start_time end_time name JAM))
  = Some (VStr "success") ->
  exists start_dt end_dt daily,
    strptime_datetime (date ++ " " ++ start_time) = Some start_dt /\
    strptime_datetime (date ++ " " ++ end_time) = Some end_dt /\
    start_dt < end_dt /\
    PyDict.get date JAM = Some daily /\
    name <> "" /\
    (forall slot, In slot (required_slots start_dt end_dt) -> free slot daily) /\
    book_jam_session date start_time end_time name JAM
    = (Booked name start_time end_time date,
       PyDict.set date (set_all (required_slots start_dt end_dt) name daily)
                  JAM).
Proof.
  intros Hok. unfold book_jam_session in Hok |- *.
  destruct (strptime_datetime (date ++ " " ++ start_time)) as [s|];
    [|discriminate Hok].
  destruct (strptime_datetime (date ++ " " ++ end_time)) as [e|];
    [|discriminate Hok].
  destruct (Z.leb_spec e s); [discriminate Hok|].
  unfold PyDict.mem, PyDict.get_default in *.
  destruct (PyDict.get date JAM) as [daily|] eqn:Hget; [|discriminate Hok].
  simpl in Hok |- *.
  destruct (String.eqb_spec name "") as [|Hname]; [discriminate Hok|].
  destruct (first_conflict (required_slots s e) daily) eqn:Hscan;
    [discriminate Hok|].
  exists s, e, daily. rewrite first_conflict_None in Hscan.
  rewrite (commit_set_all date _ name JAM Hget).
  repeat split; auto.
Qed.

(** The frame of a booking, for every input and every calendar.  A
    booking adds no date and no slot key, touches no date other than its
    own, leaves every slot of its date either as it was or, if the slot
    was free, holding the reservation name, and when it reports an error
    it leaves the whole calendar exactly as it was. *)
Theorem book_frame (date start_time end_time name : string) (JAM : schedule) :
  let result := book_jam_session date start_time end_time name JAM in
  PyDict.keys (snd result) = PyDict.keys JAM /\
  (forall other, other <> date ->
     PyDict.get other (snd result) = PyDict.get other JAM) /\
  (forall daily, PyDict.get date JAM = Some daily ->
     exists daily',
       PyDict.get date (snd result) = Some daily' /\
       PyDict.keys daily' = PyDict.keys daily /\
       forall slot,
         PyDict.get slot daily' = PyDict.get slot daily \/
         (PyDict.get slot daily = Some "unknown" /\
          PyDict.get slot daily' = Some name)) /\
  (PyDict.get "status" (fst result) = Some (VStr "error") ->
   snd result = JAM).
Proof.
  cbv zeta. split; [|split; [|split]].
  - destruct (book_cases date start_time end_time name JAM)
      as [->|(s & e & daily & _ & _ & _ & Hget & _ & _ & ->)];
      [reflexivity|].
    simpl. apply keys_set_present. exact (get_Some_keys date JAM Hget).
  - intros other Hne.
    destruct (book_cases date start_time end_time name JAM)
      as [->|(s & e & daily & _ & _ & _ & _ & _ & _ & ->)]; [reflexivity|].
    simpl. now apply get_set_other.
  - intros daily Hget.
    destruct (book_cases date start_time end_time name JAM)
      as [->|(s & e & daily0 & _ & _ & _ & Hget0 & _ & Hfree & ->)].
    + exists daily. split; [exact Hget|]. split; [reflexivity|]. now left.
    + rewrite Hget in Hget0. inversion Hget0; subst daily0. simpl.
      exists (set_all (required_slots s e) name daily).
      split; [apply get_set_same|]. split.
      * apply keys_set_all. intros slot Hin.
        exact (get_Some_keys slot daily (Hfree slot Hin)).
      * intros slot. rewrite get_set_all.
        destruct (in_dec string_dec slot (required_slots s e)) as [Hin|];
          [right | now left].
        split; [exact (Hfree slot Hin) | reflexivity].
  - apply book_error_unchanged.
Qed.

(** No booking succeeds over a booked slot.  After a successful booking
    under a name other than the free sentinel, any later request on the
    same date, under any non-empty name (the same one included), whose
    required slots include one the first booking took, is refused with
    the [SlotConflict] error for a required slot that is not free, and
    leaves the calendar as the first booking left it; the hourly
    expansion of either request staying within the range of [datetime],
    as it does for every date before 9999-12-31. *)
Theorem rebooking_refused
        (date start1 end1 name1 start2 end2 name2 : string) (JAM : schedule)
        (s1 e1 s2 e2 : datetime) (slot : string) :
  strptime_datetime (date ++ " " ++ start1) = Some s1 ->
  strptime_datetime (date ++ " " ++ end1) = Some e1 ->
  strptime_datetime (date ++ " " ++ start2) = Some s2 ->
  strptime_datetime (date ++ " " ++ end2) = Some e2 ->
  s2 < e2 ->
  expansion_in_range s1 e1 -> expansion_in_range s2 e2 ->
  name1 <> "unknown" -> name2 <> "" ->
  PyDict.get "status" (fst (book_jam_session date start1 end1 name1 JAM))
  = Some (VStr "success") ->
  In slot (required_slots s1 e1) -> In slot (required_slots s2 e2) ->
  let JAM1 := snd (book_jam_session date start1 end1 name1 JAM) in
  exists first daily1,
    PyDict.get date JAM1 = Some daily1 /\
    In first (required_slots s2 e2) /\
    ~ free first daily1 /\
    PyDict.get slot daily1 = Some name1 /\
    book_jam_session date start2 end2 name2 JAM1
    = (SlotConflict first date (PyDict.get first daily1), JAM1).
Proof.
  intros Hs1 He1 Hs2 He2 Hlt2 _ _ Hn1 Hn2 Hok Hin1 Hin2.
  destruct (book_success_inv _ _ _ _ _ Hok)
    as (s & e & daily & Hs & He & _ & Hget & _ & _ & Hbook).
  rewrite Hs1 in Hs. rewrite He1 in He. inversion Hs; inversion He; subst s e.
  cbv zeta. rewrite Hbook. cbn [snd].
  set (daily1 := set_all (required_slots s1 e1) name1 daily).
  assert (Hget1 : PyDict.get date (PyDict.set date daily1 JAM) = Some daily1)
    by apply get_set_same.
  assert (Hslot : PyDict.get slot daily1 = Some name1).
  { unfold daily1. rewrite get_set_all.
    destruct (in_dec string_dec slot (required_slots s1 e1));
      [reflexivity | contradiction]. }
  rewrite (book_checked date start2 end2 _ Hs2 He2 Hlt2 Hget1 Hn2).
  destruct (first_conflict (required_slots s2 e2) daily1) as [first|] eqn:Hscan.
  - destruct (first_conflict_Some _ _ Hscan)
      as (pre & post & Hreq & _ & Hbusy).
    exists first, daily1. repeat split; auto.
    rewrite Hreq. apply in_or_app. right. now left.
  - exfalso. rewrite first_conflict_None in Hscan.
    specialize (Hscan slot Hin2). unfold free in Hscan.
    rewrite Hslot in Hscan. inversion Hscan. contradiction.
Qed.

(** Bob books 10:00 to 12:00; then Bob himself asking again for 11:00 to
    12:00 is refused. *)
Lemma rebooking_refused_witness :
  exists first daily1,
    PyDict.get "2024-08-01" bob_calendar = Some daily1 /\
    In first (required_slots 1064303220 1064303280) /\
    ~ free first daily1 /\
    PyDict.get "11:00" daily1 = Some "Bob" /\
    book_jam_session "2024-08-01" "11:00" "12:00" "Bob" bob_calendar
    = (SlotConflict first "2024-08-01" (PyDict.get first daily1),
       bob_calendar).
Proof.
  apply (rebooking_refused
           "2024-08-01" "10:00" "12:00" "Bob" "11:00" "12:00" "Bob"
           opening_calendar 1064303160 1064303280 1064303220 1064303280
           "11:00");
    try reflexivity; try discriminate;
    try (vm_compute; discriminate); vm_compute; tauto.
Defined.

Lemma booked_of_get (daily : PyDict.dict string) slot :
  NoDup (PyDict.keys daily) ->
  PyDict.get slot (booked_of daily)
  = match PyDict.get slot daily with
    | Some party => if is_unknown party then None else Some party
    | None => None
    end.
Proof.
  intros Hnd.
  destruct (PyDict.get slot (booked_of daily)) as [p|] eqn:Hb.
  - apply (booked_of_spec daily slot p Hnd) in Hb. destruct Hb as [-> Hp].
    unfold is_unknown. now destruct (String.eqb_spec p "unknown").
  - destruct (PyDict.get slot daily) as [p|] eqn:Hd; [|reflexivity].
    unfold is_unknown. destruct (String.eqb_spec p "unknown"); [reflexivity|].
    assert (Hs : PyDict.get slot (booked_of daily) = Some p)
      by (apply (booked_of_spec daily slot p Hnd); auto).
    congruence.
Qed.

(** Booking, then query.  On a calendar on the grid, after a successful
    booking under a name other than the free sentinel, the availability
    query on that date lists as available exactly the slots that were
    available before and that the booking did not take, maps every slot
    the booking took to the reservation name, and maps every other slot
    as it did before. *)
Theorem availability_after_booking
        (parsed : date) (date start_time end_time name : string)
        (JAM : schedule) (start_dt end_dt : datetime)
        (daily : PyDict.dict string) :
  calendar_ok JAM ->
  strptime_date date = Some parsed ->
  strptime_datetime (date ++ " " ++ start_time) = Some start_dt ->
  strptime_datetime (date ++ " " ++ end_time) = Some end_dt ->
  PyDict.get date JAM = Some daily ->
  name <> "unknown" ->
  PyDict.get "status"
    (fst (book_jam_session date start_time end_time name JAM))
  = Some (VStr "success") ->
  let JAM1 := snd (book_jam_session date start_time end_time name JAM) in
  exists daily1,
    list_jam_spot_availabilities date JAM1
    = schedule_response date (available_of daily1) (booked_of daily1) /\
    (forall slot,
        In slot (available_of daily1) <->
        In slot (available_of daily) /\
        ~ In slot (required_slots start_dt end_dt)) /\
    (forall slot,
        In slot (required_slots start_dt end_dt) ->
        PyDict.get slot (booked_of daily1) = Some name) /\
    (forall slot,
        ~ In slot (required_slots start_dt end_dt) ->
        PyDict.get slot (booked_of daily1) = PyDict.get slot (booked_of daily)).
Proof.
  intros Hok Hd Hs He Hget Hname Hsucc.
  destruct (book_success_inv _ _ _ _ _ Hsucc)
    as (s & e & daily0 & Hs' & He' & _ & Hget' & _ & Hfree & Hbook).
  rewrite Hs in Hs'. rewrite He in He'. rewrite Hget in Hget'.
  inversion Hs'; inversion He'; inversion Hget'; subst s e daily0.
  cbv zeta. rewrite Hbook. cbn [snd].
  set (required := required_slots start_dt end_dt) in *.
  set (daily1 := set_all required name daily).
  assert (Hkeys : PyDict.keys daily = possible_times)
    by exact (calendar_ok_get date Hok Hget).
  assert (Hkeys1 : PyDict.keys daily1 = possible_times).
  { unfold daily1. rewrite keys_set_all; [exact Hkeys|].
    intros slot Hin. exact (get_Some_keys slot daily (Hfree slot Hin)). }
  assert (Hnd : NoDup (PyDict.keys daily))
    by (rewrite Hkeys; exact NoDup_possible_times).
  assert (Hnd1 : NoDup (PyDict.keys daily1))
    by (rewrite Hkeys1; exact NoDup_possible_times).
  assert (Hget1 : forall slot,
             PyDict.get slot daily1
             = if in_dec string_dec slot required then Some name
               else PyDict.get slot daily)
    by (intros slot; apply get_set_all).
  exists daily1. split; [|split; [|split]].
  - unfold list_jam_spot_availabilities. rewrite Hd, get_set_same.
    destruct daily1; [discriminate Hkeys1 | reflexivity].
  - intros slot.
    rewrite (available_of_spec daily1 slot Hnd1),
            (available_of_spec daily slot Hnd).
    unfold free. rewrite Hget1.
    destruct (in_dec string_dec slot required) as [Hin|Hnin].
    + split; [|tauto]. intros H. inversion H. congruence.
    + tauto.
  - intros slot Hin. rewrite (booked_of_get daily1 slot Hnd1), Hget1.
    destruct (in_dec string_dec slot required); [|contradiction].
    unfold is_unknown. now destruct (String.eqb_spec name "unknown").
  - intros slot Hnin.
    rewrite (booked_of_get daily1 slot Hnd1), (booked_of_get daily slot Hnd),
            Hget1.
    now destruct (in_dec string_dec slot required).
Qed.

(** Scenario 3 of the specification, from the booking of scenario 1. *)
Lemma availability_after_booking_witness :
  exists daily1,
    list_jam_spot_availabilities "2024-08-01" bob_calendar
    = schedule_response "2024-08-01" (available_of daily1) (booked_of daily1) /\
    (forall slot,
        In slot (available_of daily1) <->
        In slot (available_of fresh_day) /\
        ~ In slot (required_slots 1064303160 1064303280)) /\
    (forall slot,
        In slot (required_slots 1064303160 1064303280) ->
        PyDict.get slot (booked_of daily1) = Some "Bob") /\
    (forall slot,
        ~ In slot (required_slots 1064303160 1064303280) ->
        PyDict.get slot (booked_of daily1)
        = PyDict.get slot (booked_of fresh_day)).
Proof.
  apply (availability_after_booking
           august_1 "2024-08-01" "10:00" "12:00" "Bob" opening_calendar
           1064303160 1064303280 fresh_day);
    try reflexivity; try discriminate.
  exact (reachable_ok (reach_step (Generate august_1) reach_empty)).
Defined.

(* ================================================================== *)
(** ** Booking: the opening hours *)

Lemma dt_hour_bounds t : 0 <= dt_hour t < 24.
Proof.
  unfold dt_hour. split.
  - apply Z.div_pos; [apply Z.mod_pos_bound|]; lia.
  - apply Z.div_lt_upper_bound; [|apply Z.mod_pos_bound]; lia.
Qed.

(** The instants whose slot key is a key of the grid. *)
Lemma grid_key_time t :
  In (strftime_HM t) possible_times ->
  dt_minute t = 0 /\ 8 <= dt_hour t <= 20.
Proof.
  intros Hin.
  assert (Hm : dt_minute t = 0).
  { destruct (Z.eq_dec (dt_minute t) 0) as [|Hne]; [assumption|].
    exfalso. exact (strftime_HM_off_grid t Hne Hin). }
  split; [exact Hm|].
  unfold strftime_HM in Hin. rewrite Hm in Hin.
  pose proof (dt_hour_bounds t) as Hh.
  assert (Hh' : 0 <= dt_hour t < 0 + Z.of_nat 24) by lia.
  remember (dt_hour t) as h eqn:E. clear E.
  each_value h 0 24%nat Hh'; try lia; exfalso; vm_compute in Hin;
    repeat (destruct Hin as [Hin|Hin]; [discriminate Hin|]); exact Hin.
Qed.

(** Opening hours.  On a calendar on the grid a booking succeeds only
    when it starts on the hour, not before 08:00 and not after 20:00, and
    ends at 21:00 of the day it starts at the latest; it then takes
    between one and thirteen slots. *)
Theorem booking_within_opening_hours
        (date start_time end_time name : string) (JAM : schedule)
        (start_dt end_dt : datetime) :
  calendar_ok JAM ->
  strptime_datetime (date ++ " " ++ start_time) = Some start_dt ->
  strptime_datetime (date ++ " " ++ end_time) = Some end_dt ->
  PyDict.get "status"
    (fst (book_jam_session date start_time end_time name JAM))
  = Some (VStr "success") ->
  dt_minute start_dt = 0 /\
  8 <= dt_hour start_dt <= 20 /\
  start_dt < end_dt <= start_dt + 60 * (21 - dt_hour start_dt) /\
  (1 <= rounds start_dt end_dt <= 13)%nat /\
  List.length (required_slots start_dt end_dt) = rounds start_dt end_dt.
Proof.
  intros Hok Hs He Hsucc.
  destruct (book_success_inv _ _ _ _ _ Hsucc)
    as (s & e & daily & Hs' & He' & Hlt & Hget & _ & Hfree & _).
  rewrite Hs in Hs'. rewrite He in He'. inversion Hs'; inversion He'; subst s e.
  assert (Hgrid : forall k, 0 <= k -> start_dt + 60 * k < end_dt ->
                            In (strftime_HM (start_dt + 60 * k)) possible_times).
  { intros k Hk Hin. rewrite <- (calendar_ok_get date Hok Hget).
    apply (get_Some_keys _ daily (v := "unknown")), Hfree, In_required_slots.
    eauto. }
  destruct (grid_key_time start_dt) as [Hm Hh].
  { specialize (Hgrid 0 ltac:(lia)). rewrite Z.mul_0_r, Z.add_0_r in Hgrid.
    apply Hgrid. lia. }
  assert (Hend : end_dt <= start_dt + 60 * (21 - dt_hour start_dt)).
  { destruct (Z_le_gt_dec end_dt (start_dt + 60 * (21 - dt_hour start_dt)))
      as [|Hgt]; [assumption|].
    exfalso.
    destruct (grid_key_time (start_dt + 60 * (21 - dt_hour start_dt)))
      as [_ Hh21]; [apply Hgrid; lia|].
    unfold dt_hour, dt_minute in *. Z.div_mod_to_equations. lia. }
  split; [exact Hm|]. split; [exact Hh|]. split; [lia|]. split.
  - rewrite (rounds_step Hlt). split; [lia|].
    unfold rounds.
    assert ((end_dt - (start_dt + 60) + 59) / 60 < 13); [|lia].
    apply Z.div_lt_upper_bound; lia.
  - rewrite required_slots_spec. now rewrite length_map, length_seq.
Qed.

Lemma booking_within_opening_hours_witness :
  dt_minute 1064303160 = 0 /\
  8 <= dt_hour 1064303160 <= 20 /\
  1064303160 < 1064303280 <= 1064303160 + 60 * (21 - dt_hour 1064303160) /\
  (1 <= rounds 1064303160%Z 1064303280%Z <= 13)%nat /\
  List.length (required_slots 1064303160 1064303280)
  = rounds 1064303160 1064303280.
Proof.
  apply (booking_within_opening_hours
           "2024-08-01" "10:00" "12:00" "Bob" opening_calendar
           1064303160 1064303280);
    try reflexivity.
  exact (reachable_ok (reach_step (Generate august_1) reach_empty)).
Defined.

(* ================================================================== *)
(** ** Booking a generated day, from the strings to the slots *)

Lemma pad2_inj a b :
  0 <= a < 100 -> 0 <= b < 100 -> pad2 a = pad2 b -> a = b.
Proof.
  intros Ha Hb. rewrite (pad2_head a Ha), (pad2_head b Hb).
  intros H. inversion H as [[H1 H2]].
  apply (f_equal code) in H1, H2. rewrite !code_digit_char in H1, H2.
  Z.div_mod_to_equations. lia.
Qed.

Lemma hour_key_inj a b :
  0 <= a < 100 -> 0 <= b < 100 ->
  (pad2 a ++ ":00")%string = (pad2 b ++ ":00")%string -> a = b.
Proof.
  intros Ha Hb. rewrite (pad2_head a Ha), (pad2_head b Hb).
  cbn [append]. intros H. inversion H as [[H1 H2]].
  apply (f_equal code) in H1, H2. rewrite !code_digit_char in H1, H2.
  Z.div_mod_to_equations. lia.
Qed.

Lemma strftime_HM_hour d h k :
  0 <= h -> 0 <= k -> h + k < 24 ->
  strftime_HM (mk_datetime d h 0 + 60 * k) = (pad2 (h + k) ++ ":00")%string.
Proof.
  intros Hh Hk Hlt. unfold strftime_HM, mk_datetime, dt_hour, dt_minute.
  replace ((toordinal d * 1440 + h * 60 + 0 + 60 * k) mod 60) with 0
    by (Z.div_mod_to_equations; lia).
  replace ((toordinal d * 1440 + h * 60 + 0 + 60 * k) mod 1440 / 60)
    with (h + k) by (Z.div_mod_to_equations; lia).
  reflexivity.
Qed.

Lemma grid_hour_key h :
  8 <= h <= 20 -> In (pad2 h ++ ":00")%string possible_times.
Proof.
  intros Hh. assert (Hh' : 8 <= h < 8 + Z.of_nat 13) by lia.
  each_value h 8 13%nat Hh'; vm_compute; tauto.
Qed.

(** From the strings to the slots.  After generating on a valid [today]
    (four-digit year, six days left before the end of year 9999), a
    booking on the date [today + i], [i] below 7, from [h1:00] to [h2:00]
    with 8 <= h1 < h2 <= 21, under a non-empty name, succeeds, and the day
    then maps the grid slot of each hour from h1 to h2 - 1 to the name
    and every other grid slot to "unknown". *)
Theorem book_generated_day
        (today : date) (JAM : schedule) (i : nat) (h1 h2 : Z) (name : string) :
  valid_date today = true -> 1000 <= year today ->
  toordinal today + 6 <= toordinal (Date 9999 12 31) ->
  (i < 7)%nat ->
  8 <= h1 -> h1 < h2 -> h2 <= 21 ->
  name <> "" ->
  let day_str := strftime_date (add_days today i) in
  let start_time := (pad2 h1 ++ ":00")%string in
  let end_time := (pad2 h2 ++ ":00")%string in
  exists JAM' daily',
    book_jam_session day_str start_time end_time name
      (generate_friends_schedule today JAM)
    = (Booked name start_time end_time day_str, JAM') /\
    PyDict.get day_str JAM' = Some daily' /\
    forall h, 8 <= h <= 20 ->
      PyDict.get (pad2 h ++ ":00")%string daily'
      = Some (if (h1 <=? h) && (h <? h2) then name else "unknown").
Proof.
  intros Hv Hy Hmax Hi Hh1 Hlt Hh2 Hname. cbv zeta.
  set (d := add_days today i).
  set (cal := generate_friends_schedule today JAM).
  destruct (toordinal_add_days today i Hv ltac:(lia)) as [Hvd _]. fold d in Hvd.
  assert (Hyd : 1000 <= year d)
    by (pose proof (year_add_days today i); unfold d; lia).
  assert (Hs : strptime_datetime (strftime_date d ++ " " ++ pad2 h1 ++ ":00")
               = Some (mk_datetime d h1 0))
    by (apply (strptime_datetime_strftime d h1 0 Hvd Hyd); lia).
  assert (He : strptime_datetime (strftime_date d ++ " " ++ pad2 h2 ++ ":00")
               = Some (mk_datetime d h2 0))
    by (apply (strptime_datetime_strftime d h2 0 Hvd Hyd); lia).
  assert (Hget : PyDict.get (strftime_date d) cal = Some fresh_day).
  { unfold cal, generate_friends_schedule, d.
    apply generate_loop_window, in_seq. lia. }
  assert (Hord : mk_datetime d h1 0 < mk_datetime d h2 0)
    by (unfold mk_datetime; lia).
  assert (Hreq : forall slot,
             In slot (required_slots (mk_datetime d h1 0) (mk_datetime d h2 0))
             <-> exists h, h1 <= h < h2 /\ slot = (pad2 h ++ ":00")%string).
  { intros slot. rewrite In_required_slots. split.
    - intros (k & Hk & Hin & ->). exists (h1 + k).
      assert (h1 + k < h2) by (unfold mk_datetime in Hin; lia).
      split; [lia|]. apply strftime_HM_hour; lia.
    - intros (h & Hh & ->). exists (h - h1).
      split; [lia|]. split; [unfold mk_datetime; lia|].
      rewrite strftime_HM_hour by lia. f_equal. f_equal. lia. }
  assert (Hfree : forall slot,
             In slot (required_slots (mk_datetime d h1 0) (mk_datetime d h2 0))
             -> free slot fresh_day).
  { intros slot Hin. apply Hreq in Hin. destruct Hin as (h & Hh & ->).
    apply fresh_day_free, grid_hour_key. lia. }
  exists (PyDict.set (strftime_date d)
            (set_all (required_slots (mk_datetime d h1 0) (mk_datetime d h2 0))
                     name fresh_day) cal),
         (set_all (required_slots (mk_datetime d h1 0) (mk_datetime d h2 0))
                  name fresh_day).
  split; [|split].
  - rewrite (book_checked (strftime_date d) _ _ cal Hs He Hord Hget Hname).
    apply first_conflict_None in Hfree. now rewrite Hfree.
  - apply get_set_same.
  - intros h Hh. rewrite get_set_all.
    destruct (in_dec string_dec _ _) as [Hin|Hnin].
    + apply Hreq in Hin. destruct Hin as (h' & Hh' & Heq).
      apply hour_key_inj in Heq; [|lia|lia]. subst h'.
      destruct (Z.leb_spec h1 h); [|lia]. destruct (Z.ltb_spec h h2); [|lia].
      reflexivity.
    + rewrite fresh_day_free by (apply grid_hour_key; lia).
      destruct (Z.leb_spec h1 h); [|reflexivity].
      destruct (Z.ltb_spec h h2); [|reflexivity].
      exfalso. apply Hnin, Hreq. exists h. split; [lia | reflexivity].
Qed.

Lemma book_generated_day_witness :
  exists JAM' daily',
    book_jam_session "2024-08-03" "18:00" "21:00" "Cartola"
      (generate_friends_schedule august_1 bob_calendar)
    = (Booked "Cartola" "18:00" "21:00" "2024-08-03", JAM') /\
    PyDict.get "2024-08-03" JAM' = Some daily' /\
    forall h, 8 <= h <= 20 ->
      PyDict.get (pad2 h ++ ":00")%string daily'
      = Some (if (18 <=? h) && (h <? 21) then "Cartola" else "unknown").
Proof.
  apply (book_generated_day august_1 bob_calendar 2 18 21 "Cartola");
    try reflexivity; try discriminate; try lia; vm_compute; discriminate.
Defined.

(* ================================================================== *)
(** ** The friend directory: the two dictionaries stay in step *)

Lemma keys_set_same_keys (A B : Type) (d1 : PyDict.dict A) (d2 : PyDict.dict B)
      k (v1 : A) (v2 : B) :
  PyDict.keys d1 = PyDict.keys d2 ->
  PyDict.keys (PyDict.set k v1 d1) = PyDict.keys (PyDict.set k v2 d2).
Proof.
  intros Hk. destruct (in_dec string_dec k (PyDict.keys d1)) as [Hin|Hnin].
  - rewrite !keys_set_present; [exact Hk | now rewrite <- Hk | exact Hin].
  - rewrite !keys_set_absent; [now rewrite Hk | now rewrite <- Hk | exact Hnin].
Qed.

Lemma register_keeps_directory_ok get_agent_card address w w' :
  Host._register_remote_agent get_agent_card address w = inr w' ->
  directory_ok (Host.self w) -> directory_ok (Host.self w').
Proof.
  unfold Host._register_remote_agent.
  destruct (get_agent_card address) as [[error|error|error]|card];
    intros H; inversion H; subst; clear H; cbn [Host.self]; try tauto.
  intros [Hkeys Hget]. split; cbn [Host.remote_agent_connections Host.cards].
  - now apply keys_set_same_keys.
  - intros n connection.
    destruct (string_dec n (Host.name card)) as [->|Hne].
    + rewrite !get_set_same. intros E. inversion E; subst. now split.
    + rewrite !get_set_other by assumption. apply Hget.
Qed.

Lemma register_each_keeps_directory_ok get_agent_card addresses w w' :
  Host.register_each get_agent_card addresses w = inr w' ->
  directory_ok (Host.self w) -> directory_ok (Host.self w').
Proof.
  revert w. induction addresses as [|a addresses IH]; intros w Hrun Hok;
    simpl in Hrun.
  - now inversion Hrun; subst.
  - destruct (Host._register_remote_agent get_agent_card a w) as [e|w1] eqn:Hs;
      [discriminate|].
    exact (IH w1 Hrun (register_keeps_directory_ok _ _ _ _ Hs Hok)).
Qed.

Lemma build_self get_agent_card addresses w w' :
  Host._async_init_components get_agent_card addresses w = inr w' ->
  exists w1,
    Host.register_each get_agent_card addresses w = inr w1 /\
    Host.remote_agent_connections (Host.self w')
    = Host.remote_agent_connections (Host.self w1) /\
    Host.cards (Host.self w') = Host.cards (Host.self w1).
Proof.
  unfold Host._async_init_components.
  destruct (Host.register_each get_agent_card addresses w) as [e|w1];
    [discriminate|].
  intros H; inversion H; subst. exists w1. auto.
Qed.

Lemma build_keeps_directory_ok get_agent_card addresses w w' :
  directory_ok (Host.self w) ->
  Host._async_init_components get_agent_card addresses w = inr w' ->
  directory_ok (Host.self w').
Proof.
  intros Hok Hrun.
  destruct (build_self _ _ _ _ Hrun) as (w1 & Hreg & Hc & Hk).
  assert (Hok1 := register_each_keeps_directory_ok _ _ _ _ Hreg Hok).
  unfold directory_ok in *. now rewrite Hc, Hk.
Qed.


Lemma directory_ok_init : directory_ok Host.init.
Proof. split; [reflexivity | discriminate]. Qed.


(* ================================================================== *)
(** ** The friend directory: two friends under one name *)

Lemma register_each_app get_agent_card l1 l2 w w' :
  Host.register_each get_agent_card (l1 ++ l2) w = inr w' ->
  exists w1,
    Host.register_each get_agent_card l1 w = inr w1 /\
    Host.register_each get_agent_card l2 w1 = inr w'.
Proof.
  revert w. induction l1 as [|a l1 IH]; intros w Hrun; simpl in *.
  - eauto.
  - destruct (Host._register_remote_agent get_agent_card a w) as [e|w0];
      [discriminate|].
    exact (IH w0 Hrun).
Qed.

Lemma register_each_other_names get_agent_card addresses w w' n :
  Host.register_each get_agent_card addresses w = inr w' ->
  (forall b c, In b addresses -> get_agent_card b = inr c ->
               Host.name c <> n) ->
  PyDict.get n (Host.remote_agent_connections (Host.self w'))
  = PyDict.get n (Host.remote_agent_connections (Host.self w)) /\
  PyDict.get n (Host.cards (Host.self w'))
  = PyDict.get n (Host.cards (Host.self w)).
Proof.
  revert w. induction addresses as [|a addresses IH]; intros w Hrun Hno;
    simpl in Hrun.
  - inversion Hrun; subst. now split.
  - destruct (Host._register_remote_agent get_agent_card a w) as [e|w1] eqn:Hs;
      [discriminate|].
    destruct (IH w1 Hrun) as [-> ->].
    { intros b c Hb. apply Hno. now right. }
    unfold Host._register_remote_agent in Hs.
    destruct (get_agent_card a) as [[error|error|error]|card] eqn:Hf;
      inversion Hs; subst; cbn; try (now split).
    assert (Hne : Host.name card <> n) by (apply (Hno a); [now left | exact Hf]).
    rewrite !get_set_other by congruence. now split.
Qed.

(** Two friends under one name.  The directory is keyed by the name the
    card announces, so of the addresses that answer with a given name the
    last one in the list is the one the instance keeps: after the build,
    the connection under that name goes to that address, and the card
    under that name is the card fetched there. *)
Theorem last_answer_under_a_name_wins
        (get_agent_card : string -> Host.exception + Host.AgentCard)
        (before : list string) (address : string) (after : list string)
        (card : Host.AgentCard) (w w' : Host.world) :
  Host._async_init_components get_agent_card
    (before ++ address :: after) w = inr w' ->
  get_agent_card address = inr card ->
  (forall b c, In b after -> get_agent_card b = inr c ->
               Host.name c <> Host.name card) ->
  PyDict.get (Host.name card) (Host.remote_agent_connections (Host.self w'))
  = Some {| Host.agent_card := card; Host.agent_url := address |} /\
  PyDict.get (Host.name card) (Host.cards (Host.self w')) = Some card.
Proof.
  intros Hrun Hfetch Hlast.
  destruct (build_self _ _ _ _ Hrun) as (w3 & Hreg & -> & ->).
  destruct (register_each_app _ _ _ _ _ Hreg) as (w1 & _ & Hrest).
  simpl in Hrest.
  destruct (Host._register_remote_agent get_agent_card address w1)
    as [e|w2] eqn:Hstep; [discriminate|].
  destruct (register_each_other_names _ _ _ _ _ Hrest Hlast) as [-> ->].
  unfold Host._register_remote_agent in Hstep. rewrite Hfetch in Hstep.
  inversion Hstep; subst. cbn. now rewrite !get_set_same.
Qed.

Lemma last_answer_under_a_name_wins_witness :
  PyDict.get "Cartola"
    (Host.remote_agent_connections (Host.self twin_directory))
  = Some {| Host.agent_card :=
              {| Host.name := "Cartola"; Host.description := "plays choro" |};
            Host.agent_url := "http://localhost:10005" |} /\
  PyDict.get "Cartola" (Host.cards (Host.self twin_directory))
  = Some {| Host.name := "Cartola"; Host.description := "plays choro" |}.
Proof.
  apply (last_answer_under_a_name_wins twin_transport
           ["http://localhost:10002"] "http://localhost:10005" []
           {| Host.name := "Cartola"; Host.description := "plays choro" |}
           new_world twin_directory);
    [reflexivity | reflexivity | intros b c []].
Defined.

(* ================================================================== *)
(** ** Message identifiers *)

Section Identifiers.
Variable uuid4 : nat -> string.
Hypothesis supply : fresh_supply uuid4.

Lemma or_uuid4_spec x n :
  let r := Messages.or_uuid4 uuid4 x n in
  fst r <> "" /\
  ((exists s, x = Some s /\ s <> "" /\ r = (s, n)) \/
   ((x = None \/ x = Some "") /\ r = (uuid4 n, S n))).
Proof.
  destruct supply as [_ Hne]. unfold Messages.or_uuid4.
  destruct x as [s|]; cbv zeta.
  - destruct (String.eqb_spec s "") as [->|Hs]; cbn [fst].
    + split; [apply Hne | right; auto].
    + split; [exact Hs | left; eauto].
  - cbn [fst]. split; [apply Hne | right; auto].
Qed.

Lemma resolve_spec state n :
  exists t c n1 n2,
    Messages.or_uuid4 uuid4
      (PyDict.get "task_id"
         match state with Some d => d | None => PyDict.empty end) n = (t, n1) /\
    Messages.or_uuid4 uuid4
      (PyDict.get "context_id"
         match state with Some d => d | None => PyDict.empty end) n1 = (c, n2) /\
    Messages._resolve_message_identifiers uuid4 state n
    = ((uuid4 n2, t, c), S n2).
Proof.
  set (st := match state with Some d => d | None => PyDict.empty end).
  destruct (Messages.or_uuid4 uuid4 (PyDict.get "task_id" st) n)
    as [t n1] eqn:E1.
  destruct (Messages.or_uuid4 uuid4 (PyDict.get "context_id" st) n1)
    as [c n2] eqn:E2.
  exists t, c, n1, n2. split; [reflexivity|]. split; [exact E2|].
  unfold Messages._resolve_message_identifiers. fold st.
  now rewrite E1, E2.
Qed.

End Identifiers.

(** Message identifiers.  With identifiers drawn pairwise distinct and
    never empty, two successive resolutions on the same tool-context
    state give six non-empty identifiers; the two message identifiers
    differ; a task (or context) identifier the state stores, non-empty, is
    returned as stored both times; one the state does not store (no
    state, no such key, or an empty string) is drawn anew each time, so the
    two differ. *)
Theorem message_identifiers
        (uuid4 : nat -> string) (state : option (PyDict.dict string))
        (n : nat) :
  fresh_supply uuid4 ->
  let first := Messages._resolve_message_identifiers uuid4 state n in
  let second := Messages._resolve_message_identifiers uuid4 state (snd first) in
  let message_id r := fst (fst (fst r)) in
  let task_id r := snd (fst (fst r)) in
  let context_id (r : string * string * string * nat) := snd (fst r) in
  (forall r, r = first \/ r = second ->
     message_id r <> "" /\ task_id r <> "" /\ context_id r <> "") /\
  message_id first <> message_id second /\
  (forall s, stored state "task_id" = Some s ->
     task_id first = s /\ task_id second = s) /\
  (stored state "task_id" = None -> task_id first <> task_id second) /\
  (forall s, stored state "context_id" = Some s ->
     context_id first = s /\ context_id second = s) /\
  (stored state "context_id" = None ->
     context_id first <> context_id second) /\
  (n < snd first < snd second)%nat.
Proof.
  intros Hsupply. pose proof Hsupply as [Hinj Hne]. cbv zeta.
  destruct (resolve_spec uuid4 state n) as (t1 & c1 & a1 & a2 & Ht1 & Hc1 & ->).
  cbn [snd fst].
  destruct (resolve_spec uuid4 state (S a2))
    as (t2 & c2 & b1 & b2 & Ht2 & Hc2 & ->).
  cbn [snd fst].
  set (st := match state with Some d => d | None => PyDict.empty end) in *.
  pose proof (or_uuid4_spec uuid4 Hsupply (PyDict.get "task_id" st) n) as Pt1.
  pose proof (or_uuid4_spec uuid4 Hsupply (PyDict.get "context_id" st) a1)
    as Pc1.
  pose proof (or_uuid4_spec uuid4 Hsupply (PyDict.get "task_id" st) (S a2))
    as Pt2.
  pose proof (or_uuid4_spec uuid4 Hsupply (PyDict.get "context_id" st) b1)
    as Pc2.
  cbv zeta in Pt1, Pc1, Pt2, Pc2.
  rewrite Ht1 in Pt1. rewrite Hc1 in Pc1.
  rewrite Ht2 in Pt2. rewrite Hc2 in Pc2. cbn [fst] in *.
  destruct Pt1 as [Nt1 Pt1], Pc1 as [Nc1 Pc1],
           Pt2 as [Nt2 Pt2], Pc2 as [Nc2 Pc2].
  assert (Hn : (n <= a1 <= S n /\ a1 <= a2 <= S a1 /\
                S a2 <= b1 <= S (S a2) /\ b1 <= b2 <= S b1)%nat).
  { destruct Pt1 as [(s & _ & _ & E)|[_ E]],
             Pc1 as [(s' & _ & _ & E')|[_ E']],
             Pt2 as [(s2 & _ & _ & E2)|[_ E2]],
             Pc2 as [(s3 & _ & _ & E3)|[_ E3]];
      inversion E; inversion E'; inversion E2; inversion E3; lia. }
  unfold stored. subst st.
  destruct state as [d|]; cbn [PyDict.get PyDict.empty] in *.
  - split; [|split; [|split; [|split; [|split; [|split]]]]].
    + intros r [->| ->]; cbn [fst snd]; auto.
    + intros E. apply Hinj in E. lia.
    + intros s Hs.
      destruct (PyDict.get "task_id" d) as [x|]; [|discriminate].
      destruct (String.eqb_spec x ""); [discriminate|]. inversion Hs; subst x.
      destruct Pt1 as [(s1 & E & _ & R)|[[E|E] _]]; try congruence.
      destruct Pt2 as [(s2 & E2 & _ & R2)|[[E2|E2] _]]; try congruence.
      inversion R; inversion R2; subst. split; congruence.
    + intros Hs.
      assert (Hx : PyDict.get "task_id" d = None \/
                   PyDict.get "task_id" d = Some "").
      { destruct (PyDict.get "task_id" d) as [x|]; [|now left].
        destruct (String.eqb_spec x ""); [subst; now right | discriminate]. }
      destruct Pt1 as [(s1 & E & Hs1 & _)|[_ R]];
        [destruct Hx; congruence|].
      destruct Pt2 as [(s2 & E2 & Hs2 & _)|[_ R2]];
        [destruct Hx; congruence|].
      inversion R; inversion R2; subst. intros E. apply Hinj in E. lia.
    + intros s Hs.
      destruct (PyDict.get "context_id" d) as [x|]; [|discriminate].
      destruct (String.eqb_spec x ""); [discriminate|]. inversion Hs; subst x.
      destruct Pc1 as [(s1 & E & _ & R)|[[E|E] _]]; try congruence.
      destruct Pc2 as [(s2 & E2 & _ & R2)|[[E2|E2] _]]; try congruence.
      inversion R; inversion R2; subst. split; congruence.
    + intros Hs.
      assert (Hx : PyDict.get "context_id" d = None \/
                   PyDict.get "context_id" d = Some "").
      { destruct (PyDict.get "context_id" d) as [x|]; [|now left].
        destruct (String.eqb_spec x ""); [subst; now right | discriminate]. }
      destruct Pc1 as [(s1 & E & Hs1 & _)|[_ R]];
        [destruct Hx; congruence|].
      destruct Pc2 as [(s2 & E2 & Hs2 & _)|[_ R2]];
        [destruct Hx; congruence|].
      inversion R; inversion R2; subst. intros E. apply Hinj in E. lia.
    + lia.
  - split; [|split; [|split; [|split; [|split; [|split]]]]].
    + intros r [->| ->]; cbn [fst snd]; auto.
    + intros E. apply Hinj in E. lia.
    + discriminate.
    + intros _.
      destruct Pt1 as [(s1 & E & _)|[_ R]]; [discriminate|].
      destruct Pt2 as [(s2 & E2 & _)|[_ R2]]; [discriminate|].
      inversion R; inversion R2; subst. intros E. apply Hinj in E. lia.
    + discriminate.
    + intros _.
      destruct Pc1 as [(s1 & E & _)|[_ R]]; [discriminate|].
      destruct Pc2 as [(s2 & E2 & _)|[_ R2]]; [discriminate|].
      inversion R; inversion R2; subst. intros E. apply Hinj in E. lia.
    + lia.
Qed.

Lemma sample_uuid4_fresh : fresh_supply sample_uuid4.
Proof.
  split.
  - intros i. induction i as [|i IH]; intros [|j] H; simpl in H.
    + reflexivity.
    + destruct j; discriminate H.
    + destruct i; discriminate H.
    + inversion H as [E]. now rewrite (IH j E).
  - intros [|i]; discriminate.
Qed.

(** A state that stores the task identifier and no context identifier. *)
Lemma message_identifiers_witness :
  let state := Some [("task_id", "task-7"); ("context_id", "")] in
  let first := Messages._resolve_message_identifiers sample_uuid4 state 0 in
  let second :=
    Messages._resolve_message_identifiers sample_uuid4 state (snd first) in
  snd (fst (fst first)) = "task-7" /\ snd (fst (fst second)) = "task-7" /\
  snd (fst first) <> snd (fst second) /\
  fst (fst (fst first)) <> fst (fst (fst second)).
Proof.
  cbv zeta.
  pose proof (message_identifiers sample_uuid4
                (Some [("task_id", "task-7"); ("context_id", "")]) 0
                sample_uuid4_fresh) as H.
  cbv zeta in H. destruct H as (_ & Hm & Ht & _ & _ & Hc & _).
  destruct (Ht "task-7" eq_refl) as [H1 H2].
  split; [exact H1|]. split; [exact H2|]. split; [|exact Hm].
  apply Hc. reflexivity.
Defined.

(* ================================================================== *)
(** ** The text of a response *)

Lemma texts_not_empty parts s : In s (Messages.texts parts) -> s <> "".
Proof.
  induction parts as [|p parts IH]; simpl; [tauto|].
  unfold Messages.text_of.
  destruct (Messages.part_text p) as [x|]; [|exact IH].
  destruct (String.eqb_spec x ""); [exact IH|].
  intros [<-|Hin]; auto.
Qed.

Lemma join_empty sep lines :
  (forall s, In s lines -> s <> "") ->
  Host.join sep lines = "" -> lines = [].
Proof.
  destruct lines as [|l lines]; [reflexivity|]. intros Hne Hj. exfalso.
  assert (Hl : l <> "") by (apply Hne; now left).
  destruct l as [|c l]; [now apply Hl|].
  simpl in Hj. destruct lines; discriminate Hj.
Qed.

Lemma texts_app ps qs :
  Messages.texts (ps ++ qs) = Messages.texts ps ++ Messages.texts qs.
Proof.
  induction ps as [|p ps IH]; simpl; [reflexivity|].
  destruct (Messages.text_of p); simpl; now rewrite IH.
Qed.

Lemma extract_texts content :
  Messages._extract_response_text content
  = Host.join Host.newline (content_texts content).
Proof.
  destruct content as [[[|p parts]|]|]; reflexivity.
Qed.

(** The text of a response.  The extracted text is the non-empty texts
    of the parts joined by newlines, so it is empty exactly when no part
    carries a non-empty text (no content, no parts, or only parts without
    text); a part without text, wherever it stands, changes nothing; and
    a content made of text parts only gives their texts joined. *)
Theorem extracted_text_ignores_textless_parts :
  (forall content,
     Messages._extract_response_text content = "" <->
     content_texts content = []) /\
  (forall before part after,
     Messages.text_of part = None ->
     Messages._extract_response_text (Some (Some (before ++ part :: after)))
     = Messages._extract_response_text (Some (Some (before ++ after)))) /\
  (forall lines,
     (forall s, In s lines -> s <> "") ->
     Messages._extract_response_text
       (Some (Some (map (fun s => {| Messages.part_text := Some s |}) lines)))
     = Host.join Host.newline lines).
Proof.
  split; [|split].
  - intros content. rewrite extract_texts. split.
    + apply join_empty. destruct content as [[parts|]|]; simpl; try tauto.
      intros s. apply texts_not_empty.
    + now intros ->.
  - intros before part after Hp. rewrite !extract_texts. simpl.
    rewrite !texts_app. simpl. now rewrite Hp.
  - intros lines Hne. rewrite extract_texts. simpl. f_equal.
    induction lines as [|l lines IH]; simpl; [reflexivity|].
    unfold Messages.text_of at 1. simpl.
    destruct (String.eqb_spec l "") as [->|_].
    + exfalso. apply (Hne ""); [now left | reflexivity].
    + f_equal. apply IH. intros s Hs. apply Hne. now right.
Qed.

(* ================================================================== *)
(** ** Sending to the friends of the directory *)

Lemma collect_parts_concat (Part : Type) (artifacts : list (list Part)) :
  Messages.collect_parts artifacts = List.concat artifacts.
Proof.
  unfold Messages.collect_parts.
  assert (H : forall acc,
             fold_left (fun responses artifact => responses ++ artifact)
                       artifacts acc = acc ++ List.concat artifacts).
  { induction artifacts as [|a artifacts IH]; intros acc; simpl.
    - now rewrite app_nil_r.
    - now rewrite IH, app_assoc. }
  apply (H []).
Qed.

Lemma directory_ok_names host n :
  directory_ok host ->
  PyDict.get n (Host.remote_agent_connections host) = None <->
  PyDict.get n (Host.cards host) = None.
Proof.
  intros [Hkeys _]. rewrite !get_None_keys. now rewrite Hkeys.
Qed.

(** Sending follows the directory.  After a build that returns, on an
    instance whose two dictionaries agreed before: a message to the name
    of any friend whose card was fetched sends exactly one request, to
    the connection registered under that name, whose card bears that
    name; the request carries the task as its single text part and its
    own message identifier; the call returns the parts of all artifacts of
    the task in order, [None] when the answer is not a task, and lets an
    exception of the remote client through.  A message to a name the
    directory does not hold raises [ValueError] and sends nothing, draws
    no identifier and prints nothing. *)
Theorem send_message_follows_directory
        (Part : Type) (uuid4 : nat -> string)
        (remote_send : Host.RemoteAgentConnections ->
                       Messages.SendMessageRequest ->
                       Host.exception + Messages.SendMessageResponse Part)
        (get_agent_card : string -> Host.exception + Host.AgentCard)
        (addresses : list string) (w w' : Host.world)
        (task : string) (state : option (PyDict.dict string))
        (mw : Messages.world Part) :
  directory_ok (Host.self w) ->
  Host._async_init_components get_agent_card addresses w = inr w' ->
  (forall address card,
      In address addresses -> get_agent_card address = inr card ->
      exists connection request,
        PyDict.get (Host.name card)
                   (Host.remote_agent_connections (Host.self w'))
        = Some connection /\
        Host.name (Host.agent_card connection) = Host.name card /\
        Messages.parts (Messages.params request)
        = [{| Messages.type := "text"; Messages.text := task |}] /\
        Messages.id request = Messages.messageId (Messages.params request) /\
        Messages.sent
          (snd (Messages.send_message uuid4 remote_send (Host.self w')
                  (Host.name card) task state mw))
        = Messages.sent mw ++ [(connection, request)] /\
        fst (Messages.send_message uuid4 remote_send (Host.self w')
               (Host.name card) task state mw)
        = match remote_send connection request with
          | inl e => inl (Messages.Propagated e)
          | inr (Messages.TaskResult (Some artifacts)) =>
              inr (Some (List.concat artifacts))
          | inr (Messages.TaskResult None) => inr (Some [])
          | inr _ => inr None
          end) /\
  (forall agent_name,
      PyDict.get agent_name (Host.cards (Host.self w')) = None ->
      Messages.send_message uuid4 remote_send (Host.self w') agent_name task
        state mw
      = (inl (Messages.ValueError ("Agent " ++ agent_name ++ " not found")),
         mw)).
Proof.
  intros Hok Hrun.
  pose proof (build_keeps_directory_ok get_agent_card addresses w w' Hok Hrun)
    as Hok'.
  split.
  - intros address card Hin Hfetch.
    destruct (build_self _ _ _ _ Hrun) as (w1 & Hreg & Hc & Hk).
    destruct (register_each_lists get_agent_card addresses w w1 address card
                Hreg Hin Hfetch) as (card' & Hget & Hname).
    rewrite <- Hk in Hget.
    destruct (PyDict.get (Host.name card)
                (Host.remote_agent_connections (Host.self w')))
      as [connection|] eqn:Hconn.
    2:{ apply (directory_ok_names _ _ Hok') in Hconn. congruence. }
    destruct Hok' as [_ Hstep]. destruct (Hstep _ _ Hconn) as [_ Hn].
    unfold Messages.send_message. rewrite Hconn.
    destruct (Messages._resolve_message_identifiers uuid4 state
                (Messages.drawn mw)) as [[[m t] c] n].
    exists connection,
      {| Messages.id := m;
         Messages.params := Messages._build_message_payload task m t c |}.
    split; [reflexivity|]. split; [exact Hn|].
    split; [reflexivity|]. split; [reflexivity|].
    destruct (remote_send connection _) as [e|[error| |[artifacts|]]];
      cbn [fst snd Messages.sent]; split; try reflexivity.
    now rewrite collect_parts_concat.
  - intros agent_name Hnone.
    apply (directory_ok_names _ _ Hok') in Hnone.
    unfold Messages.send_message. now rewrite Hnone.
Qed.

Lemma send_message_follows_directory_witness :
  fst (Messages.send_message sample_uuid4 sample_remote
         (Host.self sample_directory) "Cartola" "Are you free on Saturday?"
         None sample_messages_world)
  = inr (Some ["free at 10:00"; "free at 11:00"; "bye"]) /\
  Messages.send_message sample_uuid4 sample_remote
    (Host.self sample_directory) "Bob" "Are you free on Saturday?"
    None sample_messages_world
  = (inl (Messages.ValueError "Agent Bob not found"), sample_messages_world).
Proof.
  destruct (send_message_follows_directory string sample_uuid4 sample_remote
              sample_transport sample_addresses new_world sample_directory
              "Are you free on Saturday?" None sample_messages_world
              directory_ok_init eq_refl) as [Hknown Hunknown].
  split.
  - destruct (Hknown "http://localhost:10002"
                {| Host.name := "Cartola"; Host.description := "plays samba" |})
      as (connection & request & _ & _ & _ & _ & _ & Hres);
      [vm_compute; tauto | reflexivity | exact Hres].
  - apply Hunknown. reflexivity.
Defined.

(* ================================================================== *)
(** ** Ordinals follow the order of dates *)

Lemma days_before_year_mono y y' :
  1 <= y -> y < y' -> days_before_year (y + 1) <= days_before_year y'.
Proof.
  intros Hy Hlt. unfold days_before_year. cbv zeta.
  replace (y + 1 - 1) with y by lia.
  Z.div_mod_to_equations. lia.
Qed.

Lemma days_in_month_pos y m : 28 <= days_in_month y m.
Proof.
  unfold days_in_month.
  destruct (m =? 2), (is_leap y),
    ((m =? 4) || (m =? 6) || (m =? 9) || (m =? 11)); lia.
Qed.

Lemma days_before_month_mono y m (k : nat) :
  1 <= m ->
  days_before_month y m + days_in_month y m
  <= days_before_month y (m + 1 + Z.of_nat k).
Proof.
  intros Hm. induction k as [|k IH].
  - rewrite Z.add_0_r, days_before_month_succ by lia. lia.
  - replace (m + 1 + Z.of_nat (S k)) with (m + 1 + Z.of_nat k + 1) by lia.
    rewrite days_before_month_succ by lia.
    pose proof (days_in_month_pos y (m + 1 + Z.of_nat k)). lia.
Qed.

Lemma day_of_year_le d :
  valid_date d = true ->
  days_before_month (year d) (month d) + day d
  <= if is_leap (year d) then 366 else 365.
Proof.
  intros Hv. destruct (valid_date_bounds d Hv) as (_ & Hm & Hd).
  rewrite <- days_in_year.
  destruct (Z.eq_dec (month d) 12) as [E|Hne]; [rewrite E in *; lia|].
  pose proof (days_before_month_mono (year d) (month d)
                (Z.to_nat (12 - (month d + 1))) ltac:(lia)) as H.
  rewrite Z2Nat.id in H by lia.
  replace (month d + 1 + (12 - (month d + 1))) with 12 in H by lia.
  pose proof (days_in_month_pos (year d) 12). lia.
Qed.

Lemma days_before_month_nonneg y m : 0 <= days_before_month y m.
Proof.
  unfold days_before_month. induction (Z.to_nat (m - 1)) as [|n IH]; simpl.
  - lia.
  - pose proof (days_in_month_pos y (Z.of_nat (S n))).
    change (Z.pos (Pos.of_succ_nat n)) with (Z.of_nat (S n)). lia.
Qed.

Lemma toordinal_lt a b :
  valid_date a = true -> valid_date b = true ->
  date_gtb b a = true -> toordinal a < toordinal b.
Proof.
  intros Ha Hb Hgt.
  destruct (valid_date_bounds a Ha) as (Hya & Hma & Hda).
  destruct (valid_date_bounds b Hb) as (Hyb & Hmb & Hdb).
  pose proof (day_of_year_le a Ha) as Hdoy.
  unfold date_gtb in Hgt. unfold toordinal.
  apply orb_true_iff in Hgt. destruct Hgt as [Hy|Hrest].
  - apply Z.ltb_lt in Hy.
    pose proof (days_before_year_mono (year a) (year b) ltac:(lia) Hy).
    rewrite days_before_year_succ in H by lia.
    pose proof (days_before_month_nonneg (year b) (month b)).
    destruct (is_leap (year a)); lia.
  - apply andb_true_iff in Hrest. destruct Hrest as [Hy Hrest].
    apply Z.eqb_eq in Hy. rewrite Hy in *.
    apply orb_true_iff in Hrest. destruct Hrest as [Hm|Hrest].
    + apply Z.ltb_lt in Hm.
      pose proof (days_before_month_mono (year a) (month a)
                    (Z.to_nat (month b - (month a + 1))) ltac:(lia)) as H.
      rewrite Z2Nat.id in H by lia.
      replace (month a + 1 + (month b - (month a + 1))) with (month b) in H
        by lia.
      lia.
    + apply andb_true_iff in Hrest. destruct Hrest as [Hm Hd].
      apply Z.eqb_eq in Hm. apply Z.ltb_lt in Hd. rewrite Hm. lia.
Qed.

Lemma date_trichotomy a b :
  a = b \/ date_gtb a b = true \/ date_gtb b a = true.
Proof.
  destruct a as [ya ma da], b as [yb mb db]. unfold date_gtb. simpl.
  destruct (Z.lt_trichotomy ya yb) as [H|[->|H]].
  - right. right. apply Z.ltb_lt in H. now rewrite H.
  - rewrite Z.ltb_irrefl, Z.eqb_refl. simpl.
    destruct (Z.lt_trichotomy ma mb) as [H|[->|H]].
    + right. right. apply Z.ltb_lt in H. now rewrite H.
    + rewrite Z.ltb_irrefl, Z.eqb_refl. simpl.
      destruct (Z.lt_trichotomy da db) as [H|[->|H]].
      * right. right. apply Z.ltb_lt in H. now rewrite H.
      * now left.
      * right. left. apply Z.ltb_lt in H. now rewrite H.
    + right. left. apply Z.ltb_lt in H. now rewrite H.
  - right. left. apply Z.ltb_lt in H. now rewrite H.
Qed.

Lemma toordinal_inj a b :
  valid_date a = true -> valid_date b = true ->
  toordinal a = toordinal b -> a = b.
Proof.
  intros Ha Hb E. destruct (date_trichotomy a b) as [H|[H|H]].
  - exact H.
  - pose proof (toordinal_lt b a Hb Ha H). lia.
  - pose proof (toordinal_lt a b Ha Hb H). lia.
Qed.

Lemma date_gtb_false_le a b :
  valid_date a = true -> valid_date b = true ->
  date_gtb a b = false -> toordinal a <= toordinal b.
Proof.
  intros Ha Hb H. destruct (date_trichotomy a b) as [->|[E|E]].
  - lia.
  - congruence.
  - pose proof (toordinal_lt a b Ha Hb E). lia.
Qed.

Lemma strptime_date_valid s d : strptime_date s = Some d -> valid_date d = true.
Proof.
  unfold strptime_date.
  destruct (strptime_fields fmt_date s) as [[|y [|m [|dd [|? ?]]]]|];
    try discriminate.
  destruct (valid_date (Date y m dd)) eqn:E; [|discriminate].
  intros H. inversion H; subst. exact E.
Qed.

(* ================================================================== *)
(** ** A friend's calendar: [sorted] *)

Lemma insert_perm x l : Permutation (Cartola.insert x l) (x :: l).
Proof.
  induction l as [|y l IH]; simpl; [reflexivity|].
  destruct (String.leb x y); [reflexivity|].
  rewrite IH. apply perm_swap.
Qed.

Lemma sorted_perm l : Permutation (Cartola.sorted l) l.
Proof.
  induction l as [|x l IH]; simpl; [reflexivity|].
  rewrite insert_perm. now constructor.
Qed.

Lemma insert_sorted x l :
  Sorted string_le l -> Sorted string_le (Cartola.insert x l).
Proof.
  induction l as [|y l IH]; simpl; intros Hs.
  - repeat constructor.
  - destruct (String.leb x y) eqn:E.
    + constructor; [exact Hs | constructor; exact E].
    + inversion Hs as [|? ? Hl Hhd]; subst.
      constructor; [now apply IH|].
      assert (Hyx : string_le y x).
      { destruct (String.leb_total x y) as [H|H]; [congruence | exact H]. }
      destruct l as [|z l]; simpl.
      * constructor. exact Hyx.
      * destruct (String.leb x z); constructor; [exact Hyx|].
        now inversion Hhd.
Qed.

Lemma sorted_sorted l : Sorted string_le (Cartola.sorted l).
Proof.
  induction l as [|x l IH]; simpl; [constructor | now apply insert_sorted].
Qed.

(* ================================================================== *)
(** ** A friend's calendar: generation *)

Section CartolaCalendar.
Variable sample : nat -> list string.

Lemma cartola_loop_keys today range calendar :
  NoDup (PyDict.keys calendar
           ++ map (fun i => strftime_date (add_days today i)) range) ->
  PyDict.keys (Cartola.generate_loop sample today range calendar)
  = PyDict.keys calendar
      ++ map (fun i => strftime_date (add_days today i)) range.
Proof.
  revert calendar. induction range as [|i range IH]; intros calendar Hnd;
    simpl.
  - now rewrite app_nil_r.
  - simpl in Hnd.
    assert (Hnew : ~ In (strftime_date (add_days today i))
                        (PyDict.keys calendar)).
    { apply NoDup_remove_2 in Hnd. intros Hin. apply Hnd.
      apply in_or_app. now left. }
    rewrite IH; rewrite keys_set_absent by exact Hnew.
    + now rewrite <- app_assoc.
    + rewrite <- app_assoc. exact Hnd.
Qed.

Lemma cartola_loop_outside today range calendar date_str :
  ~ In date_str (map (fun i => strftime_date (add_days today i)) range) ->
  PyDict.get date_str (Cartola.generate_loop sample today range calendar)
  = PyDict.get date_str calendar.
Proof.
  revert calendar. induction range as [|i range IH]; intros calendar Hout;
    simpl.
  - reflexivity.
  - rewrite IH by (intros Hin; apply Hout; now right).
    apply get_set_other. intros ->. apply Hout. now left.
Qed.

Lemma cartola_loop_day today range calendar i :
  NoDup (map (fun i => strftime_date (add_days today i)) range) ->
  In i range ->
  PyDict.get (strftime_date (add_days today i))
             (Cartola.generate_loop sample today range calendar)
  = Some (Cartola.sorted (sample i)).
Proof.
  revert calendar. induction range as [|j range IH]; intros calendar Hnd Hin;
    simpl; [destruct Hin|].
  inversion Hnd as [|? ? Hnotin Hrest]; subst.
  destruct Hin as [->|Hin].
  - rewrite cartola_loop_outside by exact Hnotin. apply get_set_same.
  - now apply IH.
Qed.

End CartolaCalendar.

(** A friend's calendar.  With [random.sample] giving eight distinct
    grid hours each time, and [today] a valid date of a four-digit year
    with six days left before the end of year 9999, the calendar
    generated holds exactly the seven dates today to today+6, in order,
    and each of them holds the hours sampled for it sorted in ascending
    order: eight distinct grid hours. *)
Theorem cartola_calendar_days
        (sample : nat -> list string) (today : date) :
  samples_ok sample ->
  valid_date today = true -> 1000 <= year today ->
  toordinal today + 6 <= toordinal (Date 9999 12 31) ->
  PyDict.keys (cartola_calendar sample today) = window today /\
  forall i, (i < 7)%nat ->
    exists slots,
      PyDict.get (strftime_date (add_days today i))
                 (cartola_calendar sample today) = Some slots /\
      Permutation slots (sample i) /\
      Sorted string_le slots /\
      List.length slots = 8%nat /\ NoDup slots /\ incl slots possible_times.
Proof.
  intros Hsample Hv Hy Hmax.
  pose proof (window_NoDup today Hv Hy Hmax) as Hnd.
  unfold cartola_calendar, Cartola.generate_cartola_calendar. cbn [fst].
  split.
  - now rewrite cartola_loop_keys.
  - intros i Hi. exists (Cartola.sorted (sample i)).
    destruct (Hsample i) as (Hlen & Hdistinct & Hgrid).
    pose proof (sorted_perm (sample i)) as Hperm.
    split; [|split; [exact Hperm|split; [apply sorted_sorted|split; [|split]]]].
    + apply cartola_loop_day; [exact Hnd | apply in_seq; lia].
    + now rewrite (Permutation_length Hperm).
    + exact (Permutation_NoDup (Permutation_sym Hperm) Hdistinct).
    + intros s Hs. apply Hgrid.
      exact (Permutation_in s Hperm Hs).
Qed.

Lemma sample_hours_ok : samples_ok sample_hours.
Proof.
  intros i. unfold sample_hours.
  assert (Hnd : forall l : list string,
             (forall a b, In a l -> In b l -> True) ->
             l = firstn 8 possible_times \/ l = firstn 8 (rev possible_times) ->
             List.length l = 8%nat /\ NoDup l /\ incl l possible_times).
  { intros l _ [-> | ->]; (split; [reflexivity|]); split.
    - vm_compute firstn.
      repeat (constructor;
              [ intros H; repeat (destruct H as [H|H]; [discriminate H|]);
                exact H | ]).
      constructor.
    - intros s Hs. vm_compute in Hs. rewrite possible_times_eq.
      repeat (destruct Hs as [<-|Hs]; [simpl; tauto|]). destruct Hs.
    - vm_compute firstn.
      repeat (constructor;
              [ intros H; repeat (destruct H as [H|H]; [discriminate H|]);
                exact H | ]).
      constructor.
    - intros s Hs. vm_compute in Hs. rewrite possible_times_eq.
      repeat (destruct Hs as [<-|Hs]; [simpl; tauto|]). destruct Hs. }
  destruct (Nat.even i); apply Hnd; auto.
Qed.

Lemma cartola_calendar_days_witness :
  PyDict.keys (cartola_calendar sample_hours august_1) = window august_1 /\
  exists slots,
    PyDict.get "2024-08-02" (cartola_calendar sample_hours august_1)
    = Some slots /\
    Permutation slots (sample_hours 1) /\
    Sorted string_le slots /\
    List.length slots = 8%nat /\ NoDup slots /\ incl slots possible_times.
Proof.
  destruct (cartola_calendar_days sample_hours august_1 sample_hours_ok)
    as [Hkeys Hdays];
    [reflexivity | vm_compute; discriminate | vm_compute; discriminate |].
  split; [exact Hkeys|]. apply (Hdays 1%nat). lia.
Defined.

(* ================================================================== *)
(** ** A friend's calendar: the availability report *)

Lemma valid_date_max d :
  valid_date d = true -> toordinal d <= toordinal (Date 9999 12 31).
Proof.
  intros Hv. apply date_gtb_false_le; [exact Hv | reflexivity|].
  destruct (valid_date_bounds d Hv) as (Hy & Hm & Hd).
  pose proof (days_in_month_le (year d) (month d)).
  unfold date_gtb. cbn [year month day].
  destruct (Z.ltb_spec 9999 (year d)); [lia|]. simpl.
  destruct (Z.ltb_spec 12 (month d)); [lia|]. simpl.
  destruct (Z.ltb_spec 31 (day d)); [lia|].
  now rewrite !andb_false_r.
Qed.

(** The availability report.  For every calendar and every pair of
    strings: if either does not parse as a date the answer is the
    invalid-format sentence; if both parse and the start is after the end
    it is the invalid-range sentence; otherwise (the start a date of a
    four-digit year) it is one sentence per day, joined by newlines, for
    the days from the start to the end inclusive in order: the first is
    about the start, the last about the end, sentence [i] about the valid
    date [i] ordinals after the start, and there are [end - start + 1] of
    them, at least one. *)
Theorem cartola_availability_report
        (CARTOLA_CALENDAR : PyDict.dict (list string))
        (start_date end_date : string) :
  let answer :=
    Cartola.get_cartola_availability CARTOLA_CALENDAR start_date end_date in
  (strptime_date start_date = None \/ strptime_date end_date = None ->
   answer
   = "Invalid date format. Please use YYYY-MM-DD for both start and end dates.")
  /\
  (forall start end_,
     strptime_date start_date = Some start ->
     strptime_date end_date = Some end_ ->
     (date_gtb start end_ = true ->
      answer
      = "Invalid date range. The start date cannot be after the end date.")
     /\
     (date_gtb start end_ = false -> 1000 <= year start ->
      exists n,
        Z.of_nat (S n) = toordinal end_ - toordinal start + 1 /\
        answer
        = Host.join Host.newline
            (map (Cartola.day_report CARTOLA_CALENDAR start) (seq 0 (S n))) /\
        add_days start 0 = start /\
        add_days start n = end_ /\
        forall i, (i <= n)%nat ->
          valid_date (add_days start i) = true /\
          toordinal (add_days start i) = toordinal start + Z.of_nat i)).
Proof.
  cbv zeta. unfold Cartola.get_cartola_availability. split.
  - intros [-> | H]; [reflexivity|]. rewrite H.
    now destruct (strptime_date start_date).
  - intros start end_ Hs He. rewrite Hs, He. split.
    + now intros ->.
    + intros Hle _. rewrite Hle.
      pose proof (strptime_date_valid _ _ Hs) as Hvs.
      pose proof (strptime_date_valid _ _ He) as Hve.
      pose proof (date_gtb_false_le start end_ Hvs Hve Hle) as Hord.
      pose proof (valid_date_max end_ Hve) as Hmax.
      exists (Z.to_nat (toordinal end_ - toordinal start)).
      assert (Hn : Z.to_nat (toordinal end_ - toordinal start + 1)
                   = S (Z.to_nat (toordinal end_ - toordinal start))) by lia.
      split; [lia|]. split; [now rewrite Hn|]. split; [reflexivity|].
      assert (Hdays : forall i,
                 (i <= Z.to_nat (toordinal end_ - toordinal start))%nat ->
                 valid_date (add_days start i) = true /\
                 toordinal (add_days start i) = toordinal start + Z.of_nat i).
      { intros i Hi. apply toordinal_add_days; [exact Hvs | lia]. }
      split; [|exact Hdays].
      destruct (Hdays _ (Nat.le_refl _)) as [Hvl Hol].
      apply toordinal_inj; [exact Hvl | exact Hve | lia].
Qed.

Lemma date_gtb_irrefl d : date_gtb d d = false.
Proof.
  unfold date_gtb. rewrite !Z.ltb_irrefl, !Z.eqb_refl. reflexivity.
Qed.

Lemma strftime_date_inj a b :
  valid_date a = true -> 1000 <= year a ->
  valid_date b = true -> 1000 <= year b ->
  strftime_date a = strftime_date b -> a = b.
Proof.
  intros Ha Hya Hb Hyb E.
  pose proof (strptime_date_strftime a Ha Hya) as Pa.
  pose proof (strptime_date_strftime b Hb Hyb) as Pb.
  rewrite E in Pa. congruence.
Qed.

(** Generation, then a one-day query.  With [random.sample] giving eight
    distinct grid hours each time and [today] as above, asking the
    friend's availability from a valid date of a four-digit year to that
    same date gives one sentence: for a date of the window, that the
    friend is available at the eight hours sampled for that day, in
    ascending order, separated by commas; for a date before today or
    after today+6, that the friend is not available. *)
Theorem cartola_day_query
        (sample : nat -> list string) (today d : date) :
  samples_ok sample ->
  valid_date today = true -> 1000 <= year today ->
  toordinal today + 6 <= toordinal (Date 9999 12 31) ->
  valid_date d = true -> 1000 <= year d ->
  let answer :=
    Cartola.get_cartola_availability (cartola_calendar sample today)
      (strftime_date d) (strftime_date d) in
  (forall i, (i < 7)%nat -> d = add_days today i ->
     Cartola.sorted (sample i) <> [] /\
     answer
     = ("On " ++ strftime_date d ++ ", Cartola is available at: "
          ++ Host.join ", " (Cartola.sorted (sample i)) ++ ".")%string) /\
  (toordinal d < toordinal today \/ toordinal today + 6 < toordinal d ->
   answer = ("Cartola is not available on " ++ strftime_date d ++ ".")%string).
Proof.
  intros Hsample Hv Hy Hmax Hvd Hyd. cbv zeta.
  pose proof (window_NoDup today Hv Hy Hmax) as Hnd.
  unfold Cartola.get_cartola_availability.
  rewrite (strptime_date_strftime d Hvd Hyd), date_gtb_irrefl.
  replace (toordinal d - toordinal d + 1) with 1 by lia.
  change (Z.to_nat 1) with 1%nat.
  cbn [seq map Host.join]. unfold Cartola.day_report. cbn [add_days].
  unfold PyDict.get_default, cartola_calendar,
    Cartola.generate_cartola_calendar. cbn [fst].
  split.
  - intros i Hi ->.
    rewrite cartola_loop_day by (try exact Hnd; apply in_seq; lia).
    destruct (Hsample i) as (Hlen & _ & _).
    pose proof (Permutation_length (sorted_perm (sample i))) as Hl.
    rewrite Hlen in Hl.
    destruct (Cartola.sorted (sample i)) as [|s slots];
      [discriminate Hl|].
    split; [discriminate | reflexivity].
  - intros Hout. rewrite cartola_loop_outside; [reflexivity|].
    intros Hin. apply in_map_iff in Hin. destruct Hin as (i & E & Hi).
    apply in_seq in Hi.
    destruct (toordinal_add_days today i Hv ltac:(lia)) as [Hvi Hoi].
    pose proof (year_add_days today i) as Hyi.
    apply strftime_date_inj in E; try assumption; [|lia].
    rewrite <- E in Hout. lia.
Qed.

Lemma cartola_day_query_witness :
  Cartola.get_cartola_availability (cartola_calendar sample_hours august_1)
    "2024-08-02" "2024-08-02"
  = "On 2024-08-02, Cartola is available at: 13:00, 14:00, 15:00, 16:00, 17:00, 18:00, 19:00, 20:00."
  /\
  Cartola.get_cartola_availability (cartola_calendar sample_hours august_1)
    "2024-07-31" "2024-07-31"
  = "Cartola is not available on 2024-07-31.".
Proof.
  split.
  - refine (proj2 (proj1 (cartola_day_query sample_hours august_1
                            (Date 2024 8 2) sample_hours_ok _ _ _ _ _)
                         1%nat _ _));
      try reflexivity; try lia; vm_compute; discriminate.
  - refine (proj2 (cartola_day_query sample_hours august_1
                     (Date 2024 7 31) sample_hours_ok _ _ _ _ _) _);
      try reflexivity; try (vm_compute; discriminate).
    left. vm_compute. reflexivity.
Defined.

(** A range over the end of a leap February. *)
Lemma cartola_availability_report_witness :
  Cartola.get_cartola_availability PyDict.empty "2024-02-28" "2024-03-01"
  = Host.join Host.newline
      ["Cartola is not available on 2024-02-28.";
       "Cartola is not available on 2024-02-29.";
       "Cartola is not available on 2024-03-01."] /\
  Cartola.get_cartola_availability PyDict.empty "2024-03-01" "2024-02-28"
  = "Invalid date range. The start date cannot be after the end date.".
Proof.
  pose proof (cartola_availability_report PyDict.empty
                "2024-02-28" "2024-03-01") as H1.
  pose proof (cartola_availability_report PyDict.empty
                "2024-03-01" "2024-02-28") as H2.
  cbv zeta in H1, H2. split.
  - destruct (proj2 (proj2 H1 (Date 2024 2 28) (Date 2024 3 1)
                       eq_refl eq_refl) eq_refl ltac:(vm_compute; discriminate))
      as (n & Hn & Hans & _).
    change (toordinal (Date 2024 3 1) - toordinal (Date 2024 2 28) + 1)
      with 3 in Hn.
    assert (n = 2%nat) by lia. subst n. exact Hans.
  - exact (proj1 (proj2 H2 (Date 2024 3 1) (Date 2024 2 28)
                    eq_refl eq_refl) eq_refl).
Defined.

(* ================================================================== *)
(** ** The expansion loop and the range of [datetime] *)

(** While the cursor stays in range the loop raises nothing and builds
    the slots of [slots_loop]. *)
Lemma slots_loop_checked_in_range fuel cur e :
  (rounds cur e <= fuel)%nat ->
  cur + 60 * Z.of_nat (rounds cur e) <= datetime_max ->
  slots_loop_checked fuel cur e = Some (slots_loop fuel cur e).
Proof.
  revert cur. induction fuel as [|fuel IH]; intros cur Hf Hmax;
    cbn [slots_loop_checked slots_loop]; [reflexivity|].
  destruct (Z.ltb_spec cur e) as [Hlt|Hge]; [|reflexivity].
  rewrite (rounds_step Hlt) in Hf, Hmax.
  destruct (Z.leb_spec (cur + 60) datetime_max) as [_|Hover]; [|lia].
  rewrite IH by lia. reflexivity.
Qed.

(** When the cursor would pass [datetime.max] the loop raises. *)
Lemma slots_loop_checked_overflow fuel cur e :
  (rounds cur e <= fuel)%nat ->
  cur <= datetime_max ->
  datetime_max < cur + 60 * Z.of_nat (rounds cur e) ->
  slots_loop_checked fuel cur e = None.
Proof.
  revert cur. induction fuel as [|fuel IH]; intros cur Hf Hcur Hmax.
  - replace (rounds cur e) with O in Hmax by lia. lia.
  - cbn [slots_loop_checked].
    destruct (Z.ltb_spec cur e) as [Hlt|Hge].
    + rewrite (rounds_step Hlt) in Hf, Hmax.
      destruct (Z.leb_spec (cur + 60) datetime_max) as [Hin|_];
        [|reflexivity].
      rewrite IH by lia. reflexivity.
    + rewrite (@rounds_done cur e Hge) in Hmax. lia.
Qed.

(** [expansion_in_range] is the condition under which line 104 raises
    nothing: the checked loop then returns [required_slots]. *)
Lemma required_slots_checked_in_range start_dt end_dt :
  expansion_in_range start_dt end_dt ->
  required_slots_checked start_dt end_dt
  = Some (required_slots start_dt end_dt).
Proof.
  intros H. apply slots_loop_checked_in_range; [apply rounds_le|exact H].
Qed.

(** Outside it, from a start within the range, the loop raises. *)
Lemma required_slots_checked_overflow start_dt end_dt :
  start_dt <= datetime_max ->
  ~ expansion_in_range start_dt end_dt ->
  required_slots_checked start_dt end_dt = None.
Proof.
  intros Hs H. apply slots_loop_checked_overflow;
    [apply rounds_le|exact Hs|unfold expansion_in_range in H; lia].
Qed.

(** The last evening of the range: 23:00 to 23:30 on 9999-12-31 raises,
    the same request a day earlier does not. *)
Lemma required_slots_checked_last_day :
  required_slots_checked (mk_datetime (Date 9999 12 31) 23 0)
                         (mk_datetime (Date 9999 12 31) 23 30) = None /\
  required_slots_checked (mk_datetime (Date 9999 12 30) 23 0)
                         (mk_datetime (Date 9999 12 30) 23 30)
  = Some ["23:00"].
Proof. split; reflexivity. Qed.
